(** * ShekarchAI career coach: the API routes and the search library

    A shallow embedding of the server side of the repository:
    - [lib/elasticsearch.ts]               (module [EsLib]),
    - [app/api/search-jobs/route.ts]       (module [SearchJobs]),
    - [app/api/scrape-jobs/route.ts]       (module [ScrapeJobs]),
    - [app/api/scrape-linkedin/route.ts]   (module [ScrapeLinkedin]),
    - [app/api/job-statistics/route.ts]    (module [JobStatistics]),
    and of what the chat page and the libraries add to it:
    - [components/ChatInterface.tsx], the request of [handleSendMessage]
                                           (module [ChatInterface]),
    - [lib/config.ts]                      (module [Config]),
    - [lib/linkedin-utils.ts], the profile analysis
                                           (module [LinkedinUtils]).

    The handlers are sequential [async] functions whose only effects are
    outbound HTTP calls, the clock, [Math.random], [setTimeout] sleeps and
    reads of [process.env].  They are written here in a small state and
    exception monad over a [World] that answers those effects; the state
    keeps the trace of what the handler did.

    Text is modelled by [string], read as a sequence of UTF-16 code units
    below 256 (the Latin-1 repertoire), and on these [trim],
    [toUpperCase], [toLowerCase], [encodeURIComponent] and
    [JSON.stringify] below are the ECMAScript ones.  Such a string has no
    surrogate, so it is always well formed. *)

From Stdlib Require Import String Ascii List ZArith Lia Bool Arith.
From Stdlib Require Import DecimalString.
From Stdlib Require QArith.
Import ListNotations.
Local Open Scope string_scope.
Local Open Scope nat_scope.

(* ===================================================================== *)
(** ** ECMAScript built-ins used by the routes *)
(* ===================================================================== *)

Module JS.

Definition code (c : ascii) : nat := nat_of_ascii c.

(** The double quote and the line feed, by code. *)
Definition dquote : ascii := ascii_of_nat 34.
Definition lf : ascii := ascii_of_nat 10.
Definition dq : string := String dquote EmptyString.
Definition nl : string := String lf EmptyString.

(** WhiteSpace and LineTerminator code units below 256:
    TAB, LF, VT, FF, CR, SPACE and NO-BREAK SPACE. *)
Definition isWhiteSpace (c : ascii) : bool :=
  ((9 <=? code c) && (code c <=? 13)) || (code c =? 32) || (code c =? 160).

Fixpoint trimStart (s : string) : string :=
  match s with
  | EmptyString => EmptyString
  | String c s' => if isWhiteSpace c then trimStart s' else s
  end.

Fixpoint trimEnd (s : string) : string :=
  match s with
  | EmptyString => EmptyString
  | String c s' =>
      match trimEnd s' with
      | EmptyString => if isWhiteSpace c then EmptyString else String c EmptyString
      | t => String c t
      end
  end.

(** [String.prototype.trim] *)
Definition trim (s : string) : string := trimEnd (trimStart s).

(** The lower case of a code unit below 256: the letters A to Z and
    those of U+00C0 to U+00DE, the multiplication sign U+00D7 apart, are
    32 below their lower case. *)
Definition lowerChar (c : ascii) : ascii :=
  let n := code c in
  if ((65 <=? n) && (n <=? 90)) ||
     (((192 <=? n) && (n <=? 222)) && negb (n =? 215))
  then ascii_of_nat (n + 32) else c.

(** The upper case of a code unit below 256, as code units: the letters
    a to z and those of U+00E0 to U+00FE, the division sign U+00F7
    apart, are 32 above their upper case; the sharp s U+00DF becomes SS,
    the micro sign U+00B5 the Greek capital MU U+039C and U+00FF the
    capital Y with diaeresis U+0178. *)
Definition upperUnits (c : ascii) : list nat :=
  let n := code c in
  if ((97 <=? n) && (n <=? 122)) ||
     (((224 <=? n) && (n <=? 254)) && negb (n =? 247))
  then [n - 32]
  else if n =? 223 then [83; 83]
  else if n =? 181 then [924]
  else if n =? 255 then [376]
  else [n].

Fixpoint mapChars (f : ascii -> ascii) (s : string) : string :=
  match s with
  | EmptyString => EmptyString
  | String c s' => String (f c) (mapChars f s')
  end.

(** [String.prototype.toLowerCase] *)
Definition toLowerCase : string -> string := mapChars lowerChar.

(** The code units of a string. *)
Definition units (s : string) : list nat := map code (list_ascii_of_string s).

(** [String.prototype.toUpperCase].  The upper case of a string of code
    units below 256 need not stay below 256 nor keep its length: it is
    given by its code units. *)
Definition toUpperCase (s : string) : list nat :=
  flat_map upperUnits (list_ascii_of_string s).

(** [a === b] on strings given by their code units. *)
Fixpoint sameUnits (a b : list nat) : bool :=
  match a, b with
  | [], [] => true
  | x :: a', y :: b' => (x =? y) && sameUnits a' b'
  | _, _ => false
  end.

(** [s.substring(0, n)]: the first [n] code units of [s], all of [s]
    when it is shorter. *)
Fixpoint substring0 (n : nat) (s : string) : string :=
  match n, s with
  | S n', String c s' => String c (substring0 n' s')
  | _, _ => EmptyString
  end.

(** [a.slice(0, n)] for [n >= 0] *)
Definition sliceTo {A} (n : nat) (l : list A) : list A := firstn n l.

(** [a.slice(-n)] for [n > 0]: the last [n] elements, all of [a] when it
    is shorter (the start index is [max (length - n) 0]). *)
Definition sliceLast {A} (n : nat) (l : list A) : list A :=
  skipn (length l - n) l.

(** [x || d] on a possibly undefined string: the empty string is falsy. *)
Definition orStr (x : option string) (d : string) : string :=
  match x with
  | Some (String c s) => String c s
  | _ => d
  end.

(** [x || d] on a possibly undefined number: [0] is falsy. *)
Definition orNum (x : option Z) (d : Z) : Z :=
  match x with
  | Some z => if (z =? 0)%Z then d else z
  | None => d
  end.

(** [x || d] on a possibly undefined array: every array is truthy. *)
Definition orArr {A} (x : option (list A)) (d : list A) : list A :=
  match x with
  | Some l => l
  | None => d
  end.

(** Truthiness of a string, [!!s]. *)
Definition truthy (s : string) : bool :=
  match s with
  | EmptyString => false
  | _ => true
  end.

(** [a.join(sep)] on an array of strings *)
Fixpoint join (sep : string) (l : list string) : string :=
  match l with
  | [] => EmptyString
  | [x] => x
  | x :: rest => x ++ sep ++ join sep rest
  end.

(** [Number.prototype.toString] on an integer *)
Definition showZ (z : Z) : string := NilZero.string_of_int (Z.to_int z).

Definition hexDigit (n : nat) : ascii :=
  if n <? 10 then ascii_of_nat (48 + n) else ascii_of_nat (55 + n).

(** [encodeURIComponent]: the unreserved marks, digits and letters are
    kept, every other code unit becomes the [%XX] of each byte of its
    UTF-8 encoding: one byte below 128, two bytes from 128 to 255. *)
Definition isUnreserved (c : ascii) : bool :=
  let n := code c in
  ((65 <=? n) && (n <=? 90)) || ((97 <=? n) && (n <=? 122)) ||
  ((48 <=? n) && (n <=? 57)) ||
  existsb (Nat.eqb n) [45; 95; 46; 33; 126; 42; 39; 40; 41].

Definition percent (byte : nat) (rest : string) : string :=
  String "%" (String (hexDigit (byte / 16)) (String (hexDigit (byte mod 16)) rest)).

Fixpoint encodeURIComponent (s : string) : string :=
  match s with
  | EmptyString => EmptyString
  | String c s' =>
      let n := code c in
      if isUnreserved c then String c (encodeURIComponent s')
      else if n <? 128 then percent n (encodeURIComponent s')
      else percent (192 + n / 64) (percent (128 + n mod 64) (encodeURIComponent s'))
  end.

End JS.

(* ===================================================================== *)
(** ** JSON values and [JSON.stringify] *)
(* ===================================================================== *)

Module Json.
Import JS.

(** The characters of the decimal literal of a non-integer number. *)
Inductive numchar :=
| Digit (d : nat) | Minus | Plus | Dot | Exp.

Definition numcharAscii (c : numchar) : ascii :=
  match c with
  | Digit d => ascii_of_nat (48 + d mod 10)
  | Minus => "-"%char
  | Plus => "+"%char
  | Dot => "."%char
  | Exp => "e"%char
  end.

(** A fractional number is kept as its literal, the way
    [Number.prototype.toString] prints it. *)
Definition float := list numchar.

Definition showFloat (x : float) : string :=
  string_of_list_ascii (map numcharAscii x).

#[warnings="-register-all"]
Inductive json :=
| JNull
| JBool (b : bool)
| JInt (z : Z)
| JFloat (x : float)
| JStr (s : string)
| JArr (items : list json)
| JObj (fields : list (string * json)).

(** QuoteJSONString: the quote, the backslash and the control
    characters are escaped. *)
Definition escapeChar (c : ascii) : string :=
  let n := code c in
  if n =? 34 then String "\" dq
  else if n =? 92 then "\\"
  else if n =? 8 then "\b"
  else if n =? 9 then "\t"
  else if n =? 10 then "\n"
  else if n =? 12 then "\f"
  else if n =? 13 then "\r"
  else if n <? 32 then "\u00" ++ String (hexDigit (n / 16))
                                  (String (lowerChar (hexDigit (n mod 16))) EmptyString)
  else String c EmptyString.

Fixpoint escape (s : string) : string :=
  match s with
  | EmptyString => EmptyString
  | String c s' => escapeChar c ++ escape s'
  end.

Definition quote (s : string) : string := dq ++ escape s ++ dq.

(** [JSON.stringify(v)] with no indentation. *)
Fixpoint stringify (j : json) : string :=
  match j with
  | JNull => "null"
  | JBool true => "true"
  | JBool false => "false"
  | JInt z => showZ z
  | JFloat x => showFloat x
  | JStr s => quote s
  | JArr items => "[" ++ join "," (map stringify items) ++ "]"
  | JObj fields =>
      "{" ++ join "," (map (fun kv => quote (fst kv) ++ ":" ++ stringify (snd kv)) fields)
          ++ "}"
  end.

(** An object literal whose properties may be [undefined]:
    [JSON.stringify] leaves those out. *)
Fixpoint object (props : list (string * option json)) : list (string * json) :=
  match props with
  | [] => []
  | (k, Some v) :: rest => (k, v) :: object rest
  | (_, None) :: rest => object rest
  end.

Definition optStr (x : option string) : option json := option_map JStr x.
Definition strs (l : list string) : json := JArr (map JStr l).

End Json.

(* ===================================================================== *)
(** ** The records of [lib/types.ts] and [lib/elasticsearch.ts] *)
(* ===================================================================== *)

Module Types.
Import Json.

(** [ElasticsearchJobData]: every property is optional. *)
Record ElasticsearchJobData := {
  es_id : option string;
  es_title : option string;
  es_company : option string;
  es_location : option string;
  es_description : option string;
  es_salary : option string;
  es_jobType : option string;
  es_experienceLevel : option string;
  es_postedDate : option string;
  es_url : option string;
  es_companySize : option string;
  es_industry : option string;
  es_requirements : option (list string);
  es_benefits : option (list string);
  es_scrapedAt : option string;
  es_keywords : option (list string);
  es_vector : option (list float) }.

(** One entry of [response.hits.hits] and what the search functions make
    of it, [{...hit._source, _id: hit._id, _score: hit._score}].  With a
    [sort] clause the service reports the score as [null]. *)
Record Hit := {
  _source : ElasticsearchJobData;
  _id : string;
  _score : option float }.

Record FoundJob := {
  job : ElasticsearchJobData;
  job_id : string;
  job_score : option float }.

(** [JobData] of [lib/types.ts], the shape of an item of the job actor's
    dataset and of a processed job. *)
Record JobData := {
  id : option string;
  trackingId : option string;
  refId : option string;
  link : option string;
  title : option string;
  companyName : option string;
  companyLinkedinUrl : option string;
  companyLogo : option string;
  location : option string;
  salaryInfo : option (list string);
  postedAt : option string;
  benefits : option (list string);
  descriptionHtml : option string;
  descriptionText : option string;
  applicantsCount : option string;
  applyUrl : option string;
  salary : option string;
  seniorityLevel : option string;
  employmentType : option string;
  jobFunction : option string;
  industries : option string;
  inputUrl : option string;
  companyAddress : option (list (string * string));
  companyWebsite : option string;
  companySlogan : option string;
  companyDescription : option string;
  companyEmployeesCount : option Z;
  jobPosterName : option string;
  jobPosterTitle : option string;
  jobPosterPhoto : option string;
  jobPosterProfileUrl : option string;
  scrapedAt : option string }.

(** [LinkedInProfileData] of [lib/types.ts].  The entries of the detailed
    sections are copied as they come and stay JSON values. *)
Record LinkedInProfileData := {
  linkedinUrl : option string;
  firstName : option string;
  lastName : option string;
  fullName : option string;
  headline : option string;
  connections : option Z;
  followers : option Z;
  email : option string;
  mobileNumber : option string;
  jobTitle : option string;
  p_companyName : option string;
  companyIndustry : option string;
  p_companyWebsite : option string;
  companyLinkedin : option string;
  companyFoundedIn : option Z;
  companySize : option string;
  currentJobDuration : option string;
  currentJobDurationInYrs : option Z;
  topSkillsByEndorsements : option string;
  addressCountryOnly : option string;
  addressWithCountry : option string;
  addressWithoutCountry : option string;
  profilePic : option string;
  profilePicHighQuality : option string;
  about : option string;
  publicIdentifier : option string;
  experiences : option (list json);
  educations : option (list json);
  skills : option (list json);
  licenseAndCertificates : option (list json);
  volunteerAndAwards : option (list json);
  interests : option (list json);
  p_scrapedAt : option string }.

(** The request body of [POST /api/search-jobs]. *)
Inductive Role := user | assistant.

Record ChatTurn := {
  role : Role;
  content : string;
  timestamp : string }.

Record UserProfile := {
  position : string;
  experienceLevel : string;
  linkedinData : option LinkedInProfileData }.

(** [{ data: { id, status } }], a run of an actor. *)
Record RunData := {
  run_id : string;
  run_status : string }.

(** [createSuccessResponse(data)] and [createErrorResponse(message,
    status)] of [lib/security.ts]: the envelope [{success, data|error}]. *)
Inductive NextResponse (A : Type) :=
| SuccessResponse (data : A)
| ErrorResponse (message : string) (status : Z).
Arguments SuccessResponse {A} data.
Arguments ErrorResponse {A} message status.

End Types.

(* ===================================================================== *)
(** ** Effects: outbound calls, clock, randomness, environment *)
(* ===================================================================== *)

Module Eff.
Import Json Types.

Record request := {
  url : string;
  method : string;
  headers : list (string * string);
  body : option string }.

(** What [fetch] resolves to.  [text] is the body as [response.text()]
    gives it; [json_body] is the parsed body, [None] when the body is not
    JSON and [response.json()] rejects. *)
Record response (A : Type) := {
  ok : bool;
  status : Z;
  text : string;
  json_body : option A }.
Arguments ok {A} r.
Arguments status {A} r.
Arguments text {A} r.
Arguments json_body {A} r.

Inductive exn :=
| Error (message : string)
| TypeError (message : string)
| ReferenceError (message : string)
| SyntaxError (message : string).

Inductive fetched (A : Type) :=
| Rejected (e : exn)
| Resolved (r : response A).
Arguments Rejected {A} e.
Arguments Resolved {A} r.

(** The world outside the process.  The [n]-th outbound call of a handler
    (counting from 0) is answered by the service it addresses, in the
    shape that service documents. *)
Record World := {
  gemini : nat -> request -> fetched (option string);
  search : nat -> request -> fetched (option (list Hit));
  aggregate : nat -> request -> fetched json;
  elastic : nat -> request -> fetched json;
  jobItems : nat -> request -> fetched (list JobData);
  profileItems : nat -> request -> fetched (list LinkedInProfileData);
  runs : nat -> request -> fetched RunData;
  env : string -> option string;
  clock : nat -> string;
  dice : nat -> float }.

(** What a handler did, in order.  Besides the outbound calls and the
    sleeps the trace records the entry into the steps of the
    search-jobs pipeline. *)
Inductive event :=
| Fetch (req : request)
| Sleep (ms : Z)
| CallGemini (prompt : string)
| CallDecide (question : string)
| CallGenerateQuery (question : string)
| CallTextSearch (query : string)
| CallCompose (question : string) (searchResults : list FoundJob)
    (chatHistory : list ChatTurn).

(** How many outbound calls, clock readings and random draws the
    handler has made so far. *)
Record state := {
  calls : nat;
  reads : nat;
  draws : nat }.

Definition start : state := {| calls := 0; reads := 0; draws := 0 |}.

(** Completions of a statement list: it runs to its end, throws, or
    executes [return]. *)
Inductive completion (R A : Type) :=
| Normal (a : A)
| Throw (e : exn)
| Return (r : R).
Arguments Normal {R A} a.
Arguments Throw {R A} e.
Arguments Return {R A} r.

(** A computation maps the counters to its completion, the new counters
    and the events it produced, oldest first. *)
Definition M (R A : Type) : Type := state -> completion R A * state * list event.

Definition ret {R A} (a : A) : M R A := fun s => (Normal a, s, []).

Definition bind {R A B} (m : M R A) (k : A -> M R B) : M R B :=
  fun s =>
    match m s with
    | (Normal a, s1, t1) =>
        match k a s1 with
        | (c, s2, t2) => (c, s2, t1 ++ t2)%list
        end
    | (Throw e, s1, t1) => (Throw e, s1, t1)
    | (Return r, s1, t1) => (Return r, s1, t1)
    end.

Definition throw {R A} (e : exn) : M R A := fun s => (Throw e, s, []).

Definition return_ {R A} (r : R) : M R A := fun s => (Return r, s, []).

(** [try { body } catch (e) { handler }] *)
Definition tryCatch {R A} (body : M R A) (handler : exn -> M R A) : M R A :=
  fun s =>
    match body s with
    | (Throw e, s1, t1) =>
        match handler e s1 with
        | (c, s2, t2) => (c, s2, t1 ++ t2)%list
        end
    | other => other
    end.

(** [await f(...)]: the callee's [return] is the value of the call. *)
Definition call {R A} (f : M A A) : M R A :=
  fun s =>
    match f s with
    | (Normal a, s1, t1) => (Normal a, s1, t1)
    | (Return a, s1, t1) => (Normal a, s1, t1)
    | (Throw e, s1, t1) => (Throw e, s1, t1)
    end.

Definition log {R} (ev : event) : M R unit :=
  fun s => (Normal tt, s, [ev]).

(** [await fetch(url, options)] against one of the services. *)
Definition fetch {R A} (service : nat -> request -> fetched A) (req : request)
  : M R (response A) :=
  fun s =>
    let s' := {| calls := S (calls s); reads := reads s; draws := draws s |} in
    match service (calls s) req with
    | Rejected e => (Throw e, s', [Fetch req])
    | Resolved r => (Normal r, s', [Fetch req])
    end.

(** [await response.json()] *)
Definition readJson {R A} (r : response A) : M R A :=
  match json_body r with
  | Some a => ret a
  | None => throw (SyntaxError "Unexpected token in JSON")
  end.

(** [new Date().toISOString()] *)
Definition now {R} (W : World) : M R string :=
  fun s => (Normal (clock W (reads s)),
            {| calls := calls s; reads := S (reads s); draws := draws s |}, []).

(** [Math.random() * 10] *)
Definition random10 {R} (W : World) : M R float :=
  fun s => (Normal (dice W (draws s)),
            {| calls := calls s; reads := reads s; draws := S (draws s) |}, []).

(** [await new Promise(resolve => setTimeout(resolve, ms))] *)
Definition sleep {R} (ms : Z) : M R unit := log (Sleep ms).

Fixpoint mapM {R A B} (f : A -> M R B) (l : list A) : M R (list B) :=
  match l with
  | [] => ret []
  | x :: rest =>
      bind (f x) (fun y => bind (mapM f rest) (fun ys => ret (y :: ys)))
  end.

(** A handler invoked on a fresh request: what it answers (or throws)
    and the events of the invocation. *)
Definition answer {R} (handler : M R R) : completion R R :=
  fst (fst (call (R := R) handler start)).

Definition events {R} (handler : M R R) : list event :=
  snd (call (R := R) handler start).

(** The outbound calls of a trace, in order. *)
Fixpoint fetches (t : list event) : list request :=
  match t with
  | [] => []
  | Fetch req :: rest => req :: fetches rest
  | _ :: rest => fetches rest
  end.

Declare Scope eff_scope.
Delimit Scope eff_scope with eff.
Notation "x <- m ;; k" := (bind m (fun x => k))
  (at level 61, m at next level, right associativity) : eff_scope.
Notation "m ;; k" := (bind m (fun _ => k))
  (at level 61, right associativity) : eff_scope.

End Eff.

(* ===================================================================== *)
(** ** [lib/elasticsearch.ts] *)
(* ===================================================================== *)

Module EsLib.
Import JS Json Types Eff.
Local Open Scope eff_scope.

Definition ELASTICSEARCH_URL : string :=
  "https://my-elasticsearch-project-fd08a5.es.us-central1.gcp.elastic.cloud:443".
Definition INDEX_NAME : string := "linkedin-jobs-webhook".

Section Lib.
(** The key literal [ELASTICSEARCH_API_KEY] of the file is a credential
    and is not repeated: the library is read for any key. *)
Variable ELASTICSEARCH_API_KEY : string.
Variable W : World.

(** [elasticsearchRequest(endpoint, options)]; [service] says which
    part of the search service the endpoint addresses. *)
Definition elasticsearchRequest {R A} (service : nat -> request -> fetched A)
    (endpoint : string) (method : string) (body : string) : M R A :=
  let url := ELASTICSEARCH_URL ++ endpoint in
  response <- fetch service
    {| url := url; method := method;
       headers := [("Authorization", "ApiKey " ++ ELASTICSEARCH_API_KEY);
                   ("Content-Type", "application/json")];
       body := Some body |} ;;
  if negb (ok response) then
    let errorText := text response in
    throw (Error ("Elasticsearch request failed: " ++ showZ (status response)
                    ++ " - " ++ errorText))
  else readJson response.

Definition textField : json :=
  JObj [("type", JStr "text"); ("analyzer", JStr "standard");
        ("fields", JObj [("keyword", JObj [("type", JStr "keyword")])])].
Definition keywordField : json := JObj [("type", JStr "keyword")].
Definition dateField : json := JObj [("type", JStr "date")].

Definition indexMapping : json :=
  JObj [("properties", JObj [
    ("vector", JObj [("type", JStr "dense_vector"); ("dims", JInt 3)]);
    ("text", JObj [("type", JStr "text")]);
    ("id", keywordField);
    ("title", textField);
    ("company", textField);
    ("location", textField);
    ("description", JObj [("type", JStr "text"); ("analyzer", JStr "standard")]);
    ("salary", keywordField);
    ("jobType", keywordField);
    ("experienceLevel", keywordField);
    ("postedDate", dateField);
    ("url", keywordField);
    ("companySize", keywordField);
    ("industry", textField);
    ("requirements", keywordField);
    ("benefits", keywordField);
    ("scrapedAt", dateField);
    ("keywords", keywordField)])].

(** [initializeElasticsearchIndex()]: the catch clause logs and
    rethrows. *)
Definition initializeElasticsearchIndex {R} : M R unit :=
  tryCatch
    (_ <- elasticsearchRequest (elastic W) ("/" ++ INDEX_NAME ++ "/_mapping")
            "PUT" (stringify indexMapping) ;;
     ret tt)
    (fun error => throw error).

(** The own properties of a job, in the order of the interface. *)
Definition jobProps (j : ElasticsearchJobData) : list (string * option json) :=
  [("id", optStr (es_id j));
   ("title", optStr (es_title j));
   ("company", optStr (es_company j));
   ("location", optStr (es_location j));
   ("description", optStr (es_description j));
   ("salary", optStr (es_salary j));
   ("jobType", optStr (es_jobType j));
   ("experienceLevel", optStr (es_experienceLevel j));
   ("postedDate", optStr (es_postedDate j));
   ("url", optStr (es_url j));
   ("companySize", optStr (es_companySize j));
   ("industry", optStr (es_industry j));
   ("requirements", option_map strs (es_requirements j));
   ("benefits", option_map strs (es_benefits j));
   ("scrapedAt", optStr (es_scrapedAt j));
   ("keywords", option_map strs (es_keywords j))].

Definition actionLine : json :=
  JObj [("index", JObj [("_index", JStr INDEX_NAME)])].

(** [{...job, vector: vector, text: `${title} ${company} ${description}`.trim()}] *)
Definition documentLine (j : ElasticsearchJobData) (vector : list float) : json :=
  JObj (object (jobProps j ++
    [("vector", Some (JArr (map JFloat vector)));
     ("text", Some (JStr (trim (orStr (es_title j) "" ++ " " ++
                                orStr (es_company j) "" ++ " " ++
                                orStr (es_description j) ""))))])%list).

(** The callback of [jobs.map]: three draws for the placeholder vector,
    then the action and the document. *)
Definition bulkPair {R} (j : ElasticsearchJobData) : M R (list json) :=
  x <- random10 W ;;
  y <- random10 W ;;
  z <- random10 W ;;
  ret [actionLine; documentLine j [x; y; z]].

Definition ndjson (items : list json) : string :=
  join nl (map stringify items) ++ nl.

(** [bulkSaveJobsToElasticsearch(jobs)] *)
Definition bulkSaveJobsToElasticsearch (jobs : list ElasticsearchJobData)
  : M unit unit :=
  tryCatch
    (match jobs with
     | [] => return_ tt
     | _ =>
         pairs <- mapM bulkPair jobs ;;
         let bulkBody := concat pairs in
         _ <- elasticsearchRequest (elastic W) "/_bulk" "POST" (ndjson bulkBody) ;;
         ret tt
     end)
    (fun error => throw error).

Definition searchFields : list string :=
  ["title^2"; "company^1.5"; "description"; "industry"; "location"].

Definition multiMatch (query : string) (fields : list string) : json :=
  JObj [("multi_match", JObj [
    ("query", JStr query);
    ("fields", strs fields);
    ("type", JStr "best_fields");
    ("fuzziness", JStr "AUTO")])].

Definition sortByScrapedAt : json :=
  JArr [JObj [("scrapedAt", JObj [("order", JStr "desc")])]].

Definition searchBody (query : string) (filters : option json) : json :=
  let q := multiMatch query searchFields in
  JObj [("query",
         match filters with
         | Some f => JObj [("bool", JObj [("must", q); ("filter", f)])]
         | None => q
         end);
        ("size", JInt 50);
        ("sort", sortByScrapedAt)].

Definition foundJob (hit : Hit) : FoundJob :=
  {| job := _source hit; job_id := _id hit; job_score := _score hit |}.

(** [searchJobsFromElasticsearch(query, filters)]; [filters] is [Some]
    for a truthy argument.  [response.hits.hits.map] throws when the
    answer has no hits array. *)
Definition searchJobsFromElasticsearch (query : string) (filters : option json)
  : M (list FoundJob) (list FoundJob) :=
  tryCatch
    (response <- elasticsearchRequest (search W) ("/" ++ INDEX_NAME ++ "/_search")
                   "POST" (stringify (searchBody query filters)) ;;
     match response with
     | Some hits => return_ (map foundJob hits)
     | None => throw (TypeError "Cannot read properties of undefined (reading 'hits')")
     end)
    (fun error => throw error).

Definition termsAgg (field : string) : json :=
  JObj [("terms", JObj [("field", JStr field); ("size", JInt 10)])].

Definition statisticsBody : json :=
  JObj [("size", JInt 0);
        ("aggs", JObj [
          ("total_jobs", JObj [("value_count", JObj [("field", JStr "id")])]);
          ("by_company", termsAgg "company.keyword");
          ("by_location", termsAgg "location.keyword");
          ("by_industry", termsAgg "industry.keyword");
          ("by_experience_level", termsAgg "experienceLevel")])].

(** [getJobStatistics()]: the answer stands for [response.aggregations]. *)
Definition getJobStatistics : M json json :=
  tryCatch
    (response <- elasticsearchRequest (aggregate W) ("/" ++ INDEX_NAME ++ "/_search")
                   "POST" (stringify statisticsBody) ;;
     return_ response)
    (fun error => throw error).

End Lib.
End EsLib.

(* ===================================================================== *)
(** ** [app/api/search-jobs/route.ts] *)
(* ===================================================================== *)

Module SearchJobs.
Import JS Json Types Eff.
Local Open Scope eff_scope.

(** [JobSearchRequest], as the interface of the route declares it: the
    chat history is absent or an array.  [ValidatedData] below is the
    body that also carries [null] for it. *)
Record JobSearchRequest := {
  query : string;
  userProfile : option UserProfile;
  useVectorSearch : option bool;
  chatHistory : option (list ChatTurn) }.

(** The data of [JobSearchResponse]. *)
Record JobSearchData := {
  jobs : list FoundJob;
  aiResponse : option string;
  totalHits : nat }.

(** The query string of [GET /api/search-jobs]: [q] as
    [searchParams.get('q')] gives it, and [limit] as the value of
    [parseInt(searchParams.get('limit') || '20')], [None] for [NaN]. *)
Record GetRequest := {
  q : option string;
  limit : option Z }.

Definition quoted (s : string) : string := dq ++ s ++ dq.

(** A template literal, line by line. *)
Definition lines (l : list string) : string := join nl l.

Definition apology : string :=
  "I apologize, but I was unable to generate a response at this time.".

Definition fallbackAnswer : string :=
  "I apologize, but I'm having trouble processing your request right now. Please try again later.".

Section Route.
Variable sanitizeInput : string -> string.
Variable W : World.

(** [elasticsearchRequest(endpoint, options)] of the route: the address
    and the key come from the environment. *)
Definition elasticsearchRequest {R A} (service : nat -> request -> fetched A)
    (endpoint : string) (method : string) (body : string) : M R A :=
  let ELASTICSEARCH_URL := orStr (env W "ELASTICSEARCH_URL") "" in
  let ELASTICSEARCH_API_KEY := orStr (env W "ELASTICSEARCH_API_KEY") "" in
  if negb (truthy ELASTICSEARCH_URL) || negb (truthy ELASTICSEARCH_API_KEY) then
    throw (Error "Elasticsearch configuration missing")
  else
    let url := ELASTICSEARCH_URL ++ endpoint in
    response <- fetch service
      {| url := url; method := method;
         headers := [("Authorization", "ApiKey " ++ ELASTICSEARCH_API_KEY);
                     ("Content-Type", "application/json")];
         body := Some body |} ;;
    if negb (ok response) then
      let errorText := text response in
      throw (Error ("Elasticsearch request failed: " ++ showZ (status response)
                      ++ " - " ++ errorText))
    else readJson response.

Definition indexName : string :=
  orStr (env W "ELASTICSEARCH_INDEX_NAME") "linkedin-jobs-webhook".

Definition knnBody (query : string) (numCandidates : Z) : json :=
  JObj [("retriever", JObj [("standard", JObj [("query", JObj [("knn", JObj [
    ("field", JStr "vector");
    ("num_candidates", JInt numCandidates);
    ("query_vector_builder", JObj [("text_embedding", JObj [
       ("model_id", JStr ""); ("model_text", JStr query)])])])])])])].

Definition foundJob (hit : Hit) : FoundJob :=
  {| job := _source hit; job_id := _id hit; job_score := _score hit |}.

(** [response.hits?.hits?.map(...) || []] *)
Definition hitsOrEmpty (response : option (list Hit)) : list FoundJob :=
  match response with
  | Some hits => map foundJob hits
  | None => []
  end.

(** [vectorSearchJobs(query, numCandidates = 100)] *)
Definition vectorSearchJobs (query : string) (numCandidates : option Z)
  : M (list FoundJob) (list FoundJob) :=
  tryCatch
    (let INDEX_NAME := indexName in
     response <- elasticsearchRequest (search W) ("/" ++ INDEX_NAME ++ "/_search")
                   "POST"
                   (stringify (knnBody query
                      (match numCandidates with Some n => n | None => 100%Z end))) ;;
     return_ (hitsOrEmpty response))
    (fun error => throw error).

Definition searchFields : list string :=
  ["title^2"; "company^1.5"; "description"; "industry"; "location"; "text"].

Definition searchBody (query : string) : json :=
  JObj [("query", JObj [("multi_match", JObj [
           ("query", JStr query);
           ("fields", strs searchFields);
           ("type", JStr "best_fields");
           ("fuzziness", JStr "AUTO")])]);
        ("size", JInt 50);
        ("sort", JArr [JObj [("scrapedAt", JObj [("order", JStr "desc")])]])].

(** [textSearchJobs(query)] *)
Definition textSearchJobs (query : string) : M (list FoundJob) (list FoundJob) :=
  log (CallTextSearch query) ;;
  tryCatch
    (let INDEX_NAME := indexName in
     response <- elasticsearchRequest (search W) ("/" ++ INDEX_NAME ++ "/_search")
                   "POST" (stringify (searchBody query)) ;;
     return_ (hitsOrEmpty response))
    (fun error => throw error).

Definition geminiBody (prompt : string) : json :=
  JObj [("contents", JArr [JObj [("parts", JArr [JObj [("text", JStr prompt)]])]])].

(** [callGeminiAPI(prompt)] *)
Definition callGeminiAPI (prompt : string) : M string string :=
  log (CallGemini prompt) ;;
  tryCatch
    (let GEMINI_API_KEY := orStr (env W "GEMINI_API_KEY") "" in
     let GEMINI_API_URL := orStr (env W "GEMINI_API_URL") "" in
     if negb (truthy GEMINI_API_KEY) || negb (truthy GEMINI_API_URL) then
       throw (Error "Gemini API configuration missing")
     else
       response <- fetch (gemini W)
         {| url := GEMINI_API_URL ++ "?key=" ++ GEMINI_API_KEY;
            method := "POST";
            headers := [("Content-Type", "application/json")];
            body := Some (stringify (geminiBody prompt)) |} ;;
       if negb (ok response) then
         let errorText := text response in
         throw (Error ("Gemini API request failed: " ++ showZ (status response)
                         ++ " - " ++ errorText))
       else
         result <- readJson response ;;
         let text := orStr result apology in
         return_ text)
    (fun error => throw error).

Definition linkedinLines (d : LinkedInProfileData) : string :=
  lines [""; 
         "- LinkedIn Profile: " ++ orStr (fullName d) "Available";
         "- Current Role: " ++ orStr (jobTitle d) "N/A";
         "- Company: " ++ orStr (p_companyName d) "N/A";
         "- Industry: " ++ orStr (companyIndustry d) "N/A";
         ""].

(** The [profileContext] of Step 1. *)
Definition decideProfileContext (profile : option UserProfile) : string :=
  match profile with
  | Some p =>
      lines [""; 
             "User Profile:";
             "- Position: " ++ sanitizeInput (orStr (Some (position p)) "");
             "- Experience Level: " ++ sanitizeInput (orStr (Some (experienceLevel p)) "");
             match linkedinData p with
             | Some d => linkedinLines d
             | None => ""
             end;
             ""]
  | None => ""
  end.

Definition decidePrompt (userQuestion : string) (profile : option UserProfile) : string :=
  let sanitizedQuestion := sanitizeInput userQuestion in
  lines [
    "You are ShekarchAI, an expert career coach. I need you to decide if the user's question requires current job market data from our database.";
    "";
    decideProfileContext profile;
    "";
    "User Question: " ++ sanitizedQuestion;
    "";
    "Questions that typically NEED job market data:";
    "- " ++ quoted "What are the top skills for [position]?";
    "- " ++ quoted "What companies are hiring for [role]?";
    "- " ++ quoted "What's the salary range for [position]?";
    "- " ++ quoted "What are the job requirements for [role]?";
    "- " ++ quoted "What are the trending technologies in [field]?";
    "- " ++ quoted "What locations have the most [position] jobs?";
    "- " ++ quoted "What are the current job opportunities for [role]?";
    "";
    "Questions that typically DON'T need job market data:";
    "- " ++ quoted "How do I prepare for interviews?";
    "- " ++ quoted "What should I include in my resume?";
    "- " ++ quoted "How do I network effectively?";
    "- " ++ quoted "What are general career advice questions?";
    "- " ++ quoted "How do I negotiate salary?";
    "- " ++ quoted "What are soft skills for career success?";
    "";
    "Respond with ONLY " ++ quoted "YES" ++ " if you need job market data, or "
      ++ quoted "NO" ++ " if you don't need it."].

(** Step 1, [shouldSearchElasticsearch(userQuestion, userProfile)] *)
Definition shouldSearchElasticsearch (userQuestion : string)
    (profile : option UserProfile) : M bool bool :=
  log (CallDecide userQuestion) ;;
  let prompt := decidePrompt userQuestion profile in
  response <- call (callGeminiAPI prompt) ;;
  return_ (sameUnits (toUpperCase (trim response)) (units "YES")).

Definition queryProfileContext (profile : option UserProfile) : string :=
  match profile with
  | Some p =>
      lines [""; 
             "User Profile:";
             "- Position: " ++ sanitizeInput (orStr (Some (position p)) "");
             "- Experience Level: " ++ sanitizeInput (orStr (Some (experienceLevel p)) "");
             ""]
  | None => ""
  end.

(** The prompt of Step 2.  The arrow of its examples, U+2192, is not a
    code unit below 256: it stands as the three bytes of its UTF-8
    encoding, as the request body carries it. *)
Definition queryPrompt (userQuestion : string) (profile : option UserProfile) : string :=
  let sanitizedQuestion := sanitizeInput userQuestion in
  lines [
    "You are ShekarchAI. Based on the user's question, create an effective search query for our job database.";
    "";
    queryProfileContext profile;
    "";
    "User Question: " ++ sanitizedQuestion;
    "";
    "Create a search query that will find relevant job postings. The query should:";
    "1. Include key terms from the user's question";
    "2. Be optimized for job titles, companies, skills, and descriptions";
    "3. Be 2-5 words maximum";
    "4. Focus on the most important keywords";
    "";
    "Examples:";
    "- " ++ quoted "What are the top skills for data scientists?" ++ " → "
         ++ quoted "data scientist skills";
    "- " ++ quoted "What companies hire software engineers?" ++ " → "
         ++ quoted "software engineer companies";
    "- " ++ quoted "What's the salary for product managers?" ++ " → "
         ++ quoted "product manager salary";
    "- " ++ quoted "What are AI engineer requirements?" ++ " → "
         ++ quoted "AI engineer requirements";
    "";
    "Respond with ONLY the search query, nothing else."].

(** Step 2, [generateSearchQuery(userQuestion, userProfile)] *)
Definition generateSearchQuery (userQuestion : string)
    (profile : option UserProfile) : M string string :=
  log (CallGenerateQuery userQuestion) ;;
  let prompt := queryPrompt userQuestion profile in
  response <- call (callGeminiAPI prompt) ;;
  return_ (trim response).


(** The callback of [searchResults.slice(0, 8).map]. *)
Definition jobSnippet (index : nat) (j : FoundJob) : string :=
  lines [""; 
         showZ (Z.of_nat (index + 1)) ++ ". " ++ orStr (es_title (job j)) "N/A"
           ++ " at " ++ orStr (es_company (job j)) "N/A";
         "   Location: " ++ orStr (es_location (job j)) "N/A";
         "   Type: " ++ orStr (es_jobType (job j)) "N/A";
         "   Experience: " ++ orStr (es_experienceLevel (job j)) "N/A";
         "   Salary: " ++ orStr (es_salary (job j)) "Not specified";
         "   Description: " ++ substring0 150 (orStr (es_description (job j)) "") ++ "...";
         ""].

Fixpoint mapIndexed {A B} (f : nat -> A -> B) (index : nat) (l : list A) : list B :=
  match l with
  | [] => []
  | x :: rest => f index x :: mapIndexed f (S index) rest
  end.

Definition jobSnippets (searchResults : list FoundJob) : list string :=
  mapIndexed jobSnippet 0 (sliceTo 8 searchResults).

Definition searchContext (searchResults : list FoundJob) : string :=
  if 0 <? length searchResults then
    lines [""; 
           "Current Job Market Data (" ++ showZ (Z.of_nat (length searchResults))
             ++ " recent jobs found):";
           join nl (jobSnippets searchResults);
           ""]
  else "".

(** The callback of [chatHistory.slice(-6).map]. *)
Definition turnLine (msg : ChatTurn) : string :=
  (match role msg with user => "User" | assistant => "Assistant" end)
    ++ ": " ++ substring0 200 (content msg)
    ++ (if 200 <? String.length (content msg) then "..." else "").

Definition turnLines (history : list ChatTurn) : list string :=
  map turnLine (sliceLast 6 history).

Definition conversationContext (history : list ChatTurn) : string :=
  if 0 <? length history then
    lines [""; 
           "Recent Conversation History:";
           join nl (turnLines history);
           ""]
  else "".

Definition composeProfileContext (profile : option UserProfile) : string :=
  match profile with
  | Some p =>
      let sanitizedPosition := sanitizeInput (orStr (Some (position p)) "") in
      let sanitizedLevel := sanitizeInput (orStr (Some (experienceLevel p)) "") in
      lines [""; 
             "User Profile:";
             "- Position: " ++ sanitizedPosition;
             "- Experience Level: " ++ sanitizedLevel;
             match linkedinData p with
             | Some d =>
                 lines [""; 
                        "- LinkedIn Profile: " ++ orStr (fullName d) "Available";
                        "- Current Role: " ++ orStr (jobTitle d) "N/A";
                        "- Company: " ++ orStr (p_companyName d) "N/A";
                        "- Industry: " ++ orStr (companyIndustry d) "N/A";
                        "- About: " ++ substring0 300 (orStr (about d) "") ++ "...";
                        ""]
             | None => ""
             end;
             ""]
  | None => ""
  end.

Definition composePrompt (userQuestion : string) (profile : option UserProfile)
    (searchResults : list FoundJob) (history : list ChatTurn) : string :=
  let sanitizedQuestion := sanitizeInput userQuestion in
  lines [
    "You are ShekarchAI, an expert career coach and AI assistant. Provide a comprehensive, personalized response based on the user's question and available data.";
    "";
    composeProfileContext profile;
    "";
    searchContext searchResults;
    "";
    conversationContext history;
    "";
    "User Question: " ++ sanitizedQuestion;
    "";
    "Instructions:";
    "1. Directly address the user's question";
    "2. Use specific data from the job market when relevant";
    "3. Provide actionable, personalized career advice";
    "4. Consider the user's profile and experience level";
    "5. Be encouraging, professional, and conversational";
    "6. Include specific examples from the job data when applicable";
    "7. If no relevant job data is available, provide general career guidance";
    "8. Keep the response informative but not overwhelming";
    "9. Reference previous conversation context when relevant to provide continuity";
    "10. Build upon previous discussions naturally";
    "";
    "Format your response as a natural conversation with the user."].

(** Step 3 of the file (Step 4 of the handler),
    [generateFinalResponse(userQuestion, userProfile, searchResults, chatHistory)] *)
Definition generateFinalResponse (userQuestion : string)
    (profile : option UserProfile) (searchResults : list FoundJob)
    (history : list ChatTurn) : M string string :=
  log (CallCompose userQuestion searchResults history) ;;
  let prompt := composePrompt userQuestion profile searchResults history in
  tryCatch
    (response <- call (callGeminiAPI prompt) ;;
     return_ response)
    (fun error => throw error).

(** The inner [try] of [handleJobSearch] with its two variables
    [searchResults] and [aiResponse].  Its catch clause sets the answer
    and leaves [searchResults] as it is at the throw: empty until
    Step 3 assigns it, the found jobs afterwards. *)
Definition pipeline {R} (sanitizedQuery : string) (profile : option UserProfile)
    (history : list ChatTurn) : M R (list FoundJob * string) :=
  tryCatch
    (needsSearch <- call (shouldSearchElasticsearch sanitizedQuery profile) ;;
     if needsSearch : bool then
       searchQuery <- call (generateSearchQuery sanitizedQuery profile) ;;
       searchResults <- tryCatch (call (textSearchJobs searchQuery))
                          (fun searchError => ret []) ;;
       tryCatch
         (aiResponse <- call (generateFinalResponse sanitizedQuery profile
                                searchResults history) ;;
          ret (searchResults, aiResponse))
         (fun error => ret (searchResults, fallbackAnswer))
     else
       aiResponse <- call (generateFinalResponse sanitizedQuery profile [] history) ;;
       ret ([], aiResponse))
    (fun error => ret ([], fallbackAnswer)).

(** [handleJobSearch(request, validatedData)], the POST handler. *)
Definition handleJobSearch (validatedData : JobSearchRequest)
  : M (NextResponse JobSearchData) (NextResponse JobSearchData) :=
  tryCatch
    (let history := orArr (chatHistory validatedData) [] in
     let sanitizedQuery := sanitizeInput (query validatedData) in
     if negb (truthy sanitizedQuery) || (String.length (trim sanitizedQuery) =? 0) then
       return_ (ErrorResponse "Search query is required" 400)
     else
       found <- pipeline sanitizedQuery (userProfile validatedData) history ;;
       let '(searchResults, aiResponse) := found in
       return_ (SuccessResponse
                  {| jobs := searchResults;
                     aiResponse := Some aiResponse;
                     totalHits := length searchResults |}))
    (fun error => return_ (ErrorResponse "Internal server error during job search" 500)).

(** [validatedData] is typed [any].  What its [chatHistory] holds: the
    default [= []] of the destructuring replaces [undefined] only, so a
    [null] stays [null]. *)
Inductive HistoryField :=
| NoHistory
| NullHistory
| Turns (history : list ChatTurn).

Record ValidatedData := {
  v_query : string;
  v_userProfile : option UserProfile;
  v_chatHistory : HistoryField }.

(** [chatHistory.length], read for the third [console.log] of the
    handler, outside the inner [try]: a [TypeError] on [null]. *)
Definition historyLength {R} (chatHistory : HistoryField) : M R (list ChatTurn) :=
  match chatHistory with
  | NoHistory => ret []
  | Turns history => ret history
  | NullHistory => throw (TypeError "Cannot read properties of null (reading 'length')")
  end.

(** [handleJobSearch(request, validatedData)] on such a body. *)
Definition handleJobSearchAny (validatedData : ValidatedData)
  : M (NextResponse JobSearchData) (NextResponse JobSearchData) :=
  tryCatch
    (let sanitizedQuery := sanitizeInput (v_query validatedData) in
     if negb (truthy sanitizedQuery) || (String.length (trim sanitizedQuery) =? 0) then
       return_ (ErrorResponse "Search query is required" 400)
     else
       history <- historyLength (v_chatHistory validatedData) ;;
       found <- pipeline sanitizedQuery (v_userProfile validatedData) history ;;
       let '(searchResults, aiResponse) := found in
       return_ (SuccessResponse
                  {| jobs := searchResults;
                     aiResponse := Some aiResponse;
                     totalHits := length searchResults |}))
    (fun error => return_ (ErrorResponse "Internal server error during job search" 500)).

(** [searchResults.slice(0, limit)] *)
Definition sliceLimit {A} (limit : option Z) (l : list A) : list A :=
  match limit with
  | None => []
  | Some z =>
      if (z <? 0)%Z then firstn (Z.to_nat (Z.of_nat (length l) + z)) l
      else firstn (Z.to_nat z) l
  end.

(** [handleGetJobSearch(request)], the GET handler of the simple search. *)
Definition handleGetJobSearch (request : GetRequest)
  : M (NextResponse JobSearchData) (NextResponse JobSearchData) :=
  tryCatch
    (let query := orStr (q request) "" in
     let limit := limit request in
     let sanitizedQuery := sanitizeInput query in
     searchResults <- tryCatch (call (textSearchJobs sanitizedQuery))
       (fun searchError =>
          return_ (ErrorResponse "Search service temporarily unavailable" 500)) ;;
     let limitedResults := sliceLimit limit searchResults in
     return_ (SuccessResponse
                {| jobs := limitedResults;
                   aiResponse := None;
                   totalHits := length searchResults |}))
    (fun error => return_ (ErrorResponse "Internal server error during job search" 500)).

End Route.
End SearchJobs.

(* ===================================================================== *)
(** ** [app/api/scrape-jobs/route.ts] *)
(* ===================================================================== *)

Module ScrapeJobs.
Import JS Json Types Eff.
Local Open Scope eff_scope.

(** [JobScrapingRequest], after validation against [jobScrapingSchema].
    [count] is an integer that a double holds exactly, of which
    [JSON.stringify] prints the digits. *)
Record JobScrapingRequest := {
  keywords : string;
  req_location : option string;
  count : option Z }.

(** The data of [JobScrapingResponse]. *)
Record JobScrapingData := {
  data : list JobData;
  totalJobs : nat }.

(** One turn of the polling loop ends in [break] or goes on to the next
    test of [attempts < maxAttempts]. *)
Inductive turn (A : Type) :=
| Break (found : A)
| Continue.
Arguments Break {A} found.
Arguments Continue {A}.

Definition jsonHeaders : list (string * string) :=
  [("Content-Type", "application/json")].

(** [a || b] on two possibly undefined strings. *)
Definition orElse (a b : option string) : option string :=
  match a with
  | Some (String c s) => a
  | _ => b
  end.

Section Route.
Variable sanitizeInput : string -> string.
Variable ELASTICSEARCH_API_KEY : string.
Variable W : World.

(** The callback of [results.map]: every field defaulted, the time
    stamped.  [location] is the request's, with its default. *)
Definition processJob {R} (location : string) (job : JobData) : M R JobData :=
  stamp <- now W ;;
  ret {| id := Some (orStr (id job) "");
         trackingId := Some (orStr (trackingId job) "");
         refId := Some (orStr (refId job) "");
         link := Some (orStr (link job) "");
         title := Some (orStr (title job) "");
         companyName := Some (orStr (companyName job) "");
         companyLinkedinUrl := Some (orStr (companyLinkedinUrl job) "");
         companyLogo := Some (orStr (companyLogo job) "");
         Types.location := Some (orStr (Types.location job) location);
         salaryInfo := Some (orArr (salaryInfo job) []);
         postedAt := Some (orStr (postedAt job) "");
         benefits := Some (orArr (benefits job) []);
         descriptionHtml := Some (orStr (descriptionHtml job) "");
         descriptionText := Some (orStr (descriptionText job) "");
         applicantsCount := Some (orStr (applicantsCount job) "");
         applyUrl := Some (orStr (applyUrl job) "");
         salary := Some (orStr (salary job) "");
         seniorityLevel := Some (orStr (seniorityLevel job) "");
         employmentType := Some (orStr (employmentType job) "");
         jobFunction := Some (orStr (jobFunction job) "");
         industries := Some (orStr (industries job) "");
         inputUrl := Some (orStr (inputUrl job) "");
         companyAddress := Some (orArr (companyAddress job) []);
         companyWebsite := Some (orStr (companyWebsite job) "");
         companySlogan := Some (orStr (companySlogan job) "");
         companyDescription := Some (orStr (companyDescription job) "");
         companyEmployeesCount := Some (orNum (companyEmployeesCount job) 0);
         jobPosterName := Some (orStr (jobPosterName job) "");
         jobPosterTitle := Some (orStr (jobPosterTitle job) "");
         jobPosterPhoto := Some (orStr (jobPosterPhoto job) "");
         jobPosterProfileUrl := Some (orStr (jobPosterProfileUrl job) "");
         scrapedAt := Some stamp |}.

(** The callback of [processedJobs.map] and of [jobData.map]: the
    document for the index.  [keywords] is the request's. *)
Definition elasticsearchJob (keywords : string) (job : JobData)
  : ElasticsearchJobData :=
  {| es_id := id job;
     es_title := title job;
     es_company := companyName job;
     es_location := Types.location job;
     es_description := orElse (descriptionText job) (descriptionHtml job);
     es_salary := salary job;
     es_jobType := employmentType job;
     es_experienceLevel := seniorityLevel job;
     es_postedDate := postedAt job;
     es_url := link job;
     es_companySize := option_map showZ (companyEmployeesCount job);
     es_industry := industries job;
     es_requirements := Some [];
     es_benefits := benefits job;
     es_scrapedAt := scrapedAt job;
     es_keywords := Some [toLowerCase keywords];
     es_vector := None |}.

(** [try { ...map...; await bulkSaveJobsToElasticsearch(...) } catch {}] *)
Definition saveJobs {R} (keywords : string) (jobs : list JobData) : M R unit :=
  tryCatch
    (let elasticsearchJobs := map (elasticsearchJob keywords) jobs in
     call (EsLib.bulkSaveJobsToElasticsearch ELASTICSEARCH_API_KEY W elasticsearchJobs))
    (fun elasticError => ret tt).

Definition actorInput (jobSearchUrl : string) (count : Z) : json :=
  JObj [("urls", strs [jobSearchUrl]);
        ("scrapeCompany", JBool true);
        ("count", JInt (Z.max count 100))].

Definition jobSearchUrl (sanitizedKeywords sanitizedLocation : string) : string :=
  let encodedKeywords := encodeURIComponent (trim sanitizedKeywords) in
  "https://www.linkedin.com/jobs/search/?keywords=" ++ encodedKeywords
    ++ "&location=" ++ encodeURIComponent sanitizedLocation.

Definition syncRequest (actor token : string) (input : json) : request :=
  {| url := "https://api.apify.com/v2/acts/" ++ actor
              ++ "/run-sync-get-dataset-items?token=" ++ token;
     method := "POST"; headers := jsonHeaders; body := Some (stringify input) |}.

Definition runRequest (actor token : string) (input : json) : request :=
  {| url := "https://api.apify.com/v2/acts/" ++ actor ++ "/runs?token=" ++ token;
     method := "POST"; headers := jsonHeaders; body := Some (stringify input) |}.

Definition itemsRequest (actor token runId : string) : request :=
  {| url := "https://api.apify.com/v2/acts/" ++ actor ++ "/runs/" ++ runId
              ++ "/dataset/items?token=" ++ token;
     method := "GET"; headers := jsonHeaders; body := None |}.

Definition statusRequest (actor token runId : string) : request :=
  {| url := "https://api.apify.com/v2/acts/" ++ actor ++ "/runs/" ++ runId
              ++ "?token=" ++ token;
     method := "GET"; headers := jsonHeaders; body := None |}.

(** The body of the polling loop, from the sleep to [attempts++]. *)
Definition pollOnce (actor token runId location : string)
  : M (NextResponse JobScrapingData) (turn (list JobData)) :=
  sleep 5000 ;;
  tryCatch
    (resultsResponse <- fetch (jobItems W) (itemsRequest actor token runId) ;;
     found <- (if ok resultsResponse then
                 results <- readJson resultsResponse ;;
                 match results with
                 | [] => ret None
                 | _ => jobData <- mapM (processJob location) results ;;
                        ret (Some jobData)
                 end
               else ret None) ;;
     match found with
     | Some jobData => ret (Break jobData)
     | None =>
         statusResponse <- fetch (runs W) (statusRequest actor token runId) ;;
         (if ok statusResponse then
            statusData <- readJson statusResponse ;;
            if String.eqb (run_status statusData) "FAILED" then
              return_ (ErrorResponse "LinkedIn job scraping failed" 500)
            else ret tt
          else ret tt) ;;
         ret Continue
     end)
    (fun error => ret Continue).

(** [while (attempts < maxAttempts) { ... }]; [left] is
    [maxAttempts - attempts].  The result is [jobData]. *)
Fixpoint pollLoop (left : nat) (actor token runId location : string)
  : M (NextResponse JobScrapingData) (option (list JobData)) :=
  match left with
  | 0 => ret None
  | S left' =>
      step <- pollOnce actor token runId location ;;
      match step with
      | Break jobData => ret (Some jobData)
      | Continue => pollLoop left' actor token runId location
      end
  end.

Definition maxAttempts : nat := 24.

(** [handleJobScraping(request, validatedData)].

    The catch clause of the outer [try] builds three demo jobs whose
    titles interpolate [keywords]; that name is declared by [const]
    inside the [try] block and is not in scope in the catch block, so
    evaluating the first title throws a [ReferenceError] before any
    demo job exists. *)
Definition handleJobScraping (validatedData : JobScrapingRequest)
  : M (NextResponse JobScrapingData) (NextResponse JobScrapingData) :=
  tryCatch
    (let keywords := keywords validatedData in
     let location :=
       match req_location validatedData with
       | Some l => l
       | None => "United States"
       end in
     let count := match count validatedData with Some c => c | None => 50%Z end in
     let sanitizedKeywords := sanitizeInput keywords in
     let sanitizedLocation := sanitizeInput location in
     if negb (truthy sanitizedKeywords) || (String.length (trim sanitizedKeywords) =? 0)
     then return_ (ErrorResponse "Job keywords are required" 400)
     else
       tryCatch (call (EsLib.initializeElasticsearchIndex ELASTICSEARCH_API_KEY W))
         (fun elasticError => ret tt) ;;
       let APIFY_API_TOKEN := orStr (env W "APIFY_API_TOKEN") "" in
       let APIFY_ACTOR_ID := orStr (env W "APIFY_ACTOR_ID") "" in
       if negb (truthy APIFY_API_TOKEN) || negb (truthy APIFY_ACTOR_ID) then
         return_ (ErrorResponse "Service configuration error" 500)
       else
         let input := actorInput (jobSearchUrl sanitizedKeywords sanitizedLocation) count in
         tryCatch
           (syncResponse <- fetch (jobItems W)
                              (syncRequest APIFY_ACTOR_ID APIFY_API_TOKEN input) ;;
            if ok syncResponse then
              results <- readJson syncResponse ;;
              match results with
              | [] => ret tt
              | _ =>
                  processedJobs <- mapM (processJob location) results ;;
                  saveJobs keywords processedJobs ;;
                  return_ (SuccessResponse
                             {| data := processedJobs;
                                totalJobs := length processedJobs |})
              end
            else ret tt)
           (fun syncError => ret tt) ;;
         runResponse <- fetch (runs W)
                          (runRequest APIFY_ACTOR_ID APIFY_API_TOKEN input) ;;
         if negb (ok runResponse) then
           return_ (ErrorResponse
                      ("Failed to start LinkedIn job scraping: "
                         ++ showZ (status runResponse)) 500)
         else
           runData <- readJson runResponse ;;
           let runId := run_id runData in
           jobData <- pollLoop maxAttempts APIFY_ACTOR_ID APIFY_API_TOKEN runId location ;;
           match jobData with
           | None | Some [] =>
               return_ (ErrorResponse
                          "LinkedIn job scraping timed out or no jobs found" 500)
           | Some jobData =>
               saveJobs keywords jobData ;;
               return_ (SuccessResponse
                          {| data := jobData; totalJobs := length jobData |})
           end)
    (fun error => throw (ReferenceError "keywords is not defined")).

End Route.
End ScrapeJobs.

(* ===================================================================== *)
(** ** [app/api/scrape-linkedin/route.ts] *)
(* ===================================================================== *)

Module ScrapeLinkedin.
Import JS Json Types Eff.
Local Open Scope eff_scope.

(** [x?.slice(0, n) || []] *)
Definition sliceOrEmpty {A} (n : nat) (x : option (list A)) : list A :=
  orArr (option_map (sliceTo n) x) [].

(** [x || null] on a possibly undefined string *)
Definition orNull (x : option string) : option string :=
  match x with
  | Some (String c s) => x
  | _ => None
  end.

Inductive turn (A : Type) :=
| Break (found : A)
| Continue.
Arguments Break {A} found.
Arguments Continue {A}.

Definition jsonHeaders : list (string * string) :=
  [("Content-Type", "application/json")].

Section Route.
Variable sanitizeInput : string -> string.
Variable W : World.

Definition actorInput (sanitizedUrl : string) : json :=
  JObj [("profileUrls", strs [sanitizedUrl]);
        ("maxConcurrency", JInt 1);
        ("maxRetries", JInt 2);
        ("timeout", JInt 60000)].

(** The object literal [processedData] of the synchronous path
    (lines 62-105 of the route). *)
Definition processedDataSync {R} (sanitizedUrl : string)
    (profileData : LinkedInProfileData) : M R LinkedInProfileData :=
  stamp <- now W ;;
  ret {| linkedinUrl := Some sanitizedUrl;
         firstName := Some (orStr (firstName profileData) "");
         lastName := Some (orStr (lastName profileData) "");
         fullName := Some (orStr (fullName profileData) "");
         headline := Some (orStr (headline profileData) "");
         connections := Some (orNum (connections profileData) 0);
         followers := Some (orNum (followers profileData) 0);
         email := Some (orStr (email profileData) "");
         mobileNumber := orNull (mobileNumber profileData);
         jobTitle := Some (orStr (jobTitle profileData) "");
         p_companyName := Some (orStr (p_companyName profileData) "");
         companyIndustry := Some (orStr (companyIndustry profileData) "");
         p_companyWebsite := Some (orStr (p_companyWebsite profileData) "");
         companyLinkedin := Some (orStr (companyLinkedin profileData) "");
         companyFoundedIn := Some (orNum (companyFoundedIn profileData) 0);
         companySize := Some (orStr (companySize profileData) "");
         currentJobDuration := Some (orStr (currentJobDuration profileData) "");
         currentJobDurationInYrs := Some (orNum (currentJobDurationInYrs profileData) 0);
         topSkillsByEndorsements := Some (orStr (topSkillsByEndorsements profileData) "");
         addressCountryOnly := Some (orStr (addressCountryOnly profileData) "");
         addressWithCountry := Some (orStr (addressWithCountry profileData) "");
         addressWithoutCountry := Some (orStr (addressWithoutCountry profileData) "");
         profilePic := Some (orStr (profilePic profileData) "");
         profilePicHighQuality := Some (orStr (profilePicHighQuality profileData) "");
         about := Some (orStr (about profileData) "");
         publicIdentifier := Some (orStr (publicIdentifier profileData) "");
         experiences := Some (sliceOrEmpty 5 (experiences profileData));
         educations := Some (sliceOrEmpty 3 (educations profileData));
         skills := Some (sliceOrEmpty 15 (skills profileData));
         licenseAndCertificates := Some (sliceOrEmpty 5 (licenseAndCertificates profileData));
         volunteerAndAwards := Some (sliceOrEmpty 3 (volunteerAndAwards profileData));
         interests := Some (orArr (interests profileData) []);
         p_scrapedAt := Some stamp |}.

(** The object literal [processedData] after the polling loop
    (lines 195-238 of the route). *)
Definition processedDataAsync {R} (sanitizedUrl : string)
    (profileData : LinkedInProfileData) : M R LinkedInProfileData :=
  stamp <- now W ;;
  ret {| linkedinUrl := Some sanitizedUrl;
         firstName := Some (orStr (firstName profileData) "");
         lastName := Some (orStr (lastName profileData) "");
         fullName := Some (orStr (fullName profileData) "");
         headline := Some (orStr (headline profileData) "");
         connections := Some (orNum (connections profileData) 0);
         followers := Some (orNum (followers profileData) 0);
         email := Some (orStr (email profileData) "");
         mobileNumber := orNull (mobileNumber profileData);
         jobTitle := Some (orStr (jobTitle profileData) "");
         p_companyName := Some (orStr (p_companyName profileData) "");
         companyIndustry := Some (orStr (companyIndustry profileData) "");
         p_companyWebsite := Some (orStr (p_companyWebsite profileData) "");
         companyLinkedin := Some (orStr (companyLinkedin profileData) "");
         companyFoundedIn := Some (orNum (companyFoundedIn profileData) 0);
         companySize := Some (orStr (companySize profileData) "");
         currentJobDuration := Some (orStr (currentJobDuration profileData) "");
         currentJobDurationInYrs := Some (orNum (currentJobDurationInYrs profileData) 0);
         topSkillsByEndorsements := Some (orStr (topSkillsByEndorsements profileData) "");
         addressCountryOnly := Some (orStr (addressCountryOnly profileData) "");
         addressWithCountry := Some (orStr (addressWithCountry profileData) "");
         addressWithoutCountry := Some (orStr (addressWithoutCountry profileData) "");
         profilePic := Some (orStr (profilePic profileData) "");
         profilePicHighQuality := Some (orStr (profilePicHighQuality profileData) "");
         about := Some (orStr (about profileData) "");
         publicIdentifier := Some (orStr (publicIdentifier profileData) "");
         experiences := Some (sliceOrEmpty 5 (experiences profileData));
         educations := Some (sliceOrEmpty 3 (educations profileData));
         skills := Some (sliceOrEmpty 15 (skills profileData));
         licenseAndCertificates := Some (sliceOrEmpty 5 (licenseAndCertificates profileData));
         volunteerAndAwards := Some (sliceOrEmpty 3 (volunteerAndAwards profileData));
         interests := Some (orArr (interests profileData) []);
         p_scrapedAt := Some stamp |}.

Definition syncRequest (token : string) (input : json) : request :=
  {| url := "https://api.apify.com/v2/acts/dev_fusion~linkedin-profile-scraper/run-sync-get-dataset-items?token="
              ++ token;
     method := "POST"; headers := jsonHeaders; body := Some (stringify input) |}.

Definition runRequest (actor token : string) (input : json) : request :=
  {| url := "https://api.apify.com/v2/acts/" ++ actor ++ "/runs?token=" ++ token;
     method := "POST"; headers := jsonHeaders; body := Some (stringify input) |}.

Definition itemsRequest (actor token runId : string) : request :=
  {| url := "https://api.apify.com/v2/acts/" ++ actor ++ "/runs/" ++ runId
              ++ "/dataset/items?token=" ++ token;
     method := "GET"; headers := jsonHeaders; body := None |}.

Definition statusRequest (actor token runId : string) : request :=
  {| url := "https://api.apify.com/v2/acts/" ++ actor ++ "/runs/" ++ runId
              ++ "?token=" ++ token;
     method := "GET"; headers := jsonHeaders; body := None |}.

(** The body of the polling loop, from the sleep to [attempts++]. *)
Definition pollOnce (actor token runId : string)
  : M (NextResponse LinkedInProfileData) (turn LinkedInProfileData) :=
  sleep 5000 ;;
  tryCatch
    (resultsResponse <- fetch (profileItems W) (itemsRequest actor token runId) ;;
     found <- (if ok resultsResponse then
                 results <- readJson resultsResponse ;;
                 match results with
                 | [] => ret None
                 | first :: _ => ret (Some first)
                 end
               else ret None) ;;
     match found with
     | Some profileData => ret (Break profileData)
     | None =>
         statusResponse <- fetch (runs W) (statusRequest actor token runId) ;;
         (if ok statusResponse then
            statusData <- readJson statusResponse ;;
            if String.eqb (run_status statusData) "FAILED" then
              return_ (ErrorResponse "LinkedIn scraping failed" 500)
            else ret tt
          else ret tt) ;;
         ret Continue
     end)
    (fun error => ret Continue).

(** [while (attempts < maxAttempts) { ... }]; [left] is
    [maxAttempts - attempts].  The result is [profileData]. *)
Fixpoint pollLoop (left : nat) (actor token runId : string)
  : M (NextResponse LinkedInProfileData) (option LinkedInProfileData) :=
  match left with
  | 0 => ret None
  | S left' =>
      step <- pollOnce actor token runId ;;
      match step with
      | Break profileData => ret (Some profileData)
      | Continue => pollLoop left' actor token runId
      end
  end.

Definition maxAttempts : nat := 20.

(** [handleLinkedInScraping(request, validatedData)] *)
Definition handleLinkedInScraping (linkedinUrl : string)
  : M (NextResponse LinkedInProfileData) (NextResponse LinkedInProfileData) :=
  tryCatch
    (let sanitizedUrl := sanitizeInput linkedinUrl in
     if negb (truthy sanitizedUrl) then
       return_ (ErrorResponse "LinkedIn URL is required" 400)
     else
       let APIFY_API_TOKEN := orStr (env W "APIFY_API_TOKEN") "" in
       let APIFY_ACTOR_ID := orStr (env W "LINKEDIN_SCRAPER_ACTOR_ID") "" in
       if negb (truthy APIFY_API_TOKEN) || negb (truthy APIFY_ACTOR_ID) then
         return_ (ErrorResponse "Service configuration error" 500)
       else
         let input := actorInput sanitizedUrl in
         tryCatch
           (syncResponse <- fetch (profileItems W) (syncRequest APIFY_API_TOKEN input) ;;
            if ok syncResponse then
              results <- readJson syncResponse ;;
              match results with
              | [] => ret tt
              | profileData :: _ =>
                  processedData <- processedDataSync sanitizedUrl profileData ;;
                  return_ (SuccessResponse processedData)
              end
            else ret tt)
           (fun syncError => ret tt) ;;
         runResponse <- fetch (runs W)
                          (runRequest APIFY_ACTOR_ID APIFY_API_TOKEN input) ;;
         if negb (ok runResponse) then
           return_ (ErrorResponse "Failed to start LinkedIn scraping" 500)
         else
           runData <- readJson runResponse ;;
           let runId := run_id runData in
           profileData <- pollLoop maxAttempts APIFY_ACTOR_ID APIFY_API_TOKEN runId ;;
           match profileData with
           | None =>
               return_ (ErrorResponse "LinkedIn scraping timed out or failed" 500)
           | Some profileData =>
               processedData <- processedDataAsync sanitizedUrl profileData ;;
               return_ (SuccessResponse processedData)
           end)
    (fun error =>
       return_ (ErrorResponse "Internal server error during LinkedIn scraping" 500)).

End Route.
End ScrapeLinkedin.

(* ===================================================================== *)
(** ** [app/api/job-statistics/route.ts] *)
(* ===================================================================== *)

Module JobStatistics.
Import JS Json Types Eff.
Local Open Scope eff_scope.

(** The validated body of the POST: both properties have defaults. *)
Record JobStatisticsRequest := {
  keywords : option string;
  count : option Z }.

(** The data of [JobStatisticsResponse]. *)
Record JobStatisticsData := {
  statistics : json;
  message : option string }.

Section Route.
Variable sanitizeInput : string -> string.
Variable ELASTICSEARCH_API_KEY : string.
Variable W : World.

(** The callback of [results.map] (lines 80-97 of the route). *)
Definition elasticsearchJob {R} (keywords : string) (job : JobData)
  : M R ElasticsearchJobData :=
  stamp <- now W ;;
  ret {| es_id := Some (orStr (id job) "");
         es_title := Some (orStr (title job) "");
         es_company := Some (orStr (companyName job) "");
         es_location := Some (orStr (location job) "United States");
         es_description :=
           Some (orStr (ScrapeJobs.orElse (descriptionText job) (descriptionHtml job)) "");
         es_salary := Some (orStr (salary job) "");
         es_jobType := Some (orStr (employmentType job) "");
         es_experienceLevel := Some (orStr (seniorityLevel job) "");
         es_postedDate := Some (orStr (postedAt job) "");
         es_url := Some (orStr (link job) "");
         es_companySize := Some (orStr (option_map showZ (companyEmployeesCount job)) "");
         es_industry := Some (orStr (industries job) "");
         es_requirements := Some [];
         es_benefits := Some (orArr (benefits job) []);
         es_scrapedAt := Some stamp;
         es_keywords := Some [toLowerCase keywords];
         es_vector := None |}.

Definition actorInput (jobSearchUrl : string) (count : Z) : json :=
  JObj [("urls", strs [jobSearchUrl]);
        ("scrapeCompany", JBool true);
        ("count", JInt (Z.max count 100))].

Definition jobSearchUrl (sanitizedKeywords : string) : string :=
  let encodedKeywords := encodeURIComponent (trim sanitizedKeywords) in
  "https://www.linkedin.com/jobs/search/?keywords=" ++ encodedKeywords
    ++ "&location=United%20States".

Definition syncRequest (actor token : string) (input : json) : request :=
  {| url := "https://api.apify.com/v2/acts/" ++ actor
              ++ "/run-sync-get-dataset-items?token=" ++ token;
     method := "POST";
     headers := [("Content-Type", "application/json")];
     body := Some (stringify input) |}.

(** [handleJobStatistics(request, validatedData)], the POST handler. *)
Definition handleJobStatistics (validatedData : JobStatisticsRequest)
  : M (NextResponse JobStatisticsData) (NextResponse JobStatisticsData) :=
  tryCatch
    (let keywords := match keywords validatedData with
                     | Some k => k
                     | None => "software engineer"
                     end in
     let count := match count validatedData with Some c => c | None => 50%Z end in
     let sanitizedKeywords := sanitizeInput keywords in
     tryCatch (call (EsLib.initializeElasticsearchIndex ELASTICSEARCH_API_KEY W))
       (fun elasticError =>
          return_ (ErrorResponse "Elasticsearch connection failed" 500)) ;;
     let APIFY_API_TOKEN := orStr (env W "APIFY_API_TOKEN") "" in
     let APIFY_ACTOR_ID := orStr (env W "APIFY_ACTOR_ID") "" in
     if negb (truthy APIFY_API_TOKEN) || negb (truthy APIFY_ACTOR_ID) then
       return_ (ErrorResponse "Service configuration error" 500)
     else
       let input := actorInput (jobSearchUrl sanitizedKeywords) count in
       tryCatch
         (syncResponse <- fetch (jobItems W)
                            (syncRequest APIFY_ACTOR_ID APIFY_API_TOKEN input) ;;
          if ok syncResponse then
            results <- readJson syncResponse ;;
            match results with
            | [] => ret tt
            | _ =>
                elasticsearchJobs <- mapM (elasticsearchJob keywords) results ;;
                call (EsLib.bulkSaveJobsToElasticsearch ELASTICSEARCH_API_KEY W
                        elasticsearchJobs) ;;
                statistics <- call (EsLib.getJobStatistics ELASTICSEARCH_API_KEY W) ;;
                return_ (SuccessResponse
                  {| statistics := statistics;
                     message := Some ("Successfully collected and stored "
                       ++ showZ (Z.of_nat (length elasticsearchJobs))
                       ++ " job postings in the database.") |})
            end
          else ret tt)
         (fun scrapingError => ret tt) ;;
       statistics <- call (EsLib.getJobStatistics ELASTICSEARCH_API_KEY W) ;;
       return_ (SuccessResponse
         {| statistics := statistics;
            message := Some "Data collection is in progress. Current statistics retrieved." |}))
    (fun error =>
       return_ (ErrorResponse
                  "Internal server error during job statistics collection" 500)).

(** [handleGetJobStatistics(request)], the GET handler. *)
Definition handleGetJobStatistics
  : M (NextResponse JobStatisticsData) (NextResponse JobStatisticsData) :=
  tryCatch
    (tryCatch (call (EsLib.initializeElasticsearchIndex ELASTICSEARCH_API_KEY W))
       (fun elasticError =>
          return_ (ErrorResponse "Elasticsearch connection failed" 500)) ;;
     statistics <- call (EsLib.getJobStatistics ELASTICSEARCH_API_KEY W) ;;
     return_ (SuccessResponse {| statistics := statistics; message := None |}))
    (fun error =>
       return_ (ErrorResponse
                  "Internal server error during job statistics retrieval" 500)).

End Route.
End JobStatistics.

(* ===================================================================== *)
(** * Properties *)
(* ===================================================================== *)

(** ** Running a computation *)

Ltac unfold_eff :=
cbv beta iota delta
  [Eff.bind Eff.tryCatch Eff.call Eff.fetch Eff.readJson Eff.ret Eff.throw
   Eff.return_ Eff.log Eff.sleep Eff.now Eff.random10 Eff.answer Eff.events].

(** Case analysis on the first test or pattern matching that blocks the run. *)
Ltac case_run :=
match goal with
| |- context [match ?x with _ => _ end] =>
    lazymatch x with
    | context [match _ with _ => _ end] => fail
    | _ => destruct x eqn:?
    end
| |- context [if ?x then _ else _] =>
    lazymatch x with
    | context [match _ with _ => _ end] => fail
    | _ => destruct x eqn:?
    end
end.

(** ** Strings and slices *)

Section Slices.
Import JS.

Lemma substring0_prefix n s : exists rest, s = substring0 n s ++ rest.
Proof.
  revert s; induction n as [|n IH]; intros s.
  - exists s. destruct s; reflexivity.
  - destruct s as [|c s]; [exists EmptyString; reflexivity|].
    destruct (IH s) as [rest E]. exists rest. simpl. now rewrite <- E.
Qed.

Lemma append_length a b : String.length (a ++ b) = String.length a + String.length b.
Proof. induction a as [|c a IH]; simpl; [reflexivity | now rewrite IH]. Qed.

Lemma substring0_length_min n s :
  String.length (substring0 n s) = Nat.min n (String.length s).
Proof.
  revert s; induction n as [|n IH]; intros [|c s]; simpl; try reflexivity.
  now rewrite IH.
Qed.

Lemma sliceLast_length {A} n (l : list A) : length (sliceLast n l) <= n.
Proof. unfold sliceLast. rewrite length_skipn. lia. Qed.

Lemma sliceLast_suffix {A} n (l : list A) : exists older, l = (older ++ sliceLast n l)%list.
Proof.
  exists (firstn (length l - n) l). unfold sliceLast.
  symmetry. apply firstn_skipn.
Qed.

Lemma sliceLast_app {A} n (older recent : list A) :
  length recent = n -> sliceLast n (older ++ recent)%list = recent.
Proof.
  intros H. unfold sliceLast. rewrite length_app, H.
  replace (length older + n - n) with (length older) by lia.
  rewrite skipn_app, skipn_all, Nat.sub_diag. reflexivity.
Qed.

Lemma sliceTo_length {A} n (l : list A) : length (sliceTo n l) <= n.
Proof. unfold sliceTo. rewrite length_firstn. lia. Qed.

End Slices.

(** ** The prompt of the Compose step *)

Section Compose.
Import JS Json Types Eff SearchJobs.

Lemma mapIndexed_length {A B} (f : nat -> A -> B) i l :
  length (mapIndexed f i l) = length l.
Proof. revert i; induction l as [|x l IH]; intros i; simpl; [|rewrite IH]; reflexivity. Qed.

Lemma mapIndexed_nth_error {A B} (f : nat -> A -> B) k l i :
  nth_error (mapIndexed f k l) i = option_map (f (k + i)) (nth_error l i).
Proof.
  revert k i; induction l as [|x l IH]; intros k [|i]; simpl; try reflexivity.
  - now rewrite Nat.add_0_r.
  - rewrite IH. now rewrite Nat.add_succ_r.
Qed.

(** C5.  The Compose prompt renders the last 6 turns of the chat history
    and no other, each with the first 200 characters of its content, and
    the first 8 jobs found and no other, each with the first 150
    characters of its description; turns older than the last 6 do not
    reach the prompt, whatever their number. *)
Theorem compose_prompt_windows :
  forall (sanitizeInput : string -> string) (question : string)
         (profile : option UserProfile)
         (searchResults : list FoundJob) (history : list ChatTurn),
    (* the conversation window: the last 6 turns, each cut at 200 characters *)
    (exists older recent,
       history = (older ++ recent)%list /\
       length recent = Nat.min 6 (length history) /\
       length (turnLines history) = length recent /\
       forall i msg, nth_error recent i = Some msg ->
         exists shown,
           nth_error (turnLines history) i
             = Some ((match role msg with user => "User" | assistant => "Assistant" end)
                       ++ ": " ++ shown
                       ++ (if 200 <? String.length (content msg) then "..." else "")) /\
           String.length shown = Nat.min 200 (String.length (content msg)) /\
           exists cut, content msg = shown ++ cut) /\
    (forall older recent, length recent = 6 ->
       composePrompt sanitizeInput question profile searchResults (older ++ recent)%list
       = composePrompt sanitizeInput question profile searchResults recent) /\
    (* the job window: the first 8 jobs, each description cut at 150 characters *)
    length (jobSnippets searchResults) = Nat.min 8 (length searchResults) /\
    (forall i j, i < 8 -> nth_error searchResults i = Some j ->
       exists shown,
         nth_error (jobSnippets searchResults) i
           = Some (lines [""; 
                     showZ (Z.of_nat (i + 1)) ++ ". " ++ orStr (es_title (job j)) "N/A"
                       ++ " at " ++ orStr (es_company (job j)) "N/A";
                     "   Location: " ++ orStr (es_location (job j)) "N/A";
                     "   Type: " ++ orStr (es_jobType (job j)) "N/A";
                     "   Experience: " ++ orStr (es_experienceLevel (job j)) "N/A";
                     "   Salary: " ++ orStr (es_salary (job j)) "Not specified";
                     "   Description: " ++ shown ++ "...";
                     ""]) /\
         String.length shown
           = Nat.min 150 (String.length (orStr (es_description (job j)) "")) /\
         exists cut, orStr (es_description (job j)) "" = shown ++ cut) /\
    (* the prompt of the step, put to the LLM as it is *)
    (forall (W : World) (s : state),
       exists rest,
         snd (generateFinalResponse sanitizeInput W question profile searchResults
                history s)
         = CallCompose question searchResults history
             :: CallGemini (composePrompt sanitizeInput question profile
                              searchResults history)
             :: rest) /\
    (* and nothing else of the two lists is in the prompt *)
    composePrompt sanitizeInput question profile searchResults history
    = lines [
        "You are ShekarchAI, an expert career coach and AI assistant. Provide a comprehensive, personalized response based on the user's question and available data.";
        "";
        composeProfileContext sanitizeInput profile;
        "";
        (if 0 <? length searchResults then
           lines [""; 
                  "Current Job Market Data (" ++ showZ (Z.of_nat (length searchResults))
                    ++ " recent jobs found):";
                  join nl (jobSnippets searchResults);
                  ""]
         else "");
        "";
        (if 0 <? length history then
           lines [""; "Recent Conversation History:"; join nl (turnLines history); ""]
         else "");
        "";
        "User Question: " ++ sanitizeInput question;
        "";
        "Instructions:";
        "1. Directly address the user's question";
        "2. Use specific data from the job market when relevant";
        "3. Provide actionable, personalized career advice";
        "4. Consider the user's profile and experience level";
        "5. Be encouraging, professional, and conversational";
        "6. Include specific examples from the job data when applicable";
        "7. If no relevant job data is available, provide general career guidance";
        "8. Keep the response informative but not overwhelming";
        "9. Reference previous conversation context when relevant to provide continuity";
        "10. Build upon previous discussions naturally";
        "";
        "Format your response as a natural conversation with the user."].
Proof.
  intros san question profile searchResults history.
  split; [|split; [|split; [|split; [|split]]]].
  - exists (firstn (length history - 6) history), (sliceLast 6 history).
    split; [symmetry; apply firstn_skipn|].
    split; [unfold sliceLast; rewrite length_skipn; lia|].
    split; [unfold turnLines; apply length_map|].
    intros i msg Hi. exists (substring0 200 (content msg)).
    split; [|split].
    + unfold turnLines. rewrite nth_error_map, Hi. reflexivity.
    + apply substring0_length_min.
    + apply substring0_prefix.
  - intros older recent Hlen.
    unfold composePrompt, conversationContext, turnLines.
    rewrite (sliceLast_app 6 older recent Hlen).
    assert (E : sliceLast 6 recent = recent).
    { unfold sliceLast. rewrite Hlen. reflexivity. }
    rewrite E, length_app, Hlen.
    replace (0 <? length older + 6) with true
      by (symmetry; apply Nat.ltb_lt; lia).
    reflexivity.
  - unfold jobSnippets, sliceTo. rewrite mapIndexed_length, length_firstn. reflexivity.
  - intros i j Hi Hj. exists (substring0 150 (orStr (es_description (job j)) "")).
    split; [|split].
    + unfold jobSnippets, sliceTo.
      rewrite mapIndexed_nth_error, nth_error_firstn.
      apply Nat.ltb_lt in Hi. rewrite Hi, Hj. reflexivity.
    + apply substring0_length_min.
    + apply substring0_prefix.
  - intros W s. unfold generateFinalResponse, callGeminiAPI. unfold_eff.
    repeat (case_run; cbn [app snd]); eexists; reflexivity.
  - reflexivity.
Qed.

End Compose.

(** ** The profile record of a scrape *)

Section ProfileCaps.
Import JS Json Types Eff ScrapeLinkedin.

Variable sanitizeInput : string -> string.
Variable W : World.

(** [payload] is the first item of a dataset that the scraping service
    answered. *)
Definition scraped (payload : LinkedInProfileData) : Prop :=
  exists n req r rest,
    profileItems W n req = Resolved r /\ json_body r = Some (payload :: rest).

(** What the route keeps of the list sections of a payload. *)
Definition sectionsOf (payload record : LinkedInProfileData) : Prop :=
  experiences record = Some (firstn 5 (orArr (experiences payload) [])) /\
  educations record = Some (firstn 3 (orArr (educations payload) [])) /\
  skills record = Some (firstn 15 (orArr (skills payload) [])) /\
  licenseAndCertificates record
    = Some (firstn 5 (orArr (licenseAndCertificates payload) [])) /\
  volunteerAndAwards record = Some (firstn 3 (orArr (volunteerAndAwards payload) [])) /\
  interests record = Some (orArr (interests payload) []).

Lemma sliceOrEmpty_firstn {A} n (x : option (list A)) :
  sliceOrEmpty n x = firstn n (orArr x []).
Proof. destruct x; simpl; [reflexivity | now rewrite firstn_nil]. Qed.

Lemma processedDataSync_sections {R} url payload s :
  exists record s',
    processedDataSync (R := R) W url payload s = (Normal record, s', []) /\
    sectionsOf payload record.
Proof.
  eexists; eexists; split; [reflexivity|].
  unfold sectionsOf; simpl. rewrite !sliceOrEmpty_firstn. repeat split.
Qed.

Lemma processedDataAsync_sections {R} url payload s :
  exists record s',
    processedDataAsync (R := R) W url payload s = (Normal record, s', []) /\
    sectionsOf payload record.
Proof.
  eexists; eexists; split; [reflexivity|].
  unfold sectionsOf; simpl. rewrite !sliceOrEmpty_firstn. repeat split.
Qed.

(** The polling loop ends with a scraped payload, with nothing, or in
    the [return] of the failure response; it does not throw. *)
Lemma pollLoop_cases left actor token runId s :
  match pollLoop W left actor token runId s with
  | (Normal (Some payload), _, _) => scraped payload
  | (Normal None, _, _) => True
  | (Return r, _, _) => r = ErrorResponse "LinkedIn scraping failed" 500
  | (Throw _, _, _) => False
  end.
Proof.
  revert s; induction left as [|left IH]; intros s; simpl; [exact I|].
  unfold pollOnce. unfold_eff. simpl.
  repeat (case_run; simpl; auto); subst.
  all: try (eexists _, _, _, _; split; eassumption).
  all: match goal with
       | H : pollLoop W _ _ _ _ ?s' = _ |- _ =>
           specialize (IH s'); rewrite H in IH; exact IH
       end.
Qed.

Definition len {A} (x : option (list A)) : nat := length (orArr x []).

(** C4, as the route has it.  Every profile record the handler answers
    with comes from a scraped payload, on the synchronous path as on
    the polling path, and keeps the first 5 experiences, 3 educations,
    15 skills, 5 certificates and 3 awards of it; the interests are
    copied whole. *)
Theorem profile_sections_capped :
  forall (url : string) (record : LinkedInProfileData),
    answer (handleLinkedInScraping sanitizeInput W url)
      = Normal (SuccessResponse record) ->
    exists payload,
      scraped payload /\
      sectionsOf payload record /\
      len (experiences record) <= 5 /\
      len (educations record) <= 3 /\
      len (skills record) <= 15 /\
      len (licenseAndCertificates record) <= 5 /\
      len (volunteerAndAwards record) <= 3 /\
      len (interests record) = len (interests payload).
Proof.
  intros url record.
  assert (Hsec : forall payload, scraped payload -> sectionsOf payload record ->
    exists p, scraped p /\ sectionsOf p record /\
      len (experiences record) <= 5 /\ len (educations record) <= 3 /\
      len (skills record) <= 15 /\ len (licenseAndCertificates record) <= 5 /\
      len (volunteerAndAwards record) <= 3 /\
      len (interests record) = len (interests p)).
  { intros payload Hs (E1 & E2 & E3 & E4 & E5 & E6).
    exists payload. split; [exact Hs|]. split; [repeat split; assumption|].
    rewrite E1, E2, E3, E4, E5, E6. unfold len. cbn [orArr].
    rewrite !length_firstn. repeat split; lia. }
  unfold handleLinkedInScraping. generalize maxAttempts as attempts. intros attempts.
  unfold_eff. simpl.
  repeat (case_run; simpl; try discriminate).
  all: intros H; try discriminate.
  all: try match goal with
           | Hp : pollLoop W _ ?a ?t ?r ?s = _ |- _ =>
               pose proof (pollLoop_cases attempts a t r s) as P;
               rewrite Hp in P; simpl in P
           end.
  all: try contradiction.
  all: try (subst; discriminate).
  all: injection H as <-.
  all: eapply Hsec;
    [ first [ eassumption | eexists _, _, _, _; split; eassumption ]
    | unfold sectionsOf; simpl; rewrite !sliceOrEmpty_firstn; repeat split ].
Qed.

End ProfileCaps.

Section ProfileExamples.
Import JS Json Types Eff ScrapeLinkedin.

Definition resolved {A} (a : A) : fetched A :=
  Resolved {| ok := true; status := 200; text := ""; json_body := Some a |}.

Definition unavailable {A} : fetched A :=
  Resolved {| ok := false; status := 503; text := "Service Unavailable";
              json_body := None |}.

Definition blankProfile : LinkedInProfileData :=
  {| linkedinUrl := None; firstName := None; lastName := None; fullName := None;
     headline := None; connections := None; followers := None; email := None;
     mobileNumber := None; jobTitle := None; p_companyName := None;
     companyIndustry := None; p_companyWebsite := None; companyLinkedin := None;
     companyFoundedIn := None; companySize := None; currentJobDuration := None;
     currentJobDurationInYrs := None; topSkillsByEndorsements := None;
     addressCountryOnly := None; addressWithCountry := None;
     addressWithoutCountry := None; profilePic := None;
     profilePicHighQuality := None; about := None; publicIdentifier := None;
     experiences := None; educations := None; skills := None;
     licenseAndCertificates := None; volunteerAndAwards := None;
     interests := None; p_scrapedAt := None |}.

Definition entries (n : nat) : list json := map (fun k => JInt (Z.of_nat k)) (seq 1 n).

(** A profile with 7 experiences and 16 interests. *)
Definition busyProfile : LinkedInProfileData :=
  {| linkedinUrl := None; firstName := Some "Ada"; lastName := None;
     fullName := Some "Ada L."; headline := None; connections := None;
     followers := None; email := None; mobileNumber := None; jobTitle := None;
     p_companyName := None; companyIndustry := None; p_companyWebsite := None;
     companyLinkedin := None; companyFoundedIn := None; companySize := None;
     currentJobDuration := None; currentJobDurationInYrs := None;
     topSkillsByEndorsements := None; addressCountryOnly := None;
     addressWithCountry := None; addressWithoutCountry := None;
     profilePic := None; profilePicHighQuality := None; about := None;
     publicIdentifier := None;
     experiences := Some (entries 7); educations := None; skills := Some (entries 20);
     licenseAndCertificates := None; volunteerAndAwards := None;
     interests := Some (entries 16); p_scrapedAt := None |}.

Definition configured (name : string) : option string := Some ("<" ++ name ++ ">").

(** The synchronous call answers with [busyProfile]. *)
Definition syncWorld : World :=
  {| gemini := fun _ _ => unavailable;
     search := fun _ _ => unavailable;
     aggregate := fun _ _ => unavailable;
     elastic := fun _ _ => unavailable;
     jobItems := fun _ _ => unavailable;
     profileItems := fun _ _ => resolved [busyProfile];
     runs := fun _ _ => unavailable;
     env := configured;
     clock := fun _ => "2025-01-01T00:00:00.000Z";
     dice := fun _ => [Digit 0; Dot; Digit 5] |}.

(** The synchronous call is refused, the run starts, the second poll
    finds [busyProfile]. *)
Definition pollingWorld : World :=
  {| gemini := fun _ _ => unavailable;
     search := fun _ _ => unavailable;
     aggregate := fun _ _ => unavailable;
     elastic := fun _ _ => unavailable;
     jobItems := fun _ _ => unavailable;
     profileItems := fun n _ => if n <? 4 then unavailable else resolved [busyProfile];
     runs := fun _ _ => resolved {| run_id := "run-1"; run_status := "RUNNING" |};
     env := configured;
     clock := fun _ => "2025-01-01T00:00:00.000Z";
     dice := fun _ => [Digit 0; Dot; Digit 5] |}.

Definition identity (s : string) : string := s.

Definition answeredRecord (W : World) : option LinkedInProfileData :=
  match answer (handleLinkedInScraping identity W "https://linkedin.com/in/ada") with
  | Normal (SuccessResponse record) => Some record
  | _ => None
  end.

Lemma profile_sections_capped_witness :
  exists record payload,
    answer (handleLinkedInScraping identity pollingWorld "https://linkedin.com/in/ada")
      = Normal (SuccessResponse record) /\
    scraped pollingWorld payload /\
    len (experiences record) <= 5 /\
    len (interests record) = len (interests payload).
Proof.
  eexists.
  destruct (profile_sections_capped identity pollingWorld
              "https://linkedin.com/in/ada" _ eq_refl)
    as (payload & Hs & _ & H1 & _ & _ & _ & _ & H6).
  exists payload. split; [reflexivity|]. auto.
Defined.

(** C4, as the specification words it, fails: the interests are not cut
    to any of the caps.  A payload with 16 interests gives a record with
    16 interests, on the synchronous path and on the polling path. *)
Lemma interests_not_truncated :
  option_map (fun r => len (interests r)) (answeredRecord syncWorld) = Some 16 /\
  option_map (fun r => len (interests r)) (answeredRecord pollingWorld) = Some 16 /\
  option_map (fun r => len (skills r)) (answeredRecord syncWorld) = Some 15 /\
  ~ (forall W record, answeredRecord W = Some record -> len (interests record) <= 15).
Proof.
  repeat split; try reflexivity.
  intros H.
  specialize (H syncWorld).
  destruct (answeredRecord syncWorld) as [record|] eqn:E; [|discriminate E].
  specialize (H record eq_refl).
  vm_compute in E. injection E as <-. vm_compute in H. lia.
Qed.

End ProfileExamples.

(** ** [JSON.stringify] never emits a line feed *)

Section Lines.
Import JS Json.

Fixpoint countLF (s : string) : nat :=
  match s with
  | EmptyString => 0
  | String c s' => (if code c =? 10 then 1 else 0) + countLF s'
  end.

Lemma countLF_app a b : countLF (a ++ b) = countLF a + countLF b.
Proof. induction a as [|c a IH]; simpl; [reflexivity | rewrite IH; lia]. Qed.

Lemma countLF_escapeChar c : countLF (escapeChar c) = 0.
Proof. destruct c as [[] [] [] [] [] [] [] []]; reflexivity. Qed.

Lemma countLF_escape s : countLF (escape s) = 0.
Proof.
  induction s as [|c s IH]; simpl; [reflexivity|].
  now rewrite countLF_app, countLF_escapeChar, IH.
Qed.

Lemma countLF_quote s : countLF (quote s) = 0.
Proof. unfold quote. rewrite !countLF_app, countLF_escape. reflexivity. Qed.

Lemma countLF_uint d : countLF (NilEmpty.string_of_uint d) = 0.
Proof. induction d; simpl; auto. Qed.

Lemma countLF_showZ z : countLF (showZ z) = 0.
Proof.
  unfold showZ. destruct (Z.to_int z) as [d|d]; simpl.
  - destruct d; simpl; auto using countLF_uint.
  - destruct d; simpl; auto using countLF_uint.
Qed.

Lemma numcharAscii_not_lf c : (code (numcharAscii c) =? 10) = false.
Proof.
  destruct c as [d| | | |]. 2-5: reflexivity.
  unfold numcharAscii, code. rewrite nat_ascii_embedding.
  - apply Nat.eqb_neq. lia.
  - pose proof (Nat.mod_upper_bound d 10). lia.
Qed.

Lemma countLF_showFloat x : countLF (showFloat x) = 0.
Proof.
  unfold showFloat. induction x as [|c x IH]; simpl; [reflexivity|].
  now rewrite numcharAscii_not_lf, IH.
Qed.

Lemma countLF_join_clean sep l :
  countLF sep = 0 -> Forall (fun s => countLF s = 0) l -> countLF (join sep l) = 0.
Proof.
  intros Hsep H. induction H as [|x l Hx Hl IH]; [reflexivity|].
  simpl. destruct l; [exact Hx|].
  rewrite !countLF_app, Hx, Hsep, IH. reflexivity.
Qed.

Lemma countLF_stringify : forall j, countLF (stringify j) = 0.
Proof.
  fix IH 1. intros [ | [] | z | x | s | items | fields ]; cbn [stringify];
    try reflexivity.
  - apply countLF_showZ.
  - apply countLF_showFloat.
  - apply countLF_quote.
  - rewrite !countLF_app, countLF_join_clean; [reflexivity | reflexivity |].
    induction items as [|i items IHi]; cbn [map]; constructor; auto.
  - rewrite !countLF_app, countLF_join_clean; [reflexivity | reflexivity |].
    induction fields as [|[k v] fields IHf]; cbn [map]; constructor; auto.
    cbn [fst snd]. rewrite !countLF_app, countLF_quote, IH. reflexivity.
Qed.

(** The lines of a newline-delimited body: one line feed ends each. *)
Lemma countLF_ndjson items :
  items <> [] -> countLF (EsLib.ndjson items) = length items.
Proof.
  unfold EsLib.ndjson. intros Hne. rewrite countLF_app. simpl.
  induction items as [|i items IH]; [contradiction|].
  destruct items as [|i' items].
  - simpl. rewrite countLF_stringify. reflexivity.
  - change (join nl (map stringify (i :: i' :: items)))
      with (stringify i ++ nl ++ join nl (map stringify (i' :: items))).
    rewrite !countLF_app, countLF_stringify.
    assert (Hne' : i' :: items <> []) by discriminate.
    specialize (IH Hne'). simpl in *. lia.
Qed.

Lemma append_assoc3 a b c : ((a ++ b) ++ c)%string = (a ++ (b ++ c))%string.
Proof. induction a as [|x a IH]; simpl; [reflexivity | now rewrite IH]. Qed.

Lemma ndjson_lines items :
  items <> [] ->
  EsLib.ndjson items
  = fold_right (fun item rest => stringify item ++ nl ++ rest) EmptyString items.
Proof.
  unfold EsLib.ndjson. intros Hne.
  induction items as [|i items IH]; [contradiction|].
  destruct items as [|i' items]; [reflexivity|].
  change (join nl (map stringify (i :: i' :: items)))
    with (stringify i ++ nl ++ join nl (map stringify (i' :: items))).
  rewrite !append_assoc3, IH by discriminate.
  reflexivity.
Qed.

End Lines.

(** ** Bulk indexing *)

Section Bulk.
Import JS Json Types Eff EsLib.

Variable key : string.
Variable W : World.

(** The placeholder vector of the job that starts drawing at [d]. *)
Definition vectorAt (d : nat) : list float :=
  [dice W d; dice W (S d); dice W (S (S d))].

(** The action and document of each job, the first job drawing at [d]. *)
Fixpoint bulkPairs (d : nat) (jobs : list ElasticsearchJobData) : list (list json) :=
  match jobs with
  | [] => []
  | j :: rest => [actionLine; documentLine j (vectorAt d)] :: bulkPairs (3 + d) rest
  end.

Definition bulkRequest (bulkBody : list json) : request :=
  {| url := ELASTICSEARCH_URL ++ "/_bulk"; method := "POST";
     headers := [("Authorization", "ApiKey " ++ key);
                 ("Content-Type", "application/json")];
     body := Some (ndjson bulkBody) |}.

Lemma mapM_bulkPair {R} jobs s :
  mapM (R := R) (bulkPair W) jobs s
  = (Normal (bulkPairs (draws s) jobs),
     {| calls := calls s; reads := reads s; draws := 3 * length jobs + draws s |}, []).
Proof.
  revert s; induction jobs as [|j jobs IH]; intros s.
  - destruct s; reflexivity.
  - cbn [mapM]. unfold bind at 1. unfold bulkPair at 1. unfold_eff. cbn [calls reads draws].
    rewrite IH. cbn [calls reads draws app bulkPairs length].
    replace (3 * S (length jobs) + draws s) with (3 * length jobs + S (S (S (draws s)))) by lia.
    reflexivity.
Qed.

Lemma bulkPairs_length d jobs : length (concat (bulkPairs d jobs)) = 2 * length jobs.
Proof.
  revert d; induction jobs as [|j jobs IH]; intros d; simpl; [reflexivity|].
  rewrite IH. lia.
Qed.

(** The lines come in pairs: the action line, then the document of the
    job with the three numbers drawn for it. *)
Lemma bulkPairs_nth d jobs i j :
  nth_error jobs i = Some j ->
  nth_error (concat (bulkPairs d jobs)) (2 * i) = Some actionLine /\
  nth_error (concat (bulkPairs d jobs)) (2 * i + 1)
    = Some (documentLine j (vectorAt (d + 3 * i))).
Proof.
  revert d i; induction jobs as [|j0 jobs IH]; intros d i Hi.
  - destruct i; discriminate.
  - destruct i as [|i].
    + injection Hi as ->. rewrite Nat.add_0_r. split; reflexivity.
    + cbn [nth_error] in Hi. destruct (IH (3 + d) i Hi) as [Ha Hd].
      replace (2 * S i) with (S (S (2 * i))) by lia.
      replace (S (S (2 * i)) + 1) with (S (S (2 * i + 1))) by lia.
      replace (d + 3 * S i) with (3 + d + 3 * i) by lia.
      split; [exact Ha | exact Hd].
Qed.

Lemma lines_of_items items :
  fold_right (fun item rest => stringify item ++ nl ++ rest) EmptyString items
  = fold_right (fun line rest => line ++ nl ++ rest) EmptyString (map stringify items).
Proof.
  induction items as [|i items IH]; cbn [fold_right map]; [reflexivity | now rewrite IH].
Qed.

(** C6.  Saving no jobs returns at once: no event, no counter moves.
    Saving [N > 0] jobs makes exactly one outbound call, a POST to
    [/_bulk], whose body is [2 * N] lines, each a JSON text ended by a
    line feed: for the job at index [i], line [2 * i] is the action, an
    object whose [index] names the index [linkedin-jobs-webhook], and
    line [2 * i + 1] is the document, the properties of the job followed
    by the vector of three numbers drawn for it and the composite text. *)
Theorem bulk_save_one_request :
  forall (s : state),
    bulkSaveJobsToElasticsearch key W [] s = (Return tt, s, []) /\
    forall (jobs : list ElasticsearchJobData), jobs <> [] ->
      exists c s' (lines : list string),
        bulkSaveJobsToElasticsearch key W jobs s
          = (c, s',
             [Fetch {| url := "https://my-elasticsearch-project-fd08a5.es.us-central1.gcp.elastic.cloud:443/_bulk";
                       method := "POST";
                       headers := [("Authorization", "ApiKey " ++ key);
                                   ("Content-Type", "application/json")];
                       body := Some (fold_right (fun line rest => line ++ nl ++ rest)
                                       EmptyString lines) |}]) /\
        calls s' = S (calls s) /\
        length lines = 2 * length jobs /\
        Forall (fun line => countLF line = 0) lines /\
        countLF (fold_right (fun line rest => line ++ nl ++ rest) EmptyString lines)
          = 2 * length jobs /\
        forall i j, nth_error jobs i = Some j ->
          nth_error lines (2 * i)
            = Some ("{" ++ dq ++ "index" ++ dq ++ ":{" ++ dq ++ "_index" ++ dq ++ ":"
                        ++ dq ++ "linkedin-jobs-webhook" ++ dq ++ "}}") /\
          nth_error lines (2 * i + 1)
            = Some (stringify
                      (JObj (object
                        [("id", option_map JStr (es_id j));
                         ("title", option_map JStr (es_title j));
                         ("company", option_map JStr (es_company j));
                         ("location", option_map JStr (es_location j));
                         ("description", option_map JStr (es_description j));
                         ("salary", option_map JStr (es_salary j));
                         ("jobType", option_map JStr (es_jobType j));
                         ("experienceLevel", option_map JStr (es_experienceLevel j));
                         ("postedDate", option_map JStr (es_postedDate j));
                         ("url", option_map JStr (es_url j));
                         ("companySize", option_map JStr (es_companySize j));
                         ("industry", option_map JStr (es_industry j));
                         ("requirements",
                          option_map (fun l => JArr (map JStr l)) (es_requirements j));
                         ("benefits",
                          option_map (fun l => JArr (map JStr l)) (es_benefits j));
                         ("scrapedAt", option_map JStr (es_scrapedAt j));
                         ("keywords",
                          option_map (fun l => JArr (map JStr l)) (es_keywords j));
                         ("vector",
                          Some (JArr [JFloat (dice W (draws s + 3 * i));
                                      JFloat (dice W (draws s + 3 * i + 1));
                                      JFloat (dice W (draws s + 3 * i + 2))]));
                         ("text",
                          Some (JStr (trim (orStr (es_title j) "" ++ " " ++
                                            orStr (es_company j) "" ++ " " ++
                                            orStr (es_description j) ""))))]))).
Proof.
  intros s. split; [reflexivity|].
  intros jobs Hne.
  set (bulkBody := concat (bulkPairs (draws s) jobs)).
  assert (Hbody : bulkBody <> []).
  { intros E. pose proof (bulkPairs_length (draws s) jobs) as L.
    fold bulkBody in L. rewrite E in L. destruct jobs; [contradiction | simpl in L; lia]. }
  assert (Hrun : exists c s',
            bulkSaveJobsToElasticsearch key W jobs s
              = (c, s', [Fetch (bulkRequest bulkBody)]) /\ calls s' = S (calls s)).
  { destruct jobs as [|j jobs]; [contradiction|].
    unfold bulkSaveJobsToElasticsearch, elasticsearchRequest.
    unfold tryCatch at 1. unfold bind at 1.
    rewrite mapM_bulkPair. fold bulkBody.
    unfold_eff. fold (bulkRequest bulkBody). cbn [calls reads draws].
    destruct (elastic W (calls s) (bulkRequest bulkBody)) as [e|r]; cbn.
    + eexists _, _; split; reflexivity.
    + destruct (ok r); cbn; [destruct (json_body r); cbn|];
        eexists _, _; split; reflexivity. }
  destruct Hrun as (c & s' & Hrun & Hcalls).
  exists c, s', (map stringify bulkBody).
  split; [|split; [exact Hcalls|split; [|split; [|split]]]].
  - rewrite Hrun. unfold bulkRequest.
    rewrite (ndjson_lines bulkBody Hbody), lines_of_items. reflexivity.
  - rewrite length_map. apply bulkPairs_length.
  - apply Forall_forall. intros line Hin. apply in_map_iff in Hin.
    destruct Hin as (item & <- & _). apply countLF_stringify.
  - rewrite <- lines_of_items, <- (ndjson_lines bulkBody Hbody).
    rewrite countLF_ndjson by assumption. apply bulkPairs_length.
  - intros i j Hi.
    destruct (bulkPairs_nth (draws s) jobs i j Hi) as [Ha Hd].
    fold bulkBody in Ha, Hd.
    rewrite !nth_error_map, Ha, Hd. cbn [option_map].
    replace (draws s + 3 * i + 1) with (S (draws s + 3 * i)) by lia.
    replace (draws s + 3 * i + 2) with (S (S (draws s + 3 * i))) by lia.
    split; reflexivity.
Qed.

End Bulk.

Section BulkExamples.
Import JS Json Types Eff EsLib.

Definition blankEsJob : ElasticsearchJobData :=
  {| es_id := None; es_title := None; es_company := None; es_location := None;
     es_description := None; es_salary := None; es_jobType := None;
     es_experienceLevel := None; es_postedDate := None; es_url := None;
     es_companySize := None; es_industry := None; es_requirements := None;
     es_benefits := None; es_scrapedAt := None; es_keywords := None;
     es_vector := None |}.

Definition titled (t : string) : ElasticsearchJobData :=
  {| es_id := Some "42"; es_title := Some t; es_company := Some "Initech";
     es_location := None; es_description := Some ("line one" ++ nl ++ "line two");
     es_salary := None; es_jobType := None; es_experienceLevel := None;
     es_postedDate := None; es_url := None; es_companySize := None;
     es_industry := None; es_requirements := Some []; es_benefits := None;
     es_scrapedAt := None; es_keywords := Some ["rust"]; es_vector := None |}.

Definition twoJobs : list ElasticsearchJobData :=
  [titled "Engineer"; titled "Analyst"].

Lemma bulk_save_one_request_witness :
  twoJobs <> [] /\
  bulkSaveJobsToElasticsearch "key" syncWorld [] start = (Return tt, start, []) /\
  exists c s' (lines : list string),
    bulkSaveJobsToElasticsearch "key" syncWorld twoJobs start
      = (c, s',
         [Fetch {| url := "https://my-elasticsearch-project-fd08a5.es.us-central1.gcp.elastic.cloud:443/_bulk";
                   method := "POST";
                   headers := [("Authorization", "ApiKey key");
                               ("Content-Type", "application/json")];
                   body := Some (fold_right (fun line rest => line ++ nl ++ rest)
                                   EmptyString lines) |}]) /\
    length lines = 4 /\
    nth_error lines 2
      = Some ("{" ++ dq ++ "index" ++ dq ++ ":{" ++ dq ++ "_index" ++ dq ++ ":"
                  ++ dq ++ "linkedin-jobs-webhook" ++ dq ++ "}}") /\
    nth_error lines 3
      = Some (stringify
                (JObj [("id", JStr "42");
                       ("title", JStr "Analyst");
                       ("company", JStr "Initech");
                       ("description", JStr ("line one" ++ nl ++ "line two"));
                       ("requirements", JArr []);
                       ("keywords", JArr [JStr "rust"]);
                       ("vector", JArr [JFloat (dice syncWorld 3);
                                        JFloat (dice syncWorld 4);
                                        JFloat (dice syncWorld 5)]);
                       ("text", JStr ("Analyst Initech line one" ++ nl ++ "line two"))])).
Proof.
  assert (Hne : twoJobs <> []) by discriminate.
  destruct (bulk_save_one_request "key" syncWorld start) as [Hnone Hsome].
  destruct (Hsome twoJobs Hne) as (c & s' & lines & Hrun & _ & Hlen & _ & _ & Hline).
  destruct (Hline 1 (titled "Analyst") eq_refl) as [Haction Hdocument].
  split; [exact Hne|]. split; [exact Hnone|].
  exists c, s', lines.
  split; [exact Hrun|]. split; [exact Hlen|]. split; [exact Haction | exact Hdocument].
Defined.

Example bulk_body_of_two_jobs :
  countLF (ndjson (concat (bulkPairs syncWorld 0 twoJobs))) = 4.
Proof. vm_compute. reflexivity. Qed.

(** The action line as it is written to the body. *)
Example action_line_text :
  stringify (JObj [("index", JObj [("_index", JStr "linkedin-jobs-webhook")])])
  = "{" ++ dq ++ "index" ++ dq ++ ":{" ++ dq ++ "_index" ++ dq ++ ":"
        ++ dq ++ "linkedin-jobs-webhook" ++ dq ++ "}}".
Proof. reflexivity. Qed.

End BulkExamples.

(** ** The text search request *)

Section SearchRequest.
Import JS Json Types Eff.
Local Open Scope Z_scope.

(** Reading a property of a JSON object. *)
Fixpoint lookup (k : string) (fields : list (string * json)) : option json :=
  match fields with
  | [] => None
  | (k', v) :: rest => if String.eqb k k' then Some v else lookup k rest
  end.

Definition prop (k : string) (j : json) : option json :=
  match j with
  | JObj fields => lookup k fields
  | _ => None
  end.









Definition esConfigured (W : World) : Prop :=
  truthy (orStr (env W "ELASTICSEARCH_URL") "") = true /\
  truthy (orStr (env W "ELASTICSEARCH_API_KEY") "") = true.

Definition routeSearchRequest (W : World) (query : string) : request :=
  {| url := orStr (env W "ELASTICSEARCH_URL") "" ++ "/" ++ SearchJobs.indexName W
              ++ "/_search";
     method := "POST";
     headers := [("Authorization",
                  "ApiKey " ++ orStr (env W "ELASTICSEARCH_API_KEY") "");
                 ("Content-Type", "application/json")];
     body := Some (stringify (SearchJobs.searchBody query)) |}.

Definition libSearchRequest (key query : string) (filters : option json) : request :=
  {| url := EsLib.ELASTICSEARCH_URL ++ "/" ++ EsLib.INDEX_NAME ++ "/_search";
     method := "POST";
     headers := [("Authorization", "ApiKey " ++ key);
                 ("Content-Type", "application/json")];
     body := Some (stringify (EsLib.searchBody query filters)) |}.





End SearchRequest.

Section SearchRequestExamples.
Import JS Json Types Eff.

(** The index is reachable and holds nothing that matches. *)
Definition quietWorld : World :=
  {| gemini := fun _ _ => unavailable;
     search := fun _ _ => resolved (Some []);
     aggregate := fun _ _ => unavailable;
     elastic := fun _ _ => unavailable;
     jobItems := fun _ _ => unavailable;
     profileItems := fun _ _ => unavailable;
     runs := fun _ _ => unavailable;
     env := configured;
     clock := fun _ => "2025-01-01T00:00:00.000Z";
     dice := fun _ => [Digit 0; Dot; Digit 5] |}.





End SearchRequestExamples.

(** ** The orchestration pipeline of [POST /api/search-jobs] *)

Section CaseInsensitive.
Import JS.

(** Equality of two strings up to the case of their letters. *)
Fixpoint equalsIgnoreCase (a b : string) : bool :=
  match a, b with
  | EmptyString, EmptyString => true
  | String x a', String y b' =>
      Ascii.eqb (lowerChar x) (lowerChar y) && equalsIgnoreCase a' b'
  | _, _ => false
  end.

Lemma upper_Y c rest t :
  sameUnits (upperUnits c ++ rest) (89 :: t)
  = Ascii.eqb (lowerChar c) (lowerChar "Y") && sameUnits rest t.
Proof. destruct c as [[] [] [] [] [] [] [] []]; reflexivity. Qed.

Lemma upper_E c rest t :
  sameUnits (upperUnits c ++ rest) (69 :: t)
  = Ascii.eqb (lowerChar c) (lowerChar "E") && sameUnits rest t.
Proof. destruct c as [[] [] [] [] [] [] [] []]; reflexivity. Qed.

(** The sharp s becomes SS, which is not the one S that ends YES. *)
Lemma upper_S c rest :
  sameUnits (upperUnits c ++ rest) [83]
  = Ascii.eqb (lowerChar c) (lowerChar "S") && sameUnits rest [].
Proof. destruct c as [[] [] [] [] [] [] [] []]; reflexivity. Qed.

Lemma upper_none c rest : sameUnits (upperUnits c ++ rest) [] = false.
Proof. destruct c as [[] [] [] [] [] [] [] []]; reflexivity. Qed.

Lemma upper_end s : sameUnits (toUpperCase s) [] = equalsIgnoreCase s "".
Proof.
  destruct s as [|c s]; [reflexivity|].
  cbn [toUpperCase list_ascii_of_string flat_map equalsIgnoreCase].
  apply upper_none.
Qed.

Lemma upper_YES s :
  sameUnits (toUpperCase s) (units "YES") = equalsIgnoreCase s "YES".
Proof.
  change (units "YES") with [89; 69; 83].
  destruct s as [|a s]; [reflexivity|].
  cbn [toUpperCase list_ascii_of_string flat_map equalsIgnoreCase].
  rewrite upper_Y. f_equal.
  destruct s as [|b s]; [reflexivity|].
  cbn [list_ascii_of_string flat_map equalsIgnoreCase].
  rewrite upper_E. f_equal.
  destruct s as [|c s]; [reflexivity|].
  cbn [list_ascii_of_string flat_map equalsIgnoreCase].
  rewrite upper_S. f_equal.
  apply upper_end.
Qed.

End CaseInsensitive.

Section Pipeline.
Import JS Json Types Eff SearchJobs.

Variable sanitizeInput : string -> string.
Variable W : World.

Definition geminiConfigured : Prop :=
  truthy (orStr (env W "GEMINI_API_KEY") "") = true /\
  truthy (orStr (env W "GEMINI_API_URL") "") = true.

Definition geminiRequest (prompt : string) : request :=
  {| url := orStr (env W "GEMINI_API_URL") "" ++ "?key="
              ++ orStr (env W "GEMINI_API_KEY") "";
     method := "POST";
     headers := [("Content-Type", "application/json")];
     body := Some (stringify (geminiBody prompt)) |}.

(** The [n]-th outbound call puts [prompt] to the LLM, and [r] is the
    response [callGeminiAPI] returns for it. *)
Definition llmAnswers (n : nat) (prompt : string) (r : string) : Prop :=
  exists resp candidate,
    gemini W n (geminiRequest prompt) = Resolved resp /\
    ok resp = true /\ json_body resp = Some candidate /\
    r = orStr candidate apology.

(** A query that passes the guard of the handler. *)
Definition nonBlank (s : string) : Prop :=
  truthy s = true /\ (String.length (trim s) =? 0) = false.

Definition bump (s : state) : state :=
  {| calls := S (calls s); reads := reads s; draws := draws s |}.

(** [callGeminiAPI] makes one outbound call and returns the answer or
    throws. *)
Lemma callGeminiAPI_run prompt s :
  geminiConfigured ->
  exists c,
    callGeminiAPI W prompt s
      = (c, bump s, [CallGemini prompt; Fetch (geminiRequest prompt)]) /\
    (forall r, llmAnswers (calls s) prompt r -> c = Return r) /\
    (match c with Normal _ => False | _ => True end).
Proof.
  intros [Hkey Hurl]. unfold callGeminiAPI. rewrite Hkey, Hurl. cbn [negb orb].
  unfold_eff. fold (geminiRequest prompt). fold (bump s). cbn [app].
  destruct (gemini W (calls s) (geminiRequest prompt)) as [e|resp] eqn:Hg; cbn [app].
  - eexists; split; [reflexivity|]. split; [|exact I].
    intros r (resp & cand & Hr & _). rewrite Hg in Hr. discriminate.
  - destruct (ok resp) eqn:Hok; cbn [negb app].
    + destruct (json_body resp) as [cand|] eqn:Hj; cbn [app].
      * eexists; split; [reflexivity|]. split; [|exact I].
        intros r (resp' & cand' & Hr & _ & Hj' & ->).
        rewrite Hg in Hr. injection Hr as <-. rewrite Hj in Hj'. now injection Hj' as <-.
      * eexists; split; [reflexivity|]. split; [|exact I].
        intros r (resp' & cand' & Hr & _ & Hj' & _).
        rewrite Hg in Hr. injection Hr as <-. rewrite Hj in Hj'. discriminate.
    + eexists; split; [reflexivity|]. split; [|exact I].
      intros r (resp' & cand' & Hr & Hok' & _).
      rewrite Hg in Hr. injection Hr as <-. rewrite Hok in Hok'. discriminate.
Qed.


Definition returned {R A} (c : completion R A) : Prop :=
  match c with Normal _ => False | _ => True end.

Lemma shouldSearch_run question profile s :
  geminiConfigured ->
  exists c,
    shouldSearchElasticsearch sanitizeInput W question profile s
      = (c, bump s,
         [CallDecide question;
          CallGemini (decidePrompt sanitizeInput question profile);
          Fetch (geminiRequest (decidePrompt sanitizeInput question profile))]) /\
    (forall r, llmAnswers (calls s) (decidePrompt sanitizeInput question profile) r ->
       c = Return (sameUnits (toUpperCase (trim r)) (units "YES"))) /\
    returned c.
Proof.
  intros Hconf. unfold shouldSearchElasticsearch.
  destruct (callGeminiAPI_run (decidePrompt sanitizeInput question profile) s Hconf)
    as (c & Hrun & Hans & Hc).
  unfold_eff. rewrite Hrun.
  destruct c as [a|e|r]; [contradiction| |]; cbn [app].
  - eexists; split; [reflexivity|]. split; [|exact I].
    intros r Hr. specialize (Hans r Hr). discriminate.
  - eexists; split; [reflexivity|]. split; [|exact I].
    intros r' Hr. specialize (Hans r' Hr). now injection Hans as <-.
Qed.

Lemma generateSearchQuery_run question profile s :
  geminiConfigured ->
  exists c,
    generateSearchQuery sanitizeInput W question profile s
      = (c, bump s,
         [CallGenerateQuery question;
          CallGemini (queryPrompt sanitizeInput question profile);
          Fetch (geminiRequest (queryPrompt sanitizeInput question profile))]) /\
    (forall t, llmAnswers (calls s) (queryPrompt sanitizeInput question profile) t ->
       c = Return (trim t)) /\
    returned c.
Proof.
  intros Hconf. unfold generateSearchQuery.
  destruct (callGeminiAPI_run (queryPrompt sanitizeInput question profile) s Hconf)
    as (c & Hrun & Hans & Hc).
  unfold_eff. rewrite Hrun.
  destruct c as [a|e|r]; [contradiction| |]; cbn [app].
  - eexists; split; [reflexivity|]. split; [|exact I].
    intros r Hr. specialize (Hans r Hr). discriminate.
  - eexists; split; [reflexivity|]. split; [|exact I].
    intros r' Hr. specialize (Hans r' Hr). now injection Hans as <-.
Qed.

Lemma generateFinalResponse_run question profile found history s :
  geminiConfigured ->
  exists c,
    generateFinalResponse sanitizeInput W question profile found history s
      = (c, bump s,
         [CallCompose question found history;
          CallGemini (composePrompt sanitizeInput question profile found history);
          Fetch (geminiRequest
                   (composePrompt sanitizeInput question profile found history))]) /\
    returned c.
Proof.
  intros Hconf. unfold generateFinalResponse.
  destruct (callGeminiAPI_run
              (composePrompt sanitizeInput question profile found history) s Hconf)
    as (c & Hrun & Hans & Hc).
  unfold_eff. rewrite Hrun.
  destruct c as [a|e|r]; [contradiction| |]; cbn [app];
    (eexists; split; [reflexivity | exact I]).
Qed.

(** [textSearchJobs] makes at most one outbound call, the search. *)
Lemma textSearchJobs_run query s :
  exists c s' sent,
    textSearchJobs W query s = (c, s', CallTextSearch query :: sent) /\
    (sent = [] \/ sent = [Fetch (routeSearchRequest W query)]) /\
    returned c.
Proof.
  unfold textSearchJobs, SearchJobs.elasticsearchRequest.
  unfold_eff. fold (routeSearchRequest W query).
  repeat (case_run; cbn [app]);
    eexists _, _, _; (split; [reflexivity|]); (split; [|exact I]); auto.
Qed.


Definition decideEvents (question : string) (profile : option UserProfile) : list event :=
  [CallDecide question;
   CallGemini (decidePrompt sanitizeInput question profile);
   Fetch (geminiRequest (decidePrompt sanitizeInput question profile))].

Definition queryEvents (question : string) (profile : option UserProfile) : list event :=
  [CallGenerateQuery question;
   CallGemini (queryPrompt sanitizeInput question profile);
   Fetch (geminiRequest (queryPrompt sanitizeInput question profile))].

Definition composeEvents (question : string) (profile : option UserProfile)
    (found : list FoundJob) (history : list ChatTurn) : list event :=
  [CallCompose question found history;
   CallGemini (composePrompt sanitizeInput question profile found history);
   Fetch (geminiRequest (composePrompt sanitizeInput question profile found history))].

(** C1.  Let [r] be the LLM's response to the Decide prompt.  Decide
    takes it as "needs data" exactly when [r], trimmed of the white space
    of ECMAScript, equals YES up to case: the test of the code, the upper
    case of the trimmed response compared with YES, is that equality.  Then the pipeline goes on with Query-Generate and, with
    the query [t] that step answers, with Retrieve on the trimmed [t]
    and then Compose.  For every other response the trace is Decide
    followed at once by Compose on the empty job list, and the answer
    carries no jobs. *)
Theorem decide_gates_retrieval :
  forall (req : JobSearchRequest) (r : string),
    let question := sanitizeInput (query req) in
    let profile := userProfile req in
    let history := orArr (chatHistory req) [] in
    nonBlank question ->
    geminiConfigured ->
    llmAnswers 0 (decidePrompt sanitizeInput question profile) r ->
    sameUnits (toUpperCase (trim r)) (units "YES") = equalsIgnoreCase (trim r) "YES" /\
    if equalsIgnoreCase (trim r) "YES" then
      exists rest,
        events (handleJobSearch sanitizeInput W req)
          = (decideEvents question profile ++ queryEvents question profile ++ rest)%list /\
        forall t, llmAnswers 1 (queryPrompt sanitizeInput question profile) t ->
          exists sent found,
            rest = (CallTextSearch (trim t) :: sent
                      ++ composeEvents question profile found history)%list /\
            (sent = [] \/ sent = [Fetch (routeSearchRequest W (trim t))])
    else
      events (handleJobSearch sanitizeInput W req)
        = (decideEvents question profile ++ composeEvents question profile [] history)%list /\
      exists ai,
        answer (handleJobSearch sanitizeInput W req)
          = Normal (SuccessResponse
                      {| jobs := []; aiResponse := Some ai; totalHits := 0 |}).
Proof.
  intros req r question profile history [Htruthy Hblank] Hconf Hdecide.
  split; [apply upper_YES|].
  destruct (shouldSearch_run question profile start Hconf) as (c & Hrun & Hans & _).
  specialize (Hans r Hdecide). subst c. rewrite upper_YES in Hrun.
  unfold events, answer, handleJobSearch, pipeline.
  fold question profile history. rewrite Htruthy, Hblank. cbn [negb orb].
  unfold_eff. rewrite Hrun.
  destruct (equalsIgnoreCase (trim r) "YES").
  - destruct (generateSearchQuery_run question profile (bump start) Hconf)
      as (c & Hq & Hqans & Hc).
    rewrite Hq.
    destruct c as [a|e|t']; [contradiction| |].
    + cbn [app fst snd]. exists []. split; [reflexivity|].
      intros t Ht. specialize (Hqans t Ht). discriminate.
    + destruct (textSearchJobs_run t' (bump (bump start)))
        as (c & s' & sent & Hs & Hsent & Hc').
      rewrite Hs.
      assert (Hfinal : forall found,
        exists c', generateFinalResponse sanitizeInput W question profile found history s'
          = (c', bump s', composeEvents question profile found history) /\ returned c').
      { intros found. apply generateFinalResponse_run; assumption. }
      destruct c as [a|e|found]; [contradiction| |].
      * destruct (Hfinal []) as (c' & Hf & Hc''). rewrite Hf.
        destruct c' as [a|e'|ai]; [contradiction| |]; cbn [app fst snd].
        all: eexists; split; [reflexivity|].
        all: intros t Ht; specialize (Hqans t Ht); injection Hqans as ->.
        all: exists sent, []; split; [|exact Hsent].
        all: rewrite <- !app_assoc; reflexivity.
      * destruct (Hfinal found) as (c' & Hf & Hc''). rewrite Hf.
        destruct c' as [a|e'|ai]; [contradiction| |]; cbn [app fst snd].
        all: eexists; split; [reflexivity|].
        all: intros t Ht; specialize (Hqans t Ht); injection Hqans as ->.
        all: exists sent, found; split; [|exact Hsent].
        all: rewrite <- !app_assoc; reflexivity.
  - destruct (generateFinalResponse_run question profile [] history (bump start) Hconf)
      as (c & Hf & Hc).
    rewrite Hf.
    destruct c as [a|e|ai]; [contradiction| |]; cbn [app fst snd].
    + split; [reflexivity|]. eexists; reflexivity.
    + split; [reflexivity|]. eexists; reflexivity.
Qed.

End Pipeline.

Section SearchFailure.
Import JS Json Types Eff SearchJobs.

Variable sanitizeInput : string -> string.
Variable W : World.

(** The search call fails whenever it is made: the service is
    unreachable, answers with an error status or an unreadable body, or
    its address is not configured. *)
Definition searchFails : Prop :=
  forall query s, exists e s' sent, textSearchJobs W query s = (Throw e, s', sent).

(** The search service is down. *)
Definition searchDown : Prop :=
  forall n req,
    match search W n req with
    | Rejected _ => True
    | Resolved r => ok r = false \/ json_body r = None
    end.

Lemma searchDown_fails : searchDown -> searchFails.
Proof.
  intros Hdown query s.
  unfold textSearchJobs, SearchJobs.elasticsearchRequest. unfold_eff.
  destruct (negb (truthy (orStr (env W "ELASTICSEARCH_URL") ""))
            || negb (truthy (orStr (env W "ELASTICSEARCH_API_KEY") ""))); cbn [app].
  - eexists _, _, _; reflexivity.
  - match goal with
    | |- context [search W ?n ?req] =>
        specialize (Hdown n req); destruct (search W n req) as [e|r]
    end; cbn [app].
    + eexists _, _, _; reflexivity.
    + destruct Hdown as [Hok | Hbody].
      * rewrite Hok. cbn [negb app]. eexists _, _, _; reflexivity.
      * destruct (ok r); cbn [negb app]; [rewrite Hbody|];
          eexists _, _, _; reflexivity.
Qed.

(** C8.  When the search call fails, the orchestration path goes on:
    Compose is called with the empty job list and the handler answers
    with a success envelope that carries no jobs.  The simple search of
    the GET handler answers the same failure with an error response of
    status 500. *)
Theorem search_failure_policy :
  searchFails ->
  (forall (req : JobSearchRequest) (r t : string),
     let question := sanitizeInput (query req) in
     let profile := userProfile req in
     let history := orArr (chatHistory req) [] in
     nonBlank question ->
     geminiConfigured W ->
     llmAnswers W 0 (decidePrompt sanitizeInput question profile) r ->
     equalsIgnoreCase (trim r) "YES" = true ->
     llmAnswers W 1 (queryPrompt sanitizeInput question profile) t ->
     (exists sent,
        events (handleJobSearch sanitizeInput W req)
          = (decideEvents sanitizeInput W question profile
               ++ queryEvents sanitizeInput W question profile
               ++ CallTextSearch (trim t) :: sent
               ++ composeEvents sanitizeInput W question profile [] history)%list /\
        (sent = [] \/ sent = [Fetch (routeSearchRequest W (trim t))])) /\
     exists ai,
       answer (handleJobSearch sanitizeInput W req)
         = Normal (SuccessResponse
                     {| jobs := []; aiResponse := Some ai; totalHits := 0 |})) /\
  (forall (request : GetRequest),
     answer (handleGetJobSearch sanitizeInput W request)
       = Normal (ErrorResponse "Search service temporarily unavailable" 500) /\
     exists sent,
       events (handleGetJobSearch sanitizeInput W request)
         = CallTextSearch (sanitizeInput (orStr (q request) "")) :: sent /\
       (sent = [] \/
        sent = [Fetch (routeSearchRequest W (sanitizeInput (orStr (q request) "")))])).
Proof.
  intros Hfails. split.
  - intros req r t question profile history [Htruthy Hblank] Hconf Hdecide Hyes Hquery.
    destruct (shouldSearch_run sanitizeInput W question profile start Hconf)
      as (c & Hrun & Hans & _).
    specialize (Hans r Hdecide). subst c. rewrite upper_YES, Hyes in Hrun.
    destruct (generateSearchQuery_run sanitizeInput W question profile
                (bump start) Hconf) as (c & Hq & Hqans & _).
    specialize (Hqans t Hquery). subst c.
    destruct (textSearchJobs_run W (trim t) (bump (bump start)))
      as (c & s' & sent & Hs & Hsent & _).
    destruct (Hfails (trim t) (bump (bump start))) as (e & s'' & sent' & Hthrow).
    rewrite Hs in Hthrow. injection Hthrow as -> _ _.
    destruct (generateFinalResponse_run sanitizeInput W question profile [] history
                s' Hconf) as (c & Hf & Hc).
    unfold events, answer, handleJobSearch, pipeline.
    fold question profile history. rewrite Htruthy, Hblank. cbn [negb orb].
    unfold_eff. rewrite Hrun, Hq, Hs, Hf.
    destruct c as [a|e'|ai]; [contradiction| |]; cbn [app fst snd].
    all: split; [exists sent; split; [|exact Hsent] | eexists; reflexivity].
    all: unfold decideEvents, queryEvents, composeEvents; cbn [app].
    all: rewrite <- !app_assoc; reflexivity.
  - intros request.
    destruct (textSearchJobs_run W (sanitizeInput (orStr (q request) "")) start)
      as (c & s' & sent & Hs & Hsent & _).
    destruct (Hfails (sanitizeInput (orStr (q request) "")) start)
      as (e & s'' & sent' & Hthrow).
    rewrite Hs in Hthrow. injection Hthrow as -> _ _.
    unfold events, answer, handleGetJobSearch. unfold_eff. rewrite Hs.
    cbn [app fst snd]. split; [reflexivity|].
    exists sent. split; [|exact Hsent]. now rewrite app_nil_r.
Qed.

End SearchFailure.

Section PipelineExamples.
Import JS Json Types Eff SearchJobs.

(** The reply to the Decide prompt: a no-break space, a space, the
    word in lower case and a line feed. *)
Definition yesReply : string := String (ascii_of_nat 160) " yes" ++ nl.

Definition llmScript (n : nat) : fetched (option string) :=
  match n with
  | 0 => resolved (Some yesReply)
  | 1 => resolved (Some " data scientist skills ")
  | _ => resolved (Some "Here is what the market asks for.")
  end.

Definition oneHit : Hit :=
  {| _source := titled "Data Scientist"; _id := "doc-1"; _score := None |}.

(** The LLM says yes, gives a query, and the index has one match. *)
Definition chattyWorld : World :=
  {| gemini := fun n _ => llmScript n;
     search := fun _ _ => resolved (Some [oneHit]);
     aggregate := fun _ _ => unavailable;
     elastic := fun _ _ => unavailable;
     jobItems := fun _ _ => unavailable;
     profileItems := fun _ _ => unavailable;
     runs := fun _ _ => unavailable;
     env := configured;
     clock := fun _ => "2025-01-01T00:00:00.000Z";
     dice := fun _ => [Digit 0; Dot; Digit 5] |}.

(** The same conversation with the search service down. *)
Definition downWorld : World :=
  {| gemini := fun n _ => llmScript n;
     search := fun _ _ => unavailable;
     aggregate := fun _ _ => unavailable;
     elastic := fun _ _ => unavailable;
     jobItems := fun _ _ => unavailable;
     profileItems := fun _ _ => unavailable;
     runs := fun _ _ => unavailable;
     env := configured;
     clock := fun _ => "2025-01-01T00:00:00.000Z";
     dice := fun _ => [Digit 0; Dot; Digit 5] |}.

Definition ask : JobSearchRequest :=
  {| query := "What skills do I need for a data scientist role?";
     userProfile := Some {| position := "Data Scientist"; experienceLevel := "middle";
                            linkedinData := None |};
     useVectorSearch := Some true;
     chatHistory := None |}.

Lemma ask_nonBlank : nonBlank (identity (query ask)).
Proof. split; reflexivity. Qed.

Lemma decide_gates_retrieval_witness :
  nonBlank (identity (query ask)) /\
  geminiConfigured chattyWorld /\
  llmAnswers chattyWorld 0
    (decidePrompt identity (identity (query ask)) (userProfile ask)) yesReply /\
  exists rest,
    events (handleJobSearch identity chattyWorld ask)
    = (decideEvents identity chattyWorld (identity (query ask)) (userProfile ask)
         ++ queryEvents identity chattyWorld (identity (query ask)) (userProfile ask)
         ++ rest)%list.
Proof.
  assert (H2 : geminiConfigured chattyWorld) by (split; reflexivity).
  assert (H3 : llmAnswers chattyWorld 0
                 (decidePrompt identity (identity (query ask)) (userProfile ask))
                 yesReply).
  { eexists _, _. repeat split; reflexivity. }
  split; [exact ask_nonBlank|]. split; [exact H2|]. split; [exact H3|].
  destruct (decide_gates_retrieval identity chattyWorld ask yesReply
              ask_nonBlank H2 H3) as [_ H].
  assert (E : equalsIgnoreCase (trim yesReply) "YES" = true) by reflexivity.
  rewrite E in H. destruct H as (rest & Hev & _).
  exists rest. exact Hev.
Defined.

(** The white space that [trim] strips includes the no-break space; the
    upper case of the sharp s is SS, so a reply that ends in it is not
    YES. *)
Example decide_replies :
  map (fun reply => sameUnits (toUpperCase (trim reply)) (units "YES"))
    [yesReply; "YES"; "Yes."; "yes please"; "NO"; "";
     "ye" ++ String (ascii_of_nat 223) EmptyString]
  = [true; true; false; false; false; false; false].
Proof. vm_compute. reflexivity. Qed.

Example chatty_run :
  map (fun ev => match ev with
                 | CallDecide _ => "decide"
                 | CallGenerateQuery _ => "query-generate"
                 | CallTextSearch q => "retrieve " ++ q
                 | CallCompose _ found _ => "compose " ++ showZ (Z.of_nat (length found))
                 | CallGemini _ => "llm"
                 | Fetch _ => "fetch"
                 | Sleep _ => "sleep"
                 end)
    (events (handleJobSearch identity chattyWorld ask))
  = ["decide"; "llm"; "fetch"; "query-generate"; "llm"; "fetch";
     "retrieve data scientist skills"; "fetch"; "compose 1"; "llm"; "fetch"].
Proof. vm_compute. reflexivity. Qed.

Lemma downWorld_searchFails : searchFails downWorld.
Proof. apply searchDown_fails. intros n req. left. reflexivity. Qed.

Lemma search_failure_policy_witness :
  searchFails downWorld /\
  answer (handleGetJobSearch identity downWorld {| q := Some "rust"; limit := Some 20%Z |})
    = Normal (ErrorResponse "Search service temporarily unavailable" 500) /\
  exists ai,
    answer (handleJobSearch identity downWorld ask)
    = Normal (SuccessResponse {| jobs := []; aiResponse := Some ai; totalHits := 0 |}).
Proof.
  destruct (search_failure_policy identity downWorld downWorld_searchFails)
    as [Hpost Hget].
  split; [exact downWorld_searchFails|].
  split; [exact (proj1 (Hget {| q := Some "rust"; limit := Some 20%Z |}))|].
  assert (H2 : geminiConfigured downWorld) by (split; reflexivity).
  assert (H3 : llmAnswers downWorld 0
                 (decidePrompt identity (identity (query ask)) (userProfile ask))
                 yesReply).
  { eexists _, _. repeat split; reflexivity. }
  assert (H4 : llmAnswers downWorld 1
                 (queryPrompt identity (identity (query ask)) (userProfile ask))
                 " data scientist skills ").
  { eexists _, _. repeat split; reflexivity. }
  exact (proj2 (Hpost ask yesReply " data scientist skills " ask_nonBlank H2 H3
                  eq_refl H4)).
Defined.

End PipelineExamples.

(** ** The job scrape and the profile scrape *)

Section Scrapes.
Import JS Json Types Eff.

Variable sanitizeInput : string -> string.
Variable ELASTICSEARCH_API_KEY : string.
Variable W : World.

Definition mappingRequest : request :=
  {| url := EsLib.ELASTICSEARCH_URL ++ "/" ++ EsLib.INDEX_NAME ++ "/_mapping";
     method := "PUT";
     headers := [("Authorization", "ApiKey " ++ ELASTICSEARCH_API_KEY);
                 ("Content-Type", "application/json")];
     body := Some (stringify EsLib.indexMapping) |}.

(** The mapping call throws: the service is unreachable, or answers with
    an error status or an unreadable body. *)
Definition initFails (n : nat) : Prop :=
  match elastic W n mappingRequest with
  | Rejected _ => True
  | Resolved r => ok r = false \/ json_body r = None
  end.

Lemma initialize_run {R} s :
  exists c,
    EsLib.initializeElasticsearchIndex (R := R) ELASTICSEARCH_API_KEY W s
      = (c, bump s, [Fetch mappingRequest]) /\
    (c = Normal tt \/ exists e, c = Throw e) /\
    (initFails (calls s) -> exists e, c = Throw e).
Proof.
  unfold EsLib.initializeElasticsearchIndex, EsLib.elasticsearchRequest, initFails.
  unfold_eff. fold mappingRequest. fold (bump s).
  destruct (elastic W (calls s) mappingRequest) as [e|r]; cbn [app].
  - eexists; split; [reflexivity|]. split; eauto.
  - destruct (ok r); cbn [negb app].
    + destruct (json_body r); cbn [app].
      * eexists; split; [reflexivity|]. split; [left; reflexivity|].
        intros [H|H]; discriminate.
      * eexists; split; [reflexivity|]. split; eauto.
    + eexists; split; [reflexivity|]. split; eauto.
Qed.

Definition jobsConfigured : Prop :=
  truthy (orStr (env W "APIFY_API_TOKEN") "") = true /\
  truthy (orStr (env W "APIFY_ACTOR_ID") "") = true.

Definition profilesConfigured : Prop :=
  truthy (orStr (env W "APIFY_API_TOKEN") "") = true /\
  truthy (orStr (env W "LINKEDIN_SCRAPER_ACTOR_ID") "") = true.

(** No call for dataset items produces results, the synchronous call
    included: it is refused, or not OK, or unreadable, or empty. *)
Definition noItems {A} (service : nat -> request -> fetched (list A)) : Prop :=
  forall n req,
    match service n req with
    | Rejected _ => True
    | Resolved r => ok r = false \/ json_body r = None \/ json_body r = Some []
    end.

(** The [n]-th call starts the run. *)
Definition runStarts (n : nat) (req : request) : Prop :=
  exists r d, runs W n req = Resolved r /\ ok r = true /\ json_body r = Some d.

(** No status check reports the run as FAILED. *)
Definition neverFailed : Prop :=
  forall n req,
    match runs W n req with
    | Rejected _ => True
    | Resolved r =>
        ok r = true -> forall d, json_body r = Some d ->
        String.eqb (run_status d) "FAILED" = false
    end.

(** The sleeps of a trace, in milliseconds. *)
Fixpoint naps (t : list event) : list Z :=
  match t with
  | [] => []
  | Sleep ms :: rest => ms :: naps rest
  | _ :: rest => naps rest
  end.

Lemma naps_app a b : naps (a ++ b) = (naps a ++ naps b)%list.
Proof.
  induction a as [|ev a IH]; [reflexivity|].
  destruct ev; simpl; rewrite IH; reflexivity.
Qed.

Ltac ask_items H :=
  match goal with
  | |- context [?service W ?n ?req] =>
      lazymatch service with
      | jobItems => idtac
      | profileItems => idtac
      end;
      let Hi := fresh "Hi" in
      pose proof (H n req) as Hi;
      destruct (service W n req) as [?|?]; cbn [app negb]
  end.

(** The four ways a call for items yields nothing. *)
Ltac no_items H :=
  match goal with
  | |- context [?service W ?n ?req] =>
      lazymatch service with
      | jobItems => idtac
      | profileItems => idtac
      end;
      let Hi := fresh "Hi" in
      let res := fresh "res" in
      pose proof (H n req) as Hi;
      destruct (service W n req) as [?|res]; cbn [app negb];
      [ | destruct (ok res) eqn:?; cbn [app negb];
          [ destruct Hi as [Hi | [Hi | Hi]];
            [discriminate | rewrite Hi | rewrite Hi]; cbn [app] | ] ]
  end.

Ltac ask_status H :=
  match goal with
  | |- context [runs W ?n ?req] =>
      let Hi := fresh "Hs" in
      pose proof (H n req) as Hi;
      destruct (runs W n req) as [?|?]; cbn [app negb]
  end.

(** With nothing to find and no failure reported, a turn of the jobs
    loop sleeps 5 seconds and goes on. *)
Lemma jobs_pollOnce_empty actor token runId location s :
  noItems (jobItems W) -> neverFailed ->
  exists s' t,
    ScrapeJobs.pollOnce W actor token runId location s = (Normal ScrapeJobs.Continue, s', t) /\
    naps t = [5000%Z].
Proof.
  intros Hno Hnf. unfold ScrapeJobs.pollOnce. unfold_eff.
  ask_items Hno; [eexists _, _; split; reflexivity|].
  destruct (ok r) eqn:Hok; cbn [app negb].
  - destruct Hi as [Hi | [Hi | Hi]]; [discriminate| |]; rewrite Hi; cbn [app].
    + eexists _, _; split; reflexivity.
    + ask_status Hnf; [eexists _, _; split; reflexivity|].
      destruct (ok r0) eqn:Hok0; cbn [app negb]; [|eexists _, _; split; reflexivity].
      destruct (json_body r0) as [d|] eqn:Hd; cbn [app];
        [|eexists _, _; split; reflexivity].
      rewrite (Hs eq_refl d eq_refl). cbn [app]. eexists _, _; split; reflexivity.
  - ask_status Hnf; [eexists _, _; split; reflexivity|].
    destruct (ok r0) eqn:Hok0; cbn [app negb]; [|eexists _, _; split; reflexivity].
    destruct (json_body r0) as [d|] eqn:Hd; cbn [app];
      [|eexists _, _; split; reflexivity].
    rewrite (Hs eq_refl d eq_refl). cbn [app]. eexists _, _; split; reflexivity.
Qed.

Lemma jobs_pollLoop_exhausts left actor token runId location s :
  noItems (jobItems W) -> neverFailed ->
  exists s' t,
    ScrapeJobs.pollLoop W left actor token runId location s = (Normal None, s', t) /\
    naps t = repeat 5000%Z left.
Proof.
  intros Hno Hnf. revert s; induction left as [|left IH]; intros s.
  - eexists _, _; split; reflexivity.
  - cbn [ScrapeJobs.pollLoop]. unfold bind.
    destruct (jobs_pollOnce_empty actor token runId location s Hno Hnf)
      as (s1 & t1 & -> & Hn1).
    destruct (IH s1) as (s2 & t2 & -> & Hn2).
    eexists _, _; split; [reflexivity|].
    rewrite naps_app, Hn1, Hn2. reflexivity.
Qed.

Lemma profile_pollOnce_empty actor token runId s :
  noItems (profileItems W) -> neverFailed ->
  exists s' t,
    ScrapeLinkedin.pollOnce W actor token runId s
      = (Normal ScrapeLinkedin.Continue, s', t) /\
    naps t = [5000%Z].
Proof.
  intros Hno Hnf. unfold ScrapeLinkedin.pollOnce. unfold_eff.
  ask_items Hno; [eexists _, _; split; reflexivity|].
  destruct (ok r) eqn:Hok; cbn [app negb].
  - destruct Hi as [Hi | [Hi | Hi]]; [discriminate| |]; rewrite Hi; cbn [app].
    + eexists _, _; split; reflexivity.
    + ask_status Hnf; [eexists _, _; split; reflexivity|].
      destruct (ok r0) eqn:Hok0; cbn [app negb]; [|eexists _, _; split; reflexivity].
      destruct (json_body r0) as [d|] eqn:Hd; cbn [app];
        [|eexists _, _; split; reflexivity].
      rewrite (Hs eq_refl d eq_refl). cbn [app]. eexists _, _; split; reflexivity.
  - ask_status Hnf; [eexists _, _; split; reflexivity|].
    destruct (ok r0) eqn:Hok0; cbn [app negb]; [|eexists _, _; split; reflexivity].
    destruct (json_body r0) as [d|] eqn:Hd; cbn [app];
      [|eexists _, _; split; reflexivity].
    rewrite (Hs eq_refl d eq_refl). cbn [app]. eexists _, _; split; reflexivity.
Qed.

Lemma profile_pollLoop_exhausts left actor token runId s :
  noItems (profileItems W) -> neverFailed ->
  exists s' t,
    ScrapeLinkedin.pollLoop W left actor token runId s = (Normal None, s', t) /\
    naps t = repeat 5000%Z left.
Proof.
  intros Hno Hnf. revert s; induction left as [|left IH]; intros s.
  - eexists _, _; split; reflexivity.
  - cbn [ScrapeLinkedin.pollLoop]. unfold bind.
    destruct (profile_pollOnce_empty actor token runId s Hno Hnf)
      as (s1 & t1 & -> & Hn1).
    destruct (IH s1) as (s2 & t2 & -> & Hn2).
    eexists _, _; split; [reflexivity|].
    rewrite naps_app, Hn1, Hn2. reflexivity.
Qed.


Definition jobsToken : string := orStr (env W "APIFY_API_TOKEN") "".
Definition jobsActor : string := orStr (env W "APIFY_ACTOR_ID") "".
Definition profilesActor : string := orStr (env W "LINKEDIN_SCRAPER_ACTOR_ID") "".

(** The input of the job actor for a request. *)
Definition jobsInput (req : ScrapeJobs.JobScrapingRequest) : json :=
  ScrapeJobs.actorInput
    (ScrapeJobs.jobSearchUrl (sanitizeInput (ScrapeJobs.keywords req))
       (sanitizeInput (match ScrapeJobs.req_location req with
                       | Some l => l
                       | None => "United States"
                       end)))
    (match ScrapeJobs.count req with Some c => c | None => 50%Z end).

(** C2, as the routes have it.  When the synchronous call and all the
    polls of a scrape end without results (and the run never reports
    FAILED), both handlers answer with an error response of status 500:
    the job scrape after 24 sleeps of 5 seconds, the profile scrape after
    20. *)
Theorem scrape_exhaustion_is_an_error :
  neverFailed ->
  (forall (req : ScrapeJobs.JobScrapingRequest),
     nonBlank (sanitizeInput (ScrapeJobs.keywords req)) ->
     jobsConfigured ->
     noItems (jobItems W) ->
     runStarts 2 (ScrapeJobs.runRequest jobsActor jobsToken (jobsInput req)) ->
     answer (ScrapeJobs.handleJobScraping sanitizeInput ELASTICSEARCH_API_KEY W req)
       = Normal (ErrorResponse "LinkedIn job scraping timed out or no jobs found" 500) /\
     naps (events (ScrapeJobs.handleJobScraping sanitizeInput ELASTICSEARCH_API_KEY W req))
       = repeat 5000%Z 24) /\
  (forall (linkedinUrl : string),
     truthy (sanitizeInput linkedinUrl) = true ->
     profilesConfigured ->
     noItems (profileItems W) ->
     runStarts 1 (ScrapeLinkedin.runRequest profilesActor jobsToken
                    (ScrapeLinkedin.actorInput (sanitizeInput linkedinUrl))) ->
     answer (ScrapeLinkedin.handleLinkedInScraping sanitizeInput W linkedinUrl)
       = Normal (ErrorResponse "LinkedIn scraping timed out or failed" 500) /\
     naps (events (ScrapeLinkedin.handleLinkedInScraping sanitizeInput W linkedinUrl))
       = repeat 5000%Z 20).
Proof.
  intros Hnf. split.
  - intros req [Htruthy Hblank] [Htoken Hactor] Hno (r & d & Hrun & Hok & Hd).
    destruct (initialize_run (R := unit) start) as (c & Hinit & Hc & _).
    destruct (jobs_pollLoop_exhausts ScrapeJobs.maxAttempts jobsActor jobsToken (run_id d)
                (match ScrapeJobs.req_location req with
                 | Some l => l
                 | None => "United States"
                 end)
                (bump (bump (bump start))) Hno Hnf) as (s' & t & Hloop & Hnaps).
    unfold answer, events, ScrapeJobs.handleJobScraping.
    rewrite Htruthy, Hblank. fold jobsToken jobsActor.
    unfold jobsConfigured in *. fold jobsToken jobsActor in Htoken, Hactor.
    rewrite Htoken, Hactor. cbn [negb orb].
    fold (jobsInput req).
    unfold_eff. rewrite Hinit.
    destruct Hc as [-> | [e ->]]; cbn [app calls reads draws bump start].
    all: no_items Hno; cbn [app calls reads draws].
    all: rewrite Hrun, Hok, Hd; cbn [app negb calls reads draws];
         change {| calls := 3; reads := 0; draws := 0 |}
           with (bump (bump (bump start)));
         rewrite Hloop; cbn [app fst snd naps]; (split; [reflexivity|]);
         rewrite ?naps_app; cbn [naps]; rewrite ?app_nil_r; exact Hnaps.
  - intros linkedinUrl Htruthy [Htoken Hactor] Hno (r & d & Hrun & Hok & Hd).
    destruct (profile_pollLoop_exhausts ScrapeLinkedin.maxAttempts profilesActor jobsToken
                (run_id d) (bump (bump start)) Hno Hnf) as (s' & t & Hloop & Hnaps).
    unfold answer, events, ScrapeLinkedin.handleLinkedInScraping.
    rewrite Htruthy. fold jobsToken profilesActor.
    fold jobsToken in Htoken. fold profilesActor in Hactor.
    rewrite Htoken, Hactor. cbn [negb orb].
    unfold_eff. cbn [app calls reads draws start].
    no_items Hno; cbn [app calls reads draws].
    all: rewrite Hrun, Hok, Hd; cbn [app negb calls reads draws];
         change {| calls := 2; reads := 0; draws := 0 |}
           with (bump (bump start));
         rewrite Hloop; cbn [app fst snd naps]; (split; [reflexivity|]);
         rewrite ?naps_app; cbn [naps]; rewrite ?app_nil_r; exact Hnaps.
Qed.


(** C9.  When the mapping call of the index initialisation throws, the
    job-statistics handler answers at once with an error response and has
    made no other call; the scrape-jobs handler catches the failure and
    its next call is the synchronous scrape. *)
Theorem index_init_failure_policy :
  initFails 0 ->
  (forall (req : JobStatistics.JobStatisticsRequest),
     answer (JobStatistics.handleJobStatistics sanitizeInput ELASTICSEARCH_API_KEY W req)
       = Normal (ErrorResponse "Elasticsearch connection failed" 500) /\
     events (JobStatistics.handleJobStatistics sanitizeInput ELASTICSEARCH_API_KEY W req)
       = [Fetch mappingRequest]) /\
  (forall (req : ScrapeJobs.JobScrapingRequest),
     nonBlank (sanitizeInput (ScrapeJobs.keywords req)) ->
     jobsConfigured ->
     exists rest,
       events (ScrapeJobs.handleJobScraping sanitizeInput ELASTICSEARCH_API_KEY W req)
         = Fetch mappingRequest
             :: Fetch (ScrapeJobs.syncRequest jobsActor jobsToken (jobsInput req))
             :: rest).
Proof.
  intros Hfail.
  destruct (initialize_run (R := unit) start) as (c & Hinit & _ & Hthrow).
  destruct (Hthrow Hfail) as [e ->]. clear Hthrow.
  split.
  - intros req. unfold answer, events, JobStatistics.handleJobStatistics.
    unfold_eff. rewrite Hinit. cbn [app fst snd]. split; reflexivity.
  - intros req [Htruthy Hblank] [Htoken Hactor].
    unfold events, ScrapeJobs.handleJobScraping.
    rewrite Htruthy, Hblank. fold jobsToken jobsActor.
    fold jobsToken in Htoken. fold jobsActor in Hactor.
    rewrite Htoken, Hactor. cbn [negb orb].
    fold (jobsInput req).
    unfold_eff. rewrite Hinit. cbn [app calls reads draws bump start].
    repeat (case_run; cbn [app fst snd]).
    all: eexists; reflexivity.
Qed.

End Scrapes.

Section ScrapeExamples.
Import JS Json Types Eff.

Definition running : RunData := {| run_id := "run-1"; run_status := "RUNNING" |}.

(** The index answers, the actor runs and never produces an item. *)
Definition stalledWorld : World :=
  {| gemini := fun _ _ => unavailable;
     search := fun _ _ => unavailable;
     aggregate := fun _ _ => resolved JNull;
     elastic := fun _ _ => resolved JNull;
     jobItems := fun n _ => if Nat.even n then resolved [] else unavailable;
     profileItems := fun n _ => if Nat.even n then unavailable else resolved [];
     runs := fun _ _ => resolved running;
     env := configured;
     clock := fun _ => "2025-01-01T00:00:00.000Z";
     dice := fun _ => [Digit 0; Dot; Digit 5] |}.

Definition rustJobs : ScrapeJobs.JobScrapingRequest :=
  {| ScrapeJobs.keywords := "rust developer";
     ScrapeJobs.req_location := None;
     ScrapeJobs.count := None |}.

Lemma stalledWorld_neverFailed : neverFailed stalledWorld.
Proof. intros n req. simpl. intros _ d [= <-]. reflexivity. Qed.

Lemma stalledWorld_noJobItems : noItems (jobItems stalledWorld).
Proof. intros n req. simpl. destruct (Nat.even n); simpl; auto. Qed.

Lemma stalledWorld_noProfileItems : noItems (profileItems stalledWorld).
Proof. intros n req. simpl. destruct (Nat.even n); simpl; auto. Qed.

Lemma scrape_exhaustion_is_an_error_witness :
  neverFailed stalledWorld /\
  nonBlank (identity (ScrapeJobs.keywords rustJobs)) /\
  jobsConfigured stalledWorld /\
  noItems (jobItems stalledWorld) /\
  answer (ScrapeJobs.handleJobScraping identity "key" stalledWorld rustJobs)
    = Normal (ErrorResponse "LinkedIn job scraping timed out or no jobs found" 500) /\
  answer (ScrapeLinkedin.handleLinkedInScraping identity stalledWorld
            "https://linkedin.com/in/ada")
    = Normal (ErrorResponse "LinkedIn scraping timed out or failed" 500).
Proof.
  destruct (scrape_exhaustion_is_an_error identity "key" stalledWorld
              stalledWorld_neverFailed) as [Hjobs Hprofile].
  assert (Hq : nonBlank (identity (ScrapeJobs.keywords rustJobs))) by (split; reflexivity).
  assert (Hj : jobsConfigured stalledWorld) by (split; reflexivity).
  assert (Hp : profilesConfigured stalledWorld) by (split; reflexivity).
  split; [exact stalledWorld_neverFailed|]. split; [exact Hq|]. split; [exact Hj|].
  split; [exact stalledWorld_noJobItems|].
  split.
  - apply (Hjobs rustJobs Hq Hj stalledWorld_noJobItems).
    eexists _, _. repeat split; reflexivity.
  - apply (Hprofile "https://linkedin.com/in/ada" eq_refl Hp stalledWorld_noProfileItems).
    eexists _, _. repeat split; reflexivity.
Defined.

(** What the specification expects of an exhausted job scrape: a success
    envelope with the three records demo-1, demo-2, demo-3. *)
Definition answersPlaceholders
    (c : completion (NextResponse ScrapeJobs.JobScrapingData)
                    (NextResponse ScrapeJobs.JobScrapingData)) : Prop :=
  exists d,
    c = Normal (SuccessResponse d) /\
    map id (ScrapeJobs.data d) = [Some "demo-1"; Some "demo-2"; Some "demo-3"].

(** C2, as the specification words it, fails: in [stalledWorld] the
    synchronous call and the 24 polls find nothing, and the job scrape
    answers with the timeout error, not with placeholder records. *)
Lemma exhausted_job_scrape_is_not_demo_data :
  noItems (jobItems stalledWorld) /\
  naps (events (ScrapeJobs.handleJobScraping identity "key" stalledWorld rustJobs))
    = repeat 5000%Z 24 /\
  answer (ScrapeJobs.handleJobScraping identity "key" stalledWorld rustJobs)
    = Normal (ErrorResponse "LinkedIn job scraping timed out or no jobs found" 500) /\
  ~ answersPlaceholders
      (answer (ScrapeJobs.handleJobScraping identity "key" stalledWorld rustJobs)).
Proof.
  assert (E : answer (ScrapeJobs.handleJobScraping identity "key" stalledWorld rustJobs)
              = Normal (ErrorResponse
                          "LinkedIn job scraping timed out or no jobs found" 500))
    by (vm_compute; reflexivity).
  split; [exact stalledWorld_noJobItems|].
  split; [vm_compute; reflexivity|].
  split; [exact E|].
  rewrite E. intros (d & Hd & _). discriminate.
Qed.

(** The index is unreachable; the actor answers the synchronous call. *)
Definition rawJob : JobData :=
  {| id := Some "4242"; trackingId := None; refId := None; link := None;
     title := Some "Rust Engineer"; companyName := Some "Initech";
     companyLinkedinUrl := None; companyLogo := None; location := None;
     salaryInfo := None; postedAt := None; benefits := None;
     descriptionHtml := None; descriptionText := Some "Build things.";
     applicantsCount := None; applyUrl := None; salary := None;
     seniorityLevel := None; employmentType := None; jobFunction := None;
     industries := None; inputUrl := None; companyAddress := None;
     companyWebsite := None; companySlogan := None; companyDescription := None;
     companyEmployeesCount := Some 1200%Z; jobPosterName := None;
     jobPosterTitle := None; jobPosterPhoto := None; jobPosterProfileUrl := None;
     scrapedAt := None |}.

Definition noIndexWorld : World :=
  {| gemini := fun _ _ => unavailable;
     search := fun _ _ => unavailable;
     aggregate := fun _ _ => unavailable;
     elastic := fun _ _ => unavailable;
     jobItems := fun _ _ => resolved [rawJob];
     profileItems := fun _ _ => unavailable;
     runs := fun _ _ => unavailable;
     env := configured;
     clock := fun _ => "2025-01-01T00:00:00.000Z";
     dice := fun _ => [Digit 0; Dot; Digit 5] |}.

Lemma index_init_failure_policy_witness :
  initFails "key" noIndexWorld 0 /\
  nonBlank (identity (ScrapeJobs.keywords rustJobs)) /\
  jobsConfigured noIndexWorld /\
  answer (JobStatistics.handleJobStatistics identity "key" noIndexWorld
            {| JobStatistics.keywords := None; JobStatistics.count := None |})
    = Normal (ErrorResponse "Elasticsearch connection failed" 500) /\
  exists rest,
    events (ScrapeJobs.handleJobScraping identity "key" noIndexWorld rustJobs)
    = Fetch (mappingRequest "key")
        :: Fetch (ScrapeJobs.syncRequest (jobsActor noIndexWorld) (jobsToken noIndexWorld)
                    (jobsInput identity rustJobs))
        :: rest.
Proof.
  assert (Hf : initFails "key" noIndexWorld 0) by (left; reflexivity).
  assert (Hq : nonBlank (identity (ScrapeJobs.keywords rustJobs))) by (split; reflexivity).
  assert (Hj : jobsConfigured noIndexWorld) by (split; reflexivity).
  destruct (index_init_failure_policy identity "key" noIndexWorld Hf) as [Hstat Hscrape].
  split; [exact Hf|]. split; [exact Hq|]. split; [exact Hj|].
  split; [exact (proj1 (Hstat _))|].
  exact (Hscrape rustJobs Hq Hj).
Defined.

Example scrape_goes_on_without_index :
  answer (ScrapeJobs.handleJobScraping identity "key" noIndexWorld rustJobs)
  = Normal (SuccessResponse
      {| ScrapeJobs.data :=
           match answer (ScrapeJobs.handleJobScraping identity "key" noIndexWorld rustJobs) with
           | Normal (SuccessResponse d) => ScrapeJobs.data d
           | _ => []
           end;
         ScrapeJobs.totalJobs := 1 |}).
Proof. vm_compute. reflexivity. Qed.

End ScrapeExamples.

(** ** What reaches the index unsanitized *)

Section RawKeywords.
Import JS Json Types Eff.

(** Modelled from the spec: [sanitizeInput] of [lib/security.ts], which is
    not among the sources.  The spec has it return a cleaned string with
    control characters and markup-significant sequences neutralized; this
    one drops the control characters and the angle brackets and trims. *)
Fixpoint dropMarkup (s : string) : string :=
  match s with
  | EmptyString => EmptyString
  | String c s' =>
      if (code c <? 32) || (code c =? 60) || (code c =? 62) then dropMarkup s'
      else String c (dropMarkup s')
  end.

Definition stripMarkup (s : string) : string := trim (dropMarkup s).

(** The index and the actor both answer. *)
Definition oneJobWorld : World :=
  {| gemini := fun _ _ => unavailable;
     search := fun _ _ => unavailable;
     aggregate := fun _ _ => resolved JNull;
     elastic := fun _ _ => resolved JNull;
     jobItems := fun _ _ => resolved [rawJob];
     profileItems := fun _ _ => unavailable;
     runs := fun _ _ => unavailable;
     env := configured;
     clock := fun _ => "2025-01-01T00:00:00.000Z";
     dice := fun _ => [Digit 0; Dot; Digit 5] |}.

Definition taggedJobs : ScrapeJobs.JobScrapingRequest :=
  {| ScrapeJobs.keywords := "<B>Rust</B>";
     ScrapeJobs.req_location := None;
     ScrapeJobs.count := None |}.

(** The jobs the scrape-jobs handler answers with. *)
Definition scrapedJobs : list JobData :=
  match answer (ScrapeJobs.handleJobScraping stripMarkup "key" oneJobWorld taggedJobs) with
  | Normal (SuccessResponse d) => ScrapeJobs.data d
  | _ => []
  end.

(** The documents of a bulk body. *)
Definition keywordsOf (jobs : list ElasticsearchJobData) : list (option (list string)) :=
  map es_keywords jobs.

(** For every sanitizer and every job, the document built by either
    ingestion route carries the lower-cased keywords of the request as
    they came. *)
Lemma document_keywords_are_raw (keywords : string) (job : JobData) :
  es_keywords (ScrapeJobs.elasticsearchJob keywords job) = Some [toLowerCase keywords] /\
  forall (W : World) (s : state),
    exists doc s',
      JobStatistics.elasticsearchJob (R := unit) W keywords job s = (Normal doc, s', []) /\
      es_keywords doc = Some [toLowerCase keywords].
Proof.
  split; [reflexivity|]. intros W s. eexists _, _. split; reflexivity.
Qed.

(** C3 at a request with markup in its keywords: the sanitizer cleans
    them for the search URL, and the third outbound call of the
    scrape-jobs handler writes them, markup included, into the index
    document. *)
Theorem raw_keywords_reach_the_index :
  stripMarkup (ScrapeJobs.keywords taggedJobs) = "BRust/B" /\
  length scrapedJobs = 1 /\
  nth_error
    (fetches (events (ScrapeJobs.handleJobScraping stripMarkup "key" oneJobWorld taggedJobs)))
    2
  = Some (bulkRequest "key"
            (concat (bulkPairs oneJobWorld 0
               (map (ScrapeJobs.elasticsearchJob (ScrapeJobs.keywords taggedJobs))
                  scrapedJobs)))) /\
  keywordsOf (map (ScrapeJobs.elasticsearchJob (ScrapeJobs.keywords taggedJobs)) scrapedJobs)
  = [Some ["<b>rust</b>"]] /\
  toLowerCase (stripMarkup (ScrapeJobs.keywords taggedJobs)) <> "<b>rust</b>".
Proof.
  split; [vm_compute; reflexivity|].
  split; [vm_compute; reflexivity|].
  split; [vm_compute; reflexivity|].
  split; [vm_compute; reflexivity|].
  vm_compute. discriminate.
Qed.

End RawKeywords.

Section ComposeExamples.
Import JS Json Types Eff SearchJobs.

Definition said (who : Role) (what : string) : ChatTurn :=
  {| role := who; content := what; timestamp := "2025-01-01T00:00:00.000Z" |}.

Fixpoint padding (n : nat) : string :=
  match n with
  | 0 => EmptyString
  | S n' => String "x" (padding n')
  end.

(** Eight turns, the seventh 250 characters long. *)
Definition longChat : list ChatTurn :=
  [said user "first"; said assistant "second"; said user "third";
   said assistant "fourth"; said user "fifth"; said assistant "sixth";
   said user (padding 250); said assistant "eighth"].

(** A job whose description is [n] characters long. *)
Definition described (n : nat) : FoundJob :=
  {| job := {| es_id := Some "7"; es_title := Some "Engineer";
               es_company := Some "Initech"; es_location := None;
               es_description := Some (padding n); es_salary := None;
               es_jobType := None; es_experienceLevel := None;
               es_postedDate := None; es_url := None; es_companySize := None;
               es_industry := None; es_requirements := None; es_benefits := None;
               es_scrapedAt := None; es_keywords := None; es_vector := None |};
     job_id := "doc-7"; job_score := None |}.

(** Nine jobs, the second with a description of 400 characters. *)
Definition nineJobs : list FoundJob :=
  [described 10; described 400; described 150; described 151; described 0;
   described 20; described 30; described 40; described 50].

Lemma compose_prompt_windows_witness :
  length (skipn 2 longChat) = 6 /\
  length (turnLines longChat) = 6 /\
  length (jobSnippets nineJobs) = 8 /\
  (exists shown,
     nth_error (jobSnippets nineJobs) 1
       = Some (lines [""; 
                 "2. Engineer at Initech";
                 "   Location: N/A";
                 "   Type: N/A";
                 "   Experience: N/A";
                 "   Salary: Not specified";
                 "   Description: " ++ shown ++ "...";
                 ""]) /\
     String.length shown = 150 /\
     exists cut, padding 400 = shown ++ cut) /\
  composePrompt identity "What next?" None nineJobs
    (firstn 2 longChat ++ skipn 2 longChat)%list
  = composePrompt identity "What next?" None nineJobs (skipn 2 longChat).
Proof.
  destruct (compose_prompt_windows identity "What next?" None nineJobs longChat)
    as ((older & recent & _ & Hrecent & Hturns & _) & Hold & Hjobs & Hjob & _).
  split; [reflexivity|].
  split; [rewrite Hturns, Hrecent; reflexivity|].
  split; [exact Hjobs|].
  split; [|apply Hold; reflexivity].
  destruct (Hjob 1 (described 400) ltac:(lia) eq_refl) as (shown & Hline & Hlen & Hcut).
  exists shown. split; [exact Hline|]. split; [exact Hlen | exact Hcut].
Defined.

Example long_turn_is_cut :
  map (fun line => String.length line) (turnLines longChat) = [11; 17; 11; 16; 209; 17].
Proof. vm_compute. reflexivity. Qed.

(** The eight snippets: 118 characters around the description, which is
    cut at 150. *)
Example long_description_is_cut :
  map (fun snippet => String.length snippet - 118) (jobSnippets nineJobs)
  = [10; 150; 150; 150; 0; 20; 30; 40].
Proof. vm_compute. reflexivity. Qed.

End ComposeExamples.

(* ===================================================================== *)
(** * Further properties of the routes *)
(* ===================================================================== *)

(** ** [POST /api/search-jobs]: what the handler answers *)

Section SearchAnswers.
Import JS Json Types Eff SearchJobs.

Variable sanitizeInput : string -> string.
Variable W : World.

(** [callGeminiAPI] makes at most one outbound call, and a completion
    that is not a throw carries the candidate text or the apology. *)
Lemma callGeminiAPI_cases prompt s :
  exists c s' sent,
    callGeminiAPI W prompt s = (c, s', CallGemini prompt :: sent) /\
    (sent = [] \/ sent = [Fetch (geminiRequest W prompt)]) /\
    returned c /\
    (geminiConfigured W -> sent = [Fetch (geminiRequest W prompt)]) /\
    (~ geminiConfigured W ->
       sent = [] /\ c = Throw (Error "Gemini API configuration missing")).
Proof.
  unfold callGeminiAPI, geminiConfigured. unfold_eff. fold (geminiRequest W prompt).
  destruct (truthy (orStr (env W "GEMINI_API_KEY") "")),
           (truthy (orStr (env W "GEMINI_API_URL") "")); cbn [negb orb app].
  2-4: eexists _, _, _; split; [reflexivity|]; split; [auto|]; split; [exact I|];
       split; [intros [? ?]; discriminate | auto].
  repeat (case_run; cbn [app]).
  all: eexists _, _, _; split; [reflexivity|]; split; [auto|]; split; [exact I|].
  all: split; [reflexivity | intros H; exfalso; apply H; split; reflexivity].
Qed.

(** A query that the guard of the handler refuses. *)
Definition blank (s : string) : Prop :=
  truthy s = false \/ (String.length (trim s) =? 0) = true.

(** X1.  The POST handler never throws.  It refuses a blank query with
    400 and, for a query that is not blank, answers with 500 exactly when
    the body carries [null] for the chat history: reading its length
    throws before the first step, so nothing has been sent.  On every
    other body it runs as on the request of the interface, with no
    history for an absent one, and answers with a success envelope whose
    hit count is the number of jobs it carries and whose answer text is
    present. *)
Theorem job_search_always_answers :
  forall (body : ValidatedData),
    let question := sanitizeInput (v_query body) in
    let c := answer (handleJobSearchAny sanitizeInput W body) in
    let t := events (handleJobSearchAny sanitizeInput W body) in
    (blank question /\
     c = Normal (ErrorResponse "Search query is required" 400) /\ t = []) \/
    (nonBlank question /\ v_chatHistory body = NullHistory /\
     c = Normal (ErrorResponse "Internal server error during job search" 500) /\
     t = []) \/
    (nonBlank question /\
     exists (history : option (list ChatTurn)) found ai,
       v_chatHistory body
         = match history with Some turns => Turns turns | None => NoHistory end /\
       c = Normal (SuccessResponse
                     {| jobs := found; aiResponse := Some ai;
                        totalHits := length found |}) /\
       forall useVectorSearch,
         let req := {| query := v_query body; userProfile := v_userProfile body;
                       useVectorSearch := useVectorSearch;
                       chatHistory := history |} in
         c = answer (handleJobSearch sanitizeInput W req) /\
         t = events (handleJobSearch sanitizeInput W req)).
Proof.
  intros body question c t. subst c t.
  unfold answer, events, handleJobSearchAny, handleJobSearch, historyLength.
  cbn [query userProfile chatHistory]. fold question.
  destruct (truthy question) eqn:Ht; cbn [negb orb].
  2: { left. split; [left; exact Ht|]. split; reflexivity. }
  destruct (String.length (trim question) =? 0) eqn:Hl.
  { left. split; [right; exact Hl|]. split; reflexivity. }
  right.
  assert (Hq : nonBlank question) by (split; assumption).
  destruct (v_chatHistory body) as [| |turns] eqn:Hh.
  - right. split; [exact Hq|]. exists None.
    cbn [orArr]. unfold pipeline. unfold_eff.
    repeat (case_run; cbn [fst snd app]).
    all: eexists _, _; split; [reflexivity|]; split; [reflexivity|].
    all: intros useVectorSearch; split; reflexivity.
  - left. split; [exact Hq|]. split; [reflexivity|]. split; reflexivity.
  - right. split; [exact Hq|]. exists (Some turns).
    cbn [orArr]. unfold pipeline. unfold_eff.
    repeat (case_run; cbn [fst snd app]).
    all: eexists _, _; split; [reflexivity|]; split; [reflexivity|].
    all: intros useVectorSearch; split; reflexivity.
Qed.

(** X2.  A query that is empty or blank once sanitized is refused with
    status 400 before any step of the pipeline: nothing is sent to the LLM
    or to the search service. *)
Theorem blank_query_is_refused :
  forall (req : JobSearchRequest),
    blank (sanitizeInput (query req)) ->
    answer (handleJobSearch sanitizeInput W req)
      = Normal (ErrorResponse "Search query is required" 400) /\
    events (handleJobSearch sanitizeInput W req) = [].
Proof.
  intros req Hblank. unfold answer, events, handleJobSearch.
  assert (E : negb (truthy (sanitizeInput (query req)))
              || (String.length (trim (sanitizeInput (query req))) =? 0) = true).
  { destruct Hblank as [-> | ->]; [reflexivity | apply orb_true_r]. }
  rewrite E. split; reflexivity.
Qed.

(** X3.  When the first call of the LLM adapter throws (credentials
    missing, service unreachable, error status, unreadable body), the
    handler answers with the fixed apology and no jobs, and neither
    Query-Generate, Retrieve nor Compose is entered.  Without credentials
    no outbound call is made at all. *)
Theorem decide_failure_is_an_apology :
  forall (req : JobSearchRequest) (e : exn) (s' : state) (sent : list event),
    let question := sanitizeInput (query req) in
    let profile := userProfile req in
    nonBlank question ->
    callGeminiAPI W (decidePrompt sanitizeInput question profile) start
      = (Throw e, s', sent) ->
    answer (handleJobSearch sanitizeInput W req)
      = Normal (SuccessResponse
                  {| jobs := []; aiResponse := Some fallbackAnswer; totalHits := 0 |}) /\
    events (handleJobSearch sanitizeInput W req) = CallDecide question :: sent /\
    (sent = [CallGemini (decidePrompt sanitizeInput question profile)] \/
     sent = [CallGemini (decidePrompt sanitizeInput question profile);
             Fetch (geminiRequest W (decidePrompt sanitizeInput question profile))]) /\
    (~ geminiConfigured W -> fetches (events (handleJobSearch sanitizeInput W req)) = []).
Proof.
  intros req e s' sent question profile [Htruthy Hblank] Hthrow.
  destruct (callGeminiAPI_cases (decidePrompt sanitizeInput question profile) start)
    as (c & s1 & sent1 & Hrun & Hsent & _ & _ & Hnone).
  rewrite Hrun in Hthrow. injection Hthrow as -> -> <-.
  unfold answer, events, handleJobSearch, pipeline, shouldSearchElasticsearch.
  fold question profile. rewrite Htruthy, Hblank. cbn [negb orb].
  unfold_eff. rewrite Hrun. cbn [app fst snd].
  split; [reflexivity|]. split; [cbn [app]; rewrite ?app_nil_r; reflexivity|]. split.
  - destruct Hsent as [-> | ->]; auto.
  - intros Hno. destruct (Hnone Hno) as [-> _]. reflexivity.
Qed.


(** The search service answers the [n]-th call, a text search of [query],
    with [hits] (the array [response.hits.hits], [None] when absent). *)
Definition searchAnswers (n : nat) (query : string) (hits : option (list Hit)) : Prop :=
  exists resp,
    search W n (routeSearchRequest W query) = Resolved resp /\
    ok resp = true /\ json_body resp = Some hits.

Lemma textSearchJobs_answers query hits s :
  esConfigured W -> searchAnswers (calls s) query hits ->
  textSearchJobs W query s
    = (Return (hitsOrEmpty hits), bump s,
       [CallTextSearch query; Fetch (routeSearchRequest W query)]).
Proof.
  intros [Hurl Hkey] (resp & Hs & Hok & Hj).
  unfold textSearchJobs, SearchJobs.elasticsearchRequest.
  rewrite Hurl, Hkey. cbn [negb orb].
  unfold_eff. fold (routeSearchRequest W query). rewrite Hs. cbv beta iota zeta.
  rewrite Hok. cbn [negb]. rewrite Hj. reflexivity.
Qed.

(** X4.  When the search has found jobs and the LLM call of Compose then
    throws, the handler still answers with a success envelope: it carries
    the jobs found, their count, and the fixed apology as the answer. *)
Theorem compose_failure_keeps_the_jobs :
  forall (req : JobSearchRequest) (r t : string) (hits : option (list Hit))
         (e : exn) (s' : state) (sent : list event),
    let question := sanitizeInput (query req) in
    let profile := userProfile req in
    let history := orArr (chatHistory req) [] in
    nonBlank question ->
    geminiConfigured W ->
    esConfigured W ->
    llmAnswers W 0 (decidePrompt sanitizeInput question profile) r ->
    equalsIgnoreCase (trim r) "YES" = true ->
    llmAnswers W 1 (queryPrompt sanitizeInput question profile) t ->
    searchAnswers 2 (trim t) hits ->
    callGeminiAPI W (composePrompt sanitizeInput question profile (hitsOrEmpty hits) history)
      (bump (bump (bump start))) = (Throw e, s', sent) ->
    answer (handleJobSearch sanitizeInput W req)
      = Normal (SuccessResponse
                  {| jobs := hitsOrEmpty hits;
                     aiResponse := Some fallbackAnswer;
                     totalHits := length (hitsOrEmpty hits) |}) /\
    length (hitsOrEmpty hits) = length (orArr hits []).
Proof.
  intros req r t hits e s' sent question profile history [Htruthy Hblank]
    Hconf Hes Hdecide Hyes Hquery Hsearch Hcompose.
  destruct (shouldSearch_run sanitizeInput W question profile start Hconf)
    as (c & Hrun & Hans & _).
  specialize (Hans r Hdecide). subst c. rewrite upper_YES, Hyes in Hrun.
  destruct (generateSearchQuery_run sanitizeInput W question profile
              (bump start) Hconf) as (c & Hq & Hqans & _).
  specialize (Hqans t Hquery). subst c.
  pose proof (textSearchJobs_answers (trim t) hits (bump (bump start)) Hes Hsearch) as Hs.
  split.
  - unfold answer, handleJobSearch, pipeline, generateFinalResponse.
    fold question profile history. rewrite Htruthy, Hblank. cbn [negb orb].
    unfold_eff. rewrite Hrun, Hq, Hs, Hcompose. reflexivity.
  - destruct hits; [apply length_map | reflexivity].
Qed.

(** [searchResults.slice(0, limit)] is a prefix of the results. *)
Lemma sliceLimit_prefix {A} (limit : option Z) (l : list A) :
  exists dropped, l = (sliceLimit limit l ++ dropped)%list.
Proof.
  destruct limit as [z|]; simpl; [|exists l; reflexivity].
  destruct (z <? 0)%Z; eexists; symmetry; apply firstn_skipn.
Qed.

(** X5.  The simple search of the GET handler answers with a prefix of
    the jobs found and reports the number found, not the number
    returned.  A limit [z >= 0] keeps the first [z] jobs, a negative one
    drops that many from the end, and a limit that does not parse to a
    number keeps none. *)
Theorem simple_search_limits :
  forall (request : GetRequest) (hits : option (list Hit)),
    let found := hitsOrEmpty hits in
    esConfigured W ->
    searchAnswers 0 (sanitizeInput (orStr (q request) "")) hits ->
    exists kept,
      answer (handleGetJobSearch sanitizeInput W request)
        = Normal (SuccessResponse
                    {| jobs := kept; aiResponse := None; totalHits := length found |}) /\
      (exists dropped, found = (kept ++ dropped)%list) /\
      match limit request with
      | None => kept = []
      | Some z =>
          if (z <? 0)%Z then length kept = length found - Z.to_nat (- z)
          else kept = firstn (Z.to_nat z) found /\
               length kept = Nat.min (Z.to_nat z) (length found)
      end.
Proof.
  intros request hits found Hes Hsearch.
  pose proof (textSearchJobs_answers _ hits start Hes Hsearch) as Hs.
  exists (sliceLimit (limit request) found). split; [|split].
  - unfold answer, handleGetJobSearch. unfold_eff. rewrite Hs. reflexivity.
  - apply sliceLimit_prefix.
  - unfold sliceLimit. destruct (limit request) as [z|]; [|reflexivity].
    destruct (Z.ltb_spec z 0).
    + rewrite length_firstn. lia.
    + split; [reflexivity | apply length_firstn].
Qed.

(** X6.  An answer of the search service that has no hits array is an
    empty result for the two searches of the route and a [TypeError] for
    the search of the library. *)
Theorem missing_hits_array :
  forall (key query : string) (filters : option json) (numCandidates : option Z)
         (s : state) (resp : response (option (list Hit))),
    ok resp = true -> json_body resp = Some None ->
    (esConfigured W ->
     search W (calls s) (routeSearchRequest W query) = Resolved resp ->
     fst (fst (textSearchJobs W query s)) = Return []) /\
    (esConfigured W ->
     (forall req, search W (calls s) req = Resolved resp) ->
     fst (fst (vectorSearchJobs W query numCandidates s)) = Return []) /\
    (search W (calls s) (libSearchRequest key query filters) = Resolved resp ->
     exists message,
       fst (fst (EsLib.searchJobsFromElasticsearch key W query filters s))
         = Throw (TypeError message)).
Proof.
  intros key query filters numCandidates s resp Hok Hj. split; [|split].
  - intros Hes Hs.
    rewrite (textSearchJobs_answers query None s Hes); [reflexivity|].
    exists resp. auto.
  - intros [Hurl Hkey] Hs.
    unfold vectorSearchJobs, SearchJobs.elasticsearchRequest.
    rewrite Hurl, Hkey. cbn [negb orb]. unfold_eff.
    rewrite Hs. cbv beta iota zeta. rewrite Hok. cbn [negb]. rewrite Hj. reflexivity.
  - intros Hs.
    unfold EsLib.searchJobsFromElasticsearch, EsLib.elasticsearchRequest.
    unfold_eff. fold (libSearchRequest key query filters).
    rewrite Hs. cbv beta iota zeta. rewrite Hok. cbn [negb]. rewrite Hj. eexists; reflexivity.
Qed.

End SearchAnswers.

Section SearchAnswersExamples.
Import JS Json Types Eff SearchJobs.

Definition blankAsk : JobSearchRequest :=
  {| query := "   "; userProfile := None; useVectorSearch := None; chatHistory := None |}.

(** A body whose chat history is [null]: the LLM would answer, and is
    not asked. *)
Example null_history_is_a_500 :
  let body := {| v_query := "What next?"; v_userProfile := None;
                 v_chatHistory := NullHistory |} in
  answer (handleJobSearchAny identity chattyWorld body)
    = Normal (ErrorResponse "Internal server error during job search" 500) /\
  events (handleJobSearchAny identity chattyWorld body) = [].
Proof. split; reflexivity. Qed.

Lemma blank_query_is_refused_witness :
  blank (identity (query blankAsk)) /\
  answer (handleJobSearch identity chattyWorld blankAsk)
    = Normal (ErrorResponse "Search query is required" 400) /\
  events (handleJobSearch identity chattyWorld blankAsk) = [].
Proof.
  assert (H : blank (identity (query blankAsk))) by (right; reflexivity).
  split; [exact H|].
  exact (blank_query_is_refused identity chattyWorld blankAsk H).
Defined.

(** The LLM service is down; the index has one match. *)
Definition muteWorld : World :=
  {| gemini := fun _ _ => unavailable;
     search := fun _ _ => resolved (Some [oneHit]);
     aggregate := fun _ _ => unavailable;
     elastic := fun _ _ => unavailable;
     jobItems := fun _ _ => unavailable;
     profileItems := fun _ _ => unavailable;
     runs := fun _ _ => unavailable;
     env := configured;
     clock := fun _ => "2025-01-01T00:00:00.000Z";
     dice := fun _ => [Digit 0; Dot; Digit 5] |}.

Lemma decide_failure_is_an_apology_witness :
  nonBlank (identity (query ask)) /\
  answer (handleJobSearch identity muteWorld ask)
    = Normal (SuccessResponse
                {| jobs := []; aiResponse := Some fallbackAnswer; totalHits := 0 |}).
Proof.
  split; [exact ask_nonBlank|].
  refine (proj1 (decide_failure_is_an_apology identity muteWorld ask
                   (Error "Gemini API request failed: 503 - Service Unavailable")
                   (bump start)
                   [CallGemini (decidePrompt identity (identity (query ask)) (userProfile ask));
                    Fetch (geminiRequest muteWorld
                             (decidePrompt identity (identity (query ask)) (userProfile ask)))]
                   ask_nonBlank _)).
  reflexivity.
Defined.

(** The LLM answers Decide and Query-Generate and is then out of reach;
    the index has one match. *)
Definition fadingWorld : World :=
  {| gemini := fun n _ => if n <? 2 then llmScript n else unavailable;
     search := fun _ _ => resolved (Some [oneHit]);
     aggregate := fun _ _ => unavailable;
     elastic := fun _ _ => unavailable;
     jobItems := fun _ _ => unavailable;
     profileItems := fun _ _ => unavailable;
     runs := fun _ _ => unavailable;
     env := configured;
     clock := fun _ => "2025-01-01T00:00:00.000Z";
     dice := fun _ => [Digit 0; Dot; Digit 5] |}.

Lemma compose_failure_keeps_the_jobs_witness :
  nonBlank (identity (query ask)) /\
  geminiConfigured fadingWorld /\ esConfigured fadingWorld /\
  answer (handleJobSearch identity fadingWorld ask)
    = Normal (SuccessResponse
                {| jobs := hitsOrEmpty (Some [oneHit]);
                   aiResponse := Some fallbackAnswer;
                   totalHits := length (hitsOrEmpty (Some [oneHit])) |}).
Proof.
  assert (H2 : geminiConfigured fadingWorld) by (split; reflexivity).
  assert (H3 : esConfigured fadingWorld) by (split; reflexivity).
  split; [exact ask_nonBlank|]. split; [exact H2|]. split; [exact H3|].
  refine (proj1 (compose_failure_keeps_the_jobs identity fadingWorld ask yesReply
                   " data scientist skills " (Some [oneHit])
                   (Error "Gemini API request failed: 503 - Service Unavailable")
                   (bump (bump (bump (bump start)))) _
                   ask_nonBlank H2 H3 _ eq_refl _ _ _)).
  - eexists _, _. repeat split; reflexivity.
  - eexists _, _. repeat split; reflexivity.
  - eexists. repeat split; reflexivity.
  - reflexivity.
Defined.

Definition rustSearch : GetRequest := {| q := Some "rust"; limit := Some 20%Z |}.

Lemma simple_search_limits_witness :
  esConfigured chattyWorld /\
  searchAnswers chattyWorld 0 (identity (orStr (q rustSearch) "")) (Some [oneHit]) /\
  exists kept,
    answer (handleGetJobSearch identity chattyWorld rustSearch)
    = Normal (SuccessResponse {| jobs := kept; aiResponse := None; totalHits := 1 |}).
Proof.
  assert (H1 : esConfigured chattyWorld) by (split; reflexivity).
  assert (H2 : searchAnswers chattyWorld 0 (identity (orStr (q rustSearch) ""))
                 (Some [oneHit])).
  { eexists. repeat split; reflexivity. }
  split; [exact H1|]. split; [exact H2|].
  destruct (simple_search_limits identity chattyWorld rustSearch (Some [oneHit]) H1 H2)
    as (kept & Hans & _).
  exists kept. exact Hans.
Defined.

(** The search service answers with a document that has no hits. *)
Definition hollowWorld : World :=
  {| gemini := fun n _ => llmScript n;
     search := fun _ _ => resolved None;
     aggregate := fun _ _ => unavailable;
     elastic := fun _ _ => unavailable;
     jobItems := fun _ _ => unavailable;
     profileItems := fun _ _ => unavailable;
     runs := fun _ _ => unavailable;
     env := configured;
     clock := fun _ => "2025-01-01T00:00:00.000Z";
     dice := fun _ => [Digit 0; Dot; Digit 5] |}.

Lemma missing_hits_array_witness :
  esConfigured hollowWorld /\
  fst (fst (textSearchJobs hollowWorld "rust" start)) = Return [] /\
  fst (fst (vectorSearchJobs hollowWorld "rust" None start)) = Return [] /\
  exists message,
    fst (fst (EsLib.searchJobsFromElasticsearch "key" hollowWorld "rust" None start))
      = Throw (TypeError message).
Proof.
  assert (H1 : esConfigured hollowWorld) by (split; reflexivity).
  destruct (missing_hits_array hollowWorld "key" "rust" None None start
              {| ok := true; status := 200; text := ""; json_body := Some None |}
              eq_refl eq_refl) as (Ht & Hv & Hl).
  split; [exact H1|].
  split; [exact (Ht H1 eq_refl)|].
  split; [exact (Hv H1 (fun _ => eq_refl))|].
  exact (Hl eq_refl).
Defined.

End SearchAnswersExamples.

(** ** What the scrapes answer, and at what cost *)

Section ScrapeOutcomes.
Import JS Json Types Eff.

Variable sanitizeInput : string -> string.
Variable ELASTICSEARCH_API_KEY : string.
Variable W : World.

(** Some call to the actor's run endpoints was answered with an error
    status. *)
Definition runRefused : Prop :=
  exists n req r, runs W n req = Resolved r /\ ok r = false.

(** Some status check reported the run as FAILED. *)
Definition runReportedFailed : Prop :=
  exists n req r d,
    runs W n req = Resolved r /\ ok r = true /\ json_body r = Some d /\
    run_status d = "FAILED".

(** Some call to the run endpoints was rejected, or answered OK with a
    body that is not a run. *)
Definition runCallBroke : Prop :=
  exists n req,
    match runs W n req with
    | Rejected _ => True
    | Resolved r => ok r = true /\ json_body r = None
    end.

(** The outbound calls of a trace are those of its parts. *)
Lemma fetches_app a b : fetches (a ++ b) = (fetches a ++ fetches b)%list.
Proof.
  induction a as [|ev a IH]; [reflexivity|].
  destruct ev; simpl; rewrite ?IH; reflexivity.
Qed.

(** One turn of the profile loop: one sleep of 5 seconds, at most two
    calls, and no exception. *)
Lemma profile_pollOnce_run actor token runId s :
  exists c s' t,
    ScrapeLinkedin.pollOnce W actor token runId s = (c, s', t) /\
    naps t = [5000%Z] /\
    length (fetches t) <= 2 /\
    match c with
    | Normal (ScrapeLinkedin.Break payload) => scraped W payload
    | Normal ScrapeLinkedin.Continue => True
    | Return r => r = ErrorResponse "LinkedIn scraping failed" 500 /\ runReportedFailed
    | Throw _ => False
    end.
Proof.
  unfold ScrapeLinkedin.pollOnce. unfold_eff.
  repeat (case_run; cbn [app negb]).
  all: eexists _, _, _; (split; [reflexivity|]).
  all: cbn [naps fetches length app]; (split; [reflexivity|]); (split; [lia|]).
  all: try exact I.
  all: try (split; [reflexivity|]; eexists _, _, _, _; repeat split;
            try eassumption; apply String.eqb_eq; assumption).
  all: eexists _, _, _, _; split; eassumption.
Qed.

(** The profile loop with [left] turns to go: at most [left] sleeps of 5
    seconds, at most two calls a turn, and no exception. *)
Lemma profile_pollLoop_run left actor token runId s :
  exists c s' t,
    ScrapeLinkedin.pollLoop W left actor token runId s = (c, s', t) /\
    (exists k, k <= left /\ naps t = repeat 5000%Z k) /\
    length (fetches t) <= 2 * left /\
    match c with
    | Normal (Some payload) => scraped W payload
    | Normal None => True
    | Return r => r = ErrorResponse "LinkedIn scraping failed" 500 /\ runReportedFailed
    | Throw _ => False
    end.
Proof.
  revert s; induction left as [|left IH]; intros s.
  - eexists _, _, _; split; [reflexivity|].
    split; [exists 0; split; [lia|reflexivity]|]. split; [simpl; lia|exact I].
  - cbn [ScrapeLinkedin.pollLoop]. unfold bind.
    destruct (profile_pollOnce_run actor token runId s) as (c1 & s1 & t1 & -> & Hn1 & Hf1 & Hc1).
    destruct c1 as [[payload|]|e|r].
    + unfold ret. eexists _, _, _; split; [reflexivity|].
      rewrite app_nil_r.
      split; [exists 1; split; [lia|exact Hn1]|]. split; [lia|exact Hc1].
    + destruct (IH s1) as (c2 & s2 & t2 & -> & (k & Hk & Hn2) & Hf2 & Hc2).
      eexists _, _, _; split; [reflexivity|].
      split; [exists (S k); split; [lia|rewrite naps_app, Hn1, Hn2; reflexivity]|].
      split; [rewrite fetches_app, length_app; lia|exact Hc2].
    + contradiction.
    + eexists _, _, _; split; [reflexivity|].
      split; [exists 1; split; [lia|exact Hn1]|]. split; [lia|exact Hc1].
Qed.

(** X7.  The profile scrape always answers with an envelope, and every answer
    has its cause: the status is 400 only for a missing URL; the start of
    the run was refused, the run reported FAILED, a call to the run
    endpoints broke, or the polls ran out; a record carries the sanitized
    URL of the request. *)
Theorem profile_scrape_always_answers (linkedinUrl : string) :
  exists r,
    answer (ScrapeLinkedin.handleLinkedInScraping sanitizeInput W linkedinUrl) = Normal r /\
    ((r = ErrorResponse "LinkedIn URL is required" 400 /\
      truthy (sanitizeInput linkedinUrl) = false) \/
     (r = ErrorResponse "Service configuration error" 500 /\ ~ profilesConfigured W) \/
     (r = ErrorResponse "Failed to start LinkedIn scraping" 500 /\ runRefused) \/
     (r = ErrorResponse "LinkedIn scraping failed" 500 /\ runReportedFailed) \/
     r = ErrorResponse "LinkedIn scraping timed out or failed" 500 \/
     (r = ErrorResponse "Internal server error during LinkedIn scraping" 500 /\
      runCallBroke) \/
     (exists record payload,
        r = SuccessResponse record /\ scraped W payload /\
        Types.linkedinUrl record = Some (sanitizeInput linkedinUrl) /\
        fullName record = Some (orStr (fullName payload) ""))).
Proof.
  unfold answer, ScrapeLinkedin.handleLinkedInScraping,
    ScrapeLinkedin.processedDataSync, ScrapeLinkedin.processedDataAsync.
  remember ScrapeLinkedin.maxAttempts as attempts eqn:Hatt.
  unfold_eff.
  repeat (case_run; cbn [app negb fst snd]).
  all: try match goal with
           | Hp : ScrapeLinkedin.pollLoop W ?n ?a ?t ?r ?s = _ |- _ =>
               destruct (profile_pollLoop_run n a t r s)
                 as (? & ? & ? & Hrun & _ & _ & Hc);
               rewrite Hp in Hrun; injection Hrun as <- <- <-
           end.
  all: try contradiction.
  all: eexists; (split; [reflexivity|]).
  all: first
    [ solve [left; split; [reflexivity | apply negb_true_iff; assumption]]
    | solve [right; left; split; [reflexivity|];
             intros [H1 H2]; rewrite H1, H2 in *; discriminate]
    | solve [right; right; left; split; [reflexivity|];
             eexists _, _, _; split; [eassumption | apply negb_true_iff; assumption]]
    | solve [right; right; right; left; exact Hc]
    | solve [right; right; right; right; left; reflexivity]
    | solve [right; right; right; right; right; left; split; [reflexivity|];
             match goal with
             | H : runs W ?n ?req = Rejected _ |- _ =>
                 exists n, req; rewrite H; exact I
             | H : runs W ?n ?req = Resolved ?r, H2 : json_body ?r = None |- _ =>
                 exists n, req; rewrite H; split;
                 [apply negb_false_iff; assumption | exact H2]
             end]
    | solve [right; right; right; right; right; right;
             eexists _, _; split; [reflexivity|];
             split; [first [exact Hc | eexists _, _, _, _; split; eassumption]|];
             split; reflexivity]
    | idtac ].
Qed.

(** X8.  Whatever the services do, the profile scrape sleeps at most 20 times,
    5 seconds each, and makes at most 42 outbound calls: the synchronous
    attempt, the start of the run, and two calls a poll. *)
Theorem profile_scrape_is_bounded (linkedinUrl : string) :
  (exists k, k <= 20 /\
     naps (events (ScrapeLinkedin.handleLinkedInScraping sanitizeInput W linkedinUrl))
       = repeat 5000%Z k) /\
  length (fetches (events (ScrapeLinkedin.handleLinkedInScraping sanitizeInput W linkedinUrl)))
    <= 42.
Proof.
  unfold events, ScrapeLinkedin.handleLinkedInScraping,
    ScrapeLinkedin.processedDataSync, ScrapeLinkedin.processedDataAsync.
  remember ScrapeLinkedin.maxAttempts as attempts eqn:Hatt.
  unfold_eff.
  repeat (case_run; cbn [app negb fst snd]).
  all: try match goal with
           | Hp : ScrapeLinkedin.pollLoop W ?n ?a ?t ?r ?s = _ |- _ =>
               destruct (profile_pollLoop_run n a t r s)
                 as (? & ? & ? & Hrun & (k & Hk & Hnaps) & Hcalls & _);
               rewrite Hp in Hrun; injection Hrun as <- <- <-
           end.
  all: rewrite ?naps_app, ?fetches_app, ?length_app; cbn [naps fetches length app];
       rewrite ?app_nil_r.
  all: try (split; [exists 0; split; [lia|reflexivity] | lia]).
  all: subst attempts; unfold ScrapeLinkedin.maxAttempts in *.
  all: split; [exists k; split; [lia|exact Hnaps] | cbn [length]; lia].
Qed.

(** X9.  The handler makes an outbound call exactly when it has a URL and its
    credentials: without them it answers 400 or 500 and nothing leaves
    the process; with them the first call is the synchronous scrape of
    the sanitized URL. *)
Theorem profile_scrape_guards (linkedinUrl : string) :
  (truthy (sanitizeInput linkedinUrl) = false ->
     answer (ScrapeLinkedin.handleLinkedInScraping sanitizeInput W linkedinUrl)
       = Normal (ErrorResponse "LinkedIn URL is required" 400) /\
     events (ScrapeLinkedin.handleLinkedInScraping sanitizeInput W linkedinUrl) = []) /\
  (truthy (sanitizeInput linkedinUrl) = true -> ~ profilesConfigured W ->
     answer (ScrapeLinkedin.handleLinkedInScraping sanitizeInput W linkedinUrl)
       = Normal (ErrorResponse "Service configuration error" 500) /\
     events (ScrapeLinkedin.handleLinkedInScraping sanitizeInput W linkedinUrl) = []) /\
  (truthy (sanitizeInput linkedinUrl) = true -> profilesConfigured W ->
     exists rest,
       events (ScrapeLinkedin.handleLinkedInScraping sanitizeInput W linkedinUrl)
         = Fetch (ScrapeLinkedin.syncRequest (jobsToken W)
                    (ScrapeLinkedin.actorInput (sanitizeInput linkedinUrl))) :: rest).
Proof.
  unfold profilesConfigured, jobsToken.
  split; [|split].
  - intros Hurl. unfold answer, events, ScrapeLinkedin.handleLinkedInScraping.
    rewrite Hurl. split; reflexivity.
  - intros Hurl Hcfg. unfold answer, events, ScrapeLinkedin.handleLinkedInScraping.
    rewrite Hurl. cbn [negb].
    destruct (truthy (orStr (env W "APIFY_API_TOKEN") "")) eqn:Ht;
      destruct (truthy (orStr (env W "LINKEDIN_SCRAPER_ACTOR_ID") "")) eqn:Ha;
      try (exfalso; apply Hcfg; split; reflexivity).
    all: split; reflexivity.
  - intros Hurl [Ht Ha]. unfold events, ScrapeLinkedin.handleLinkedInScraping,
      ScrapeLinkedin.processedDataSync, ScrapeLinkedin.processedDataAsync.
    rewrite Hurl, Ht, Ha. cbn [negb orb].
    generalize ScrapeLinkedin.maxAttempts as attempts. intros attempts.
    unfold_eff.
    repeat (case_run; cbn [app negb fst snd]).
    all: eexists; reflexivity.
Qed.

(** *** The job scrape *)

Definition defined {A} (x : option A) : bool :=
  match x with Some _ => true | None => false end.

(** Every property of the job is present. *)
Definition complete (j : JobData) : bool :=
  defined (id j) && defined (trackingId j) && defined (refId j) && defined (link j) &&
  defined (title j) && defined (companyName j) && defined (companyLinkedinUrl j) &&
  defined (companyLogo j) && defined (location j) && defined (salaryInfo j) &&
  defined (postedAt j) && defined (benefits j) && defined (descriptionHtml j) &&
  defined (descriptionText j) && defined (applicantsCount j) && defined (applyUrl j) &&
  defined (salary j) && defined (seniorityLevel j) && defined (employmentType j) &&
  defined (jobFunction j) && defined (industries j) && defined (inputUrl j) &&
  defined (companyAddress j) && defined (companyWebsite j) && defined (companySlogan j) &&
  defined (companyDescription j) && defined (companyEmployeesCount j) &&
  defined (jobPosterName j) && defined (jobPosterTitle j) && defined (jobPosterPhoto j) &&
  defined (jobPosterProfileUrl j) && defined (scrapedAt j).

(** [job] is what the route makes of the dataset item [raw] for a request
    with [location]. *)
Definition processed (location : string) (raw job : JobData) : Prop :=
  complete job = true /\
  id job = Some (orStr (id raw) "") /\
  title job = Some (orStr (title raw) "") /\
  companyName job = Some (orStr (companyName raw) "") /\
  Types.location job = Some (orStr (Types.location raw) location).

(** [results] is a non-empty dataset that the job actor answered. *)
Definition jobsScraped (results : list JobData) : Prop :=
  results <> [] /\
  exists n req r, jobItems W n req = Resolved r /\ ok r = true /\ json_body r = Some results.

Lemma processJobs_run {R} location results s :
  exists jobs s',
    mapM (ScrapeJobs.processJob (R := R) W location) results s = (Normal jobs, s', []) /\
    calls s' = calls s /\ draws s' = draws s /\
    Forall2 (processed location) results jobs.
Proof.
  revert s; induction results as [|raw results IH]; intros s.
  - eexists _, _. split; [reflexivity|]. repeat split. constructor.
  - cbn [mapM]. unfold bind at 1. unfold ScrapeJobs.processJob at 1. unfold_eff.
    match goal with
    | |- context [mapM _ results ?s1] =>
        destruct (IH s1) as (jobs & s' & -> & Hc & Hd & Hall)
    end.
    cbn [app]. eexists _, _. split; [reflexivity|].
    split; [exact Hc|]. split; [exact Hd|].
    constructor; [|exact Hall]. repeat split.
Qed.

(** Writing the jobs to the index never fails the scrape: at most one
    outbound call, no sleep, and a normal completion whatever the index
    answers. *)
Lemma saveJobs_run {R} keywords jobs s :
  exists s' t,
    ScrapeJobs.saveJobs (R := R) ELASTICSEARCH_API_KEY W keywords jobs s
      = (Normal tt, s', t) /\
    (t = [] \/
     t = [Fetch (bulkRequest ELASTICSEARCH_API_KEY
                   (concat (bulkPairs W (draws s)
                      (map (ScrapeJobs.elasticsearchJob keywords) jobs))))]) /\
    (jobs <> [] -> t <> []).
Proof.
  unfold ScrapeJobs.saveJobs, EsLib.bulkSaveJobsToElasticsearch, EsLib.elasticsearchRequest.
  destruct jobs as [|j jobs].
  - eexists _, _. split; [reflexivity|]. split; [left; reflexivity|]. intros H; contradiction.
  - cbn [map]. unfold tryCatch, call at 1. unfold bind at 1.
    rewrite mapM_bulkPair. cbn [app].
    unfold_eff. cbn [calls reads draws].
    match goal with
    | |- context [Fetch ?req] => change req with
        (bulkRequest ELASTICSEARCH_API_KEY
           (concat (bulkPairs W (draws s)
              (ScrapeJobs.elasticsearchJob keywords j
                 :: map (ScrapeJobs.elasticsearchJob keywords) jobs))))
    end.
    repeat (case_run; cbn [app negb]).
    all: eexists _, _; (split; [reflexivity|]); split; [right; reflexivity|discriminate].
Qed.

Ltac run_processJobs :=
  match goal with
  | |- context [@mapM ?R _ _ (ScrapeJobs.processJob W ?l) ?rs ?s] =>
      let Hm := fresh "Hm" in
      let Hproc := fresh "Hproc" in
      destruct (processJobs_run (R := R) l rs s) as (? & ? & Hm & _ & _ & Hproc);
      rewrite Hm; clear Hm
  end.

Ltac run_saveJobs :=
  match goal with
  | |- context [@ScrapeJobs.saveJobs ?key ?W' ?R ?kw ?jobs ?s] =>
      let Hs := fresh "Hs" in
      let Hsave := fresh "Hsave" in
      destruct (saveJobs_run (R := R) kw jobs s) as (? & ? & Hs & Hsave & _);
      rewrite Hs; clear Hs
  end.

(** One turn of the jobs loop: one sleep of 5 seconds, one call when it
    finds the jobs and at most two otherwise, and no exception. *)
Lemma jobs_pollOnce_run actor token runId location s :
  exists c s' t,
    ScrapeJobs.pollOnce W actor token runId location s = (c, s', t) /\
    naps t = [5000%Z] /\
    match c with
    | Normal (ScrapeJobs.Break jobs) =>
        length (fetches t) = 1 /\
        exists results, jobsScraped results /\ Forall2 (processed location) results jobs
    | Normal ScrapeJobs.Continue => length (fetches t) <= 2
    | Return r =>
        length (fetches t) <= 2 /\
        r = ErrorResponse "LinkedIn job scraping failed" 500 /\ runReportedFailed
    | Throw _ => False
    end.
Proof.
  unfold ScrapeJobs.pollOnce. unfold_eff.
  repeat (first [run_processJobs | case_run]; cbn [app negb]).
  all: eexists _, _, _; (split; [reflexivity|]).
  all: cbn [naps fetches length app]; (split; [reflexivity|]).
  all: try lia.
  all: try (split; [lia|]; split; [reflexivity|]; eexists _, _, _, _; repeat split;
            try eassumption; apply String.eqb_eq; assumption).
  split; [reflexivity|]. eexists. split; [|exact Hproc].
  split; [discriminate|]. eexists _, _, _. repeat split; eassumption.
Qed.

(** The jobs loop with [left] turns to go. *)
Lemma jobs_pollLoop_run left actor token runId location s :
  exists c s' t,
    ScrapeJobs.pollLoop W left actor token runId location s = (c, s', t) /\
    (exists k, k <= left /\ naps t = repeat 5000%Z k) /\
    match c with
    | Normal (Some jobs) =>
        S (length (fetches t)) <= 2 * left /\
        exists results, jobsScraped results /\ Forall2 (processed location) results jobs
    | Normal None => length (fetches t) <= 2 * left
    | Return r =>
        length (fetches t) <= 2 * left /\
        r = ErrorResponse "LinkedIn job scraping failed" 500 /\ runReportedFailed
    | Throw _ => False
    end.
Proof.
  revert s; induction left as [|left IH]; intros s.
  - eexists _, _, _; split; [reflexivity|].
    split; [exists 0; split; [lia|reflexivity]|]. simpl; lia.
  - cbn [ScrapeJobs.pollLoop]. unfold bind.
    destruct (jobs_pollOnce_run actor token runId location s)
      as (c1 & s1 & t1 & -> & Hn1 & Hc1).
    destruct c1 as [[jobs|]|e|r].
    + unfold ret. eexists _, _, _; split; [reflexivity|].
      rewrite app_nil_r.
      split; [exists 1; split; [lia|exact Hn1]|].
      destruct Hc1 as [Hf Hres]. split; [lia|exact Hres].
    + destruct (IH s1) as (c2 & s2 & t2 & -> & (k & Hk & Hn2) & Hc2).
      eexists _, _, _; split; [reflexivity|].
      split; [exists (S k); split; [lia|rewrite naps_app, Hn1, Hn2; reflexivity]|].
      rewrite fetches_app, length_app.
      destruct c2 as [[jobs|]|e|r]; [| | contradiction |].
      * destruct Hc2 as [Hf Hres]. split; [lia|exact Hres].
      * lia.
      * destruct Hc2 as [Hf Hres]. split; [lia|exact Hres].
    + contradiction.
    + eexists _, _, _; split; [reflexivity|].
      split; [exists 1; split; [lia|exact Hn1]|].
      destruct Hc1 as [Hf Hres]. split; [lia|exact Hres].
Qed.

(** Some call to start a run was answered with the error status
    [status]. *)
Definition runRefusedWith (status : Z) : Prop :=
  exists n req r, runs W n req = Resolved r /\ ok r = false /\ Eff.status r = status.

(** The request's location, with its default. *)
Definition locationOf (req : ScrapeJobs.JobScrapingRequest) : string :=
  match ScrapeJobs.req_location req with
  | Some l => l
  | None => "United States"
  end.

(** X10.  Every completion of the job scrape.  An answer is an error
    envelope with its cause (status 400 only for blank keywords) or a
    success envelope whose jobs are the processed items of a non-empty
    dataset, every property present, and whose [totalJobs] is their
    number.  The one completion that is no answer is the
    [ReferenceError] of the catch clause, which reads [keywords], out of
    scope there: the clause is entered only after both guards have
    passed, so never for blank keywords or missing credentials. *)
Theorem job_scrape_outcomes (req : ScrapeJobs.JobScrapingRequest) :
  let c := answer (ScrapeJobs.handleJobScraping sanitizeInput ELASTICSEARCH_API_KEY W req) in
  (c = Normal (ErrorResponse "Job keywords are required" 400) /\
   ~ nonBlank (sanitizeInput (ScrapeJobs.keywords req))) \/
  (c = Normal (ErrorResponse "Service configuration error" 500) /\ ~ jobsConfigured W) \/
  (exists status,
     c = Normal (ErrorResponse
                   ("Failed to start LinkedIn job scraping: " ++ showZ status) 500) /\
     runRefusedWith status) \/
  (c = Normal (ErrorResponse "LinkedIn job scraping failed" 500) /\ runReportedFailed) \/
  c = Normal (ErrorResponse "LinkedIn job scraping timed out or no jobs found" 500) \/
  (c = Throw (ReferenceError "keywords is not defined") /\
   nonBlank (sanitizeInput (ScrapeJobs.keywords req)) /\ jobsConfigured W) \/
  (exists d results,
     c = Normal (SuccessResponse d) /\
     jobsScraped results /\
     Forall2 (processed (locationOf req)) results (ScrapeJobs.data d) /\
     ScrapeJobs.totalJobs d = length results).
Proof.
  cbv zeta. unfold answer, ScrapeJobs.handleJobScraping.
  fold (locationOf req).
  set (count := match ScrapeJobs.count req with Some c => c | None => 50%Z end).
  remember ScrapeJobs.maxAttempts as attempts eqn:Hatt.
  unfold_eff.
  destruct (initialize_run ELASTICSEARCH_API_KEY W (R := unit) start) as (c0 & Hinit & _ & _).
  destruct (negb (truthy (sanitizeInput (ScrapeJobs.keywords req)))
            || (String.length (trim (sanitizeInput (ScrapeJobs.keywords req))) =? 0))
    eqn:Hblank.
  { left. split; [reflexivity|]. intros [H1 H2]. rewrite H1, H2 in Hblank. discriminate. }
  assert (Hnb : nonBlank (sanitizeInput (ScrapeJobs.keywords req))).
  { apply orb_false_iff in Hblank. destruct Hblank as [H1 H2].
    apply negb_false_iff in H1. split; assumption. }
  clear Hblank.
  cbv beta. rewrite Hinit.
  destruct c0 as [[]|e|[]]; cbn [app].
  all: repeat (first [run_processJobs | run_saveJobs | case_run]; cbn [app negb fst snd]).
  all: try match goal with
           | Hp : ScrapeJobs.pollLoop W ?n ?a ?t ?r ?l ?s = _ |- _ =>
               destruct (jobs_pollLoop_run n a t r l s) as (? & ? & ? & Hrun & _ & Hc);
               rewrite Hp in Hrun; injection Hrun as <- <- <-
           end.
  all: try contradiction.
  all: first
    [ solve [right; left; split; [reflexivity|];
             intros [H1 H2]; rewrite H1, H2 in *; discriminate]
    | solve [right; right; left; eexists; split; [reflexivity|];
             eexists _, _, _; split; [eassumption|];
             split; [apply negb_true_iff; assumption | reflexivity]]
    | solve [right; right; right; left; destruct Hc as (_ & -> & Hfail);
             split; [reflexivity | exact Hfail]]
    | solve [right; right; right; right; left; reflexivity]
    | solve [right; right; right; right; right; left; split; [reflexivity|];
             split; [exact Hnb|];
             match goal with
             | H : negb (truthy ?a) || negb (truthy ?b) = false |- _ =>
                 apply orb_false_iff in H; destruct H as [Ha Hb];
                 apply negb_false_iff in Ha, Hb; split; assumption
             end]
    | solve [right; right; right; right; right; right;
             destruct Hc as (_ & results & Hres & Hall);
             eexists _, results; split; [reflexivity|];
             split; [exact Hres|]; split; [exact Hall|];
             symmetry; exact (Forall2_length Hall)]
    | solve [right; right; right; right; right; right;
             match type of Hproc with
             | Forall2 _ ?results _ =>
                 eexists _, results; split; [reflexivity|];
                 split; [split; [discriminate
                                | eexists _, _, _; repeat split; eassumption]|];
                 split; [exact Hproc|];
                 symmetry; exact (Forall2_length Hproc)
             end]
    | idtac ].
Qed.

(** X11.  Whatever the services do, the job scrape sleeps at most 24 times, 5
    seconds each, and makes at most 51 outbound calls: the index mapping,
    the synchronous attempt, the start of the run, two calls a poll but
    one for the poll that finds the jobs, and the bulk write. *)
Theorem job_scrape_is_bounded (req : ScrapeJobs.JobScrapingRequest) :
  (exists k, k <= 24 /\
     naps (events (ScrapeJobs.handleJobScraping sanitizeInput ELASTICSEARCH_API_KEY W req))
       = repeat 5000%Z k) /\
  length (fetches
            (events (ScrapeJobs.handleJobScraping sanitizeInput ELASTICSEARCH_API_KEY W req)))
    <= 51.
Proof.
  unfold events, ScrapeJobs.handleJobScraping.
  fold (locationOf req).
  set (count := match ScrapeJobs.count req with Some c => c | None => 50%Z end).
  remember ScrapeJobs.maxAttempts as attempts eqn:Hatt.
  unfold_eff.
  destruct (initialize_run ELASTICSEARCH_API_KEY W (R := unit) start) as (c0 & Hinit & _ & _).
  destruct (negb (truthy (sanitizeInput (ScrapeJobs.keywords req)))
            || (String.length (trim (sanitizeInput (ScrapeJobs.keywords req))) =? 0)).
  { cbn. split; [exists 0; split; [lia|reflexivity] | lia]. }
  cbv beta. rewrite Hinit.
  destruct c0 as [[]|e|[]]; cbn [app].
  all: repeat (first [run_processJobs | run_saveJobs | case_run]; cbn [app negb fst snd]).
  all: try match goal with
           | Hp : ScrapeJobs.pollLoop W ?n ?a ?t ?r ?l ?s = _ |- _ =>
               destruct (jobs_pollLoop_run n a t r l s)
                 as (? & ? & ? & Hrun & (k & Hk & Hnaps) & Hc);
               rewrite Hp in Hrun; injection Hrun as <- <- <-
           end.
  all: try contradiction.
  all: try (destruct Hc as [Hc _]).
  all: try match goal with Hsave : _ \/ _ |- _ => destruct Hsave as [-> | ->] end.
  all: cbn [naps fetches length app];
       rewrite ?naps_app, ?fetches_app, ?length_app; cbn [naps fetches length app];
       rewrite ?app_nil_r.
  all: try (split; [exists 0; split; [lia|reflexivity] | lia]).
  all: subst attempts; unfold ScrapeJobs.maxAttempts in *.
  all: split; [exists k; split; [lia|exact Hnaps] | cbn [length]; lia].
Qed.

(** X12.  Blank keywords are refused before anything leaves the process.
    Without the actor's credentials the handler answers 500, and by then
    it has already written the index mapping. *)
Theorem job_scrape_guards (req : ScrapeJobs.JobScrapingRequest) :
  (~ nonBlank (sanitizeInput (ScrapeJobs.keywords req)) ->
     answer (ScrapeJobs.handleJobScraping sanitizeInput ELASTICSEARCH_API_KEY W req)
       = Normal (ErrorResponse "Job keywords are required" 400) /\
     events (ScrapeJobs.handleJobScraping sanitizeInput ELASTICSEARCH_API_KEY W req) = []) /\
  (nonBlank (sanitizeInput (ScrapeJobs.keywords req)) -> ~ jobsConfigured W ->
     answer (ScrapeJobs.handleJobScraping sanitizeInput ELASTICSEARCH_API_KEY W req)
       = Normal (ErrorResponse "Service configuration error" 500) /\
     events (ScrapeJobs.handleJobScraping sanitizeInput ELASTICSEARCH_API_KEY W req)
       = [Fetch (mappingRequest ELASTICSEARCH_API_KEY)]).
Proof.
  unfold nonBlank, jobsConfigured. split.
  - intros Hblank. unfold answer, events, ScrapeJobs.handleJobScraping.
    destruct (truthy (sanitizeInput (ScrapeJobs.keywords req))) eqn:Ht;
      [|split; reflexivity].
    destruct (String.length (trim (sanitizeInput (ScrapeJobs.keywords req))) =? 0) eqn:Hl;
      [split; reflexivity|].
    exfalso; apply Hblank; split; reflexivity.
  - intros [Ht Hl] Hcfg. unfold answer, events, ScrapeJobs.handleJobScraping.
    rewrite Ht, Hl. cbn [negb orb].
    destruct (initialize_run ELASTICSEARCH_API_KEY W (R := unit) start)
      as (c0 & Hinit & _ & _).
    assert (Hmiss : negb (truthy (orStr (env W "APIFY_API_TOKEN") ""))
                    || negb (truthy (orStr (env W "APIFY_ACTOR_ID") "")) = true).
    { destruct (truthy (orStr (env W "APIFY_API_TOKEN") ""));
        destruct (truthy (orStr (env W "APIFY_ACTOR_ID") "")); try reflexivity.
      exfalso; apply Hcfg; split; reflexivity. }
    rewrite Hmiss. unfold_eff. rewrite Hinit.
    destruct c0 as [[]|e|[]]; split; reflexivity.
Qed.

(** The synchronous call of the job scrape for a request. *)
Definition jobsSyncRequest (req : ScrapeJobs.JobScrapingRequest) : request :=
  ScrapeJobs.syncRequest (jobsActor W) (jobsToken W) (jobsInput sanitizeInput req).

(** X13.  When the synchronous call answers with a non-empty dataset, the
    handler answers with the processed jobs whatever the index does:
    neither a failed mapping nor a failed bulk write changes the answer.
    It has made three calls and slept not at all; the bulk write carries
    the documents of the answered jobs. *)
Theorem sync_scrape_survives_index_failures
    (req : ScrapeJobs.JobScrapingRequest) (r : response (list JobData))
    (results : list JobData) :
  nonBlank (sanitizeInput (ScrapeJobs.keywords req)) ->
  jobsConfigured W ->
  jobItems W 1 (jobsSyncRequest req) = Resolved r ->
  ok r = true -> json_body r = Some results -> results <> [] ->
  exists jobs,
    answer (ScrapeJobs.handleJobScraping sanitizeInput ELASTICSEARCH_API_KEY W req)
      = Normal (SuccessResponse
                  {| ScrapeJobs.data := jobs; ScrapeJobs.totalJobs := length results |}) /\
    Forall2 (processed (locationOf req)) results jobs /\
    fetches (events (ScrapeJobs.handleJobScraping sanitizeInput ELASTICSEARCH_API_KEY W req))
      = [mappingRequest ELASTICSEARCH_API_KEY;
         jobsSyncRequest req;
         bulkRequest ELASTICSEARCH_API_KEY
           (concat (bulkPairs W 0
              (map (ScrapeJobs.elasticsearchJob (ScrapeJobs.keywords req)) jobs)))] /\
    naps (events (ScrapeJobs.handleJobScraping sanitizeInput ELASTICSEARCH_API_KEY W req))
      = [].
Proof.
  intros [Ht Hl] [Htoken Hactor] Hsync Hok Hbody Hne.
  unfold jobsSyncRequest, jobsInput, jobsActor, jobsToken in Hsync.
  unfold answer, events, ScrapeJobs.handleJobScraping.
  rewrite Ht, Hl, Htoken, Hactor. cbn [negb orb].
  destruct (initialize_run ELASTICSEARCH_API_KEY W (R := unit) start)
    as (c0 & Hinit & _ & _).
  unfold_eff. rewrite Hinit.
  destruct results as [|raw results]; [contradiction|].
  destruct c0 as [[]|e|[]]; cbn [app bump calls reads draws start].
  all: rewrite Hsync; cbv beta iota zeta; rewrite Hok, Hbody; cbn [app].
  all: fold (locationOf req).
  all: match goal with
       | |- context [@mapM ?R _ _ (ScrapeJobs.processJob W ?l) ?rs ?s] =>
           destruct (processJobs_run (R := R) l rs s) as (jobs & s2 & Hm & _ & Hd & Hall);
           rewrite Hm
       end.
  all: match goal with
       | |- context [@ScrapeJobs.saveJobs ?key ?W' ?R ?kw ?js ?s] =>
           destruct (saveJobs_run (R := R) kw js s) as (s3 & t & Hs & Hsave & Hsome);
           rewrite Hs
       end.
  all: assert (Hjobs : jobs <> [])
         by (intros ->; apply Forall2_length in Hall; discriminate Hall).
  all: destruct Hsave as [-> | ->]; [exfalso; exact (Hsome Hjobs eq_refl)|].
  all: cbn [calls reads draws] in Hd; rewrite Hd.
  all: exists jobs; cbn [app fst snd fetches naps].
  all: rewrite <- (Forall2_length Hall).
  all: repeat split; try reflexivity; exact Hall.
Qed.

(** X14.  When the synchronous call yields nothing and the call that starts
    the run is rejected, or answers OK with a body that is not a run, the
    handler throws: it makes three calls and answers with no envelope. *)
Theorem job_scrape_throws_when_run_call_breaks (req : ScrapeJobs.JobScrapingRequest) :
  nonBlank (sanitizeInput (ScrapeJobs.keywords req)) ->
  jobsConfigured W ->
  match jobItems W 1 (jobsSyncRequest req) with
  | Rejected _ => True
  | Resolved r => ok r = false \/ json_body r = None \/ json_body r = Some []
  end ->
  match runs W 2 (ScrapeJobs.runRequest (jobsActor W) (jobsToken W)
                    (jobsInput sanitizeInput req)) with
  | Rejected _ => True
  | Resolved r => ok r = true /\ json_body r = None
  end ->
  answer (ScrapeJobs.handleJobScraping sanitizeInput ELASTICSEARCH_API_KEY W req)
    = Throw (ReferenceError "keywords is not defined") /\
  fetches (events (ScrapeJobs.handleJobScraping sanitizeInput ELASTICSEARCH_API_KEY W req))
    = [mappingRequest ELASTICSEARCH_API_KEY;
       jobsSyncRequest req;
       ScrapeJobs.runRequest (jobsActor W) (jobsToken W) (jobsInput sanitizeInput req)].
Proof.
  intros [Ht Hl] [Htoken Hactor] Hsync Hrun.
  unfold jobsSyncRequest, jobsInput, jobsActor, jobsToken in *.
  unfold answer, events, ScrapeJobs.handleJobScraping.
  rewrite Ht, Hl, Htoken, Hactor. cbn [negb orb].
  destruct (initialize_run ELASTICSEARCH_API_KEY W (R := unit) start)
    as (c0 & Hinit & _ & _).
  generalize ScrapeJobs.maxAttempts as attempts. intros attempts.
  unfold_eff. rewrite Hinit.
  destruct c0 as [[]|e|[]]; cbn [app bump calls reads draws start].
  all: destruct (jobItems W 1 _) as [e1|r1]; cbv beta iota zeta; cbn [app].
  all: try (destruct (ok r1) eqn:Hok1; cbn [app negb];
            [destruct Hsync as [Hs|[Hs|Hs]];
             [discriminate | rewrite Hs | rewrite Hs]; cbn [app] | ]).
  all: cbn [calls].
  all: destruct (runs W 2 _) as [e2|r2]; cbv beta iota zeta; cbn [app];
       [|destruct Hrun as [Hok2 Hb2]; rewrite Hok2, Hb2; cbn [app negb]].
  all: split; reflexivity.
Qed.

(** *** The statistics routes *)

Definition statisticsRequest : request :=
  {| url := EsLib.ELASTICSEARCH_URL ++ "/" ++ EsLib.INDEX_NAME ++ "/_search";
     method := "POST";
     headers := [("Authorization", "ApiKey " ++ ELASTICSEARCH_API_KEY);
                 ("Content-Type", "application/json")];
     body := Some (stringify EsLib.statisticsBody) |}.

(** The [n]-th call asks for the aggregations and gets [statistics]. *)
Definition aggregatedAt (n : nat) (statistics : json) : Prop :=
  exists r,
    aggregate W n statisticsRequest = Resolved r /\ ok r = true /\
    json_body r = Some statistics.

Definition aggregated (statistics : json) : Prop :=
  exists n, aggregatedAt n statistics.

(** The mapping call throws exactly when it fails. *)
Lemma initialize_cases {R} s :
  exists c,
    EsLib.initializeElasticsearchIndex (R := R) ELASTICSEARCH_API_KEY W s
      = (c, bump s, [Fetch (mappingRequest ELASTICSEARCH_API_KEY)]) /\
    ((c = Normal tt /\ ~ initFails ELASTICSEARCH_API_KEY W (calls s)) \/
     (exists e, c = Throw e /\ initFails ELASTICSEARCH_API_KEY W (calls s))).
Proof.
  unfold EsLib.initializeElasticsearchIndex, EsLib.elasticsearchRequest, initFails.
  unfold_eff. fold (mappingRequest ELASTICSEARCH_API_KEY). fold (bump s).
  destruct (elastic W (calls s) (mappingRequest ELASTICSEARCH_API_KEY)) as [e|r]; cbn [app].
  - eexists; split; [reflexivity|]. right. eauto.
  - destruct (ok r) eqn:Hok; cbn [negb app].
    + destruct (json_body r) eqn:Hb; cbn [app].
      * eexists; split; [reflexivity|]. left. split; [reflexivity|].
        intros [H|H]; discriminate.
      * eexists; split; [reflexivity|]. right. eauto.
    + eexists; split; [reflexivity|]. right. eauto.
Qed.

(** [getJobStatistics] makes one call and returns what the service
    aggregated, or throws. *)
Lemma getJobStatistics_run s :
  exists c,
    EsLib.getJobStatistics ELASTICSEARCH_API_KEY W s
      = (c, bump s, [Fetch statisticsRequest]) /\
    match c with
    | Return statistics => aggregatedAt (calls s) statistics
    | Throw _ => forall statistics, ~ aggregatedAt (calls s) statistics
    | Normal _ => False
    end.
Proof.
  unfold EsLib.getJobStatistics, EsLib.elasticsearchRequest, aggregatedAt.
  unfold_eff. fold statisticsRequest. fold (bump s).
  destruct (aggregate W (calls s) statisticsRequest) as [e|r]; cbn [app].
  - eexists; split; [reflexivity|]. intros j (r & H & _). discriminate.
  - destruct (ok r) eqn:Hok; cbn [negb app].
    + destruct (json_body r) eqn:Hb; cbn [app].
      * eexists; split; [reflexivity|]. exists r. auto.
      * eexists; split; [reflexivity|]. intros j (r' & [= <-] & _ & H). congruence.
    + eexists; split; [reflexivity|]. intros j (r' & [= <-] & H & _). congruence.
Qed.

Lemma statisticsJobs_run {R} keywords results s :
  exists docs s',
    mapM (JobStatistics.elasticsearchJob (R := R) W keywords) results s
      = (Normal docs, s', []) /\
    calls s' = calls s /\ draws s' = draws s /\
    length docs = length results.
Proof.
  revert s; induction results as [|raw results IH]; intros s.
  - eexists _, _. split; [reflexivity|]. repeat split.
  - cbn [mapM]. unfold bind at 1. unfold JobStatistics.elasticsearchJob at 1. unfold_eff.
    match goal with
    | |- context [mapM _ results ?s1] =>
        destruct (IH s1) as (docs & s' & -> & Hc & Hd & Hlen)
    end.
    cbn [app]. eexists _, _. split; [reflexivity|].
    split; [exact Hc|]. split; [exact Hd|]. cbn [length]. rewrite Hlen. reflexivity.
Qed.

(** A bulk write makes at most one call and does not sleep. *)
Lemma bulkSave_run jobs s :
  exists c s' t,
    EsLib.bulkSaveJobsToElasticsearch ELASTICSEARCH_API_KEY W jobs s = (c, s', t) /\
    length (fetches t) <= 1 /\ naps t = [].
Proof.
  unfold EsLib.bulkSaveJobsToElasticsearch, EsLib.elasticsearchRequest.
  destruct jobs as [|j jobs].
  - eexists _, _, _. split; [reflexivity|]. split; [simpl; lia|reflexivity].
  - unfold tryCatch. unfold bind at 1.
    rewrite mapM_bulkPair. cbn [app].
    unfold_eff. cbn [calls reads draws].
    repeat (case_run; cbn [app negb]).
    all: eexists _, _, _; (split; [reflexivity|]); split; [simpl; lia|reflexivity].
Qed.

Ltac run_bulkSave :=
  match goal with
  | |- context [EsLib.bulkSaveJobsToElasticsearch ?key ?W' ?jobs ?s] =>
      let Hb := fresh "Hb" in
      let Hcalls := fresh "Hcalls" in
      let Hquiet := fresh "Hquiet" in
      destruct (bulkSave_run jobs s) as (? & ? & ? & Hb & Hcalls & Hquiet);
      rewrite Hb; clear Hb
  end.

Ltac run_statistics :=
  match goal with
  | |- context [EsLib.getJobStatistics ?key ?W' ?s] =>
      let Hg := fresh "Hg" in
      let Hstat := fresh "Hstat" in
      let c := fresh "c" in
      destruct (getJobStatistics_run s) as (c & Hg & Hstat);
      rewrite Hg; clear Hg; destruct c as [?|?|?]; [contradiction| |]
  end.

Ltac run_statisticsJobs :=
  match goal with
  | |- context [@mapM ?R _ _ (JobStatistics.elasticsearchJob W ?kw) ?rs ?s] =>
      let Hm := fresh "Hm" in
      let Hlen := fresh "Hlen" in
      destruct (statisticsJobs_run (R := R) kw rs s) as (? & ? & Hm & _ & _ & Hlen);
      rewrite Hm; clear Hm
  end.

Definition progressMessage : string :=
  "Data collection is in progress. Current statistics retrieved.".

Definition storedMessage (n : nat) : string :=
  "Successfully collected and stored " ++ showZ (Z.of_nat n)
    ++ " job postings in the database.".

(** X15.  [POST /api/job-statistics] always answers with an envelope, never
    sleeps and makes at most five calls.  A success carries statistics
    that the search service aggregated, and either the progress message
    or the number of items of a scraped dataset. *)
Theorem statistics_post_outcomes (req : JobStatistics.JobStatisticsRequest) :
  (exists r,
     answer (JobStatistics.handleJobStatistics sanitizeInput ELASTICSEARCH_API_KEY W req)
       = Normal r /\
     ((r = ErrorResponse "Elasticsearch connection failed" 500 /\
       initFails ELASTICSEARCH_API_KEY W 0) \/
      (r = ErrorResponse "Service configuration error" 500 /\ ~ jobsConfigured W) \/
      r = ErrorResponse "Internal server error during job statistics collection" 500 \/
      (exists statistics,
         aggregated statistics /\
         (r = SuccessResponse
                {| JobStatistics.statistics := statistics;
                   JobStatistics.message := Some progressMessage |} \/
          exists results,
            jobsScraped results /\
            r = SuccessResponse
                  {| JobStatistics.statistics := statistics;
                     JobStatistics.message := Some (storedMessage (length results)) |})))) /\
  naps (events (JobStatistics.handleJobStatistics sanitizeInput ELASTICSEARCH_API_KEY W req))
    = [] /\
  length (fetches (events
            (JobStatistics.handleJobStatistics sanitizeInput ELASTICSEARCH_API_KEY W req)))
    <= 5.
Proof.
  unfold answer, events, JobStatistics.handleJobStatistics.
  set (count := match JobStatistics.count req with Some c => c | None => 50%Z end).
  set (keywords := match JobStatistics.keywords req with
                   | Some k => k
                   | None => "software engineer"
                   end).
  unfold_eff.
  destruct (initialize_cases (R := unit) start) as (c0 & Hinit & Hc0).
  rewrite Hinit.
  destruct Hc0 as [[-> Hgood] | (e & -> & Hbad)]; cbn [app].
  2: { split; [eexists; split; [reflexivity|]; left; split; [reflexivity|exact Hbad]|].
       cbn. split; [reflexivity|lia]. }
  repeat (first [run_statisticsJobs | run_bulkSave | run_statistics | case_run];
          cbn [app negb fst snd]).
  all: split;
    [ eexists; (split; [reflexivity|])
    | cbn [naps fetches length app];
      rewrite ?naps_app, ?fetches_app, ?length_app; cbn [naps fetches length app];
      rewrite ?Hquiet; split; [reflexivity | lia] ].
  all: first
    [ solve [right; left; split; [reflexivity|];
             intros [H1 H2]; rewrite H1, H2 in *; discriminate]
    | solve [right; right; left; reflexivity]
    | solve [right; right; right; eexists; split; [eexists; eassumption|];
             left; reflexivity]
    | solve [match type of Hlen with
             | _ = length ?results =>
                 right; right; right; eexists; split; [eexists; eassumption|];
                 right; exists results; split;
                 [split; [discriminate | eexists _, _, _; repeat split; eassumption]|];
                 unfold storedMessage; rewrite Hlen; reflexivity
             end]
    | idtac ].
Qed.

(** X16.  [GET /api/job-statistics]: the mapping is written first and its
    failure ends the request; otherwise the answer is what the service
    aggregates on the second call, or an error when it does not. *)
Theorem statistics_get_outcomes :
  (initFails ELASTICSEARCH_API_KEY W 0 ->
     answer (JobStatistics.handleGetJobStatistics ELASTICSEARCH_API_KEY W)
       = Normal (ErrorResponse "Elasticsearch connection failed" 500) /\
     events (JobStatistics.handleGetJobStatistics ELASTICSEARCH_API_KEY W)
       = [Fetch (mappingRequest ELASTICSEARCH_API_KEY)]) /\
  (~ initFails ELASTICSEARCH_API_KEY W 0 ->
     events (JobStatistics.handleGetJobStatistics ELASTICSEARCH_API_KEY W)
       = [Fetch (mappingRequest ELASTICSEARCH_API_KEY); Fetch statisticsRequest] /\
     (forall statistics, aggregatedAt 1 statistics ->
        answer (JobStatistics.handleGetJobStatistics ELASTICSEARCH_API_KEY W)
          = Normal (SuccessResponse
                      {| JobStatistics.statistics := statistics;
                         JobStatistics.message := None |})) /\
     ((forall statistics, ~ aggregatedAt 1 statistics) ->
        answer (JobStatistics.handleGetJobStatistics ELASTICSEARCH_API_KEY W)
          = Normal (ErrorResponse
                      "Internal server error during job statistics retrieval" 500))).
Proof.
  unfold answer, events, JobStatistics.handleGetJobStatistics.
  unfold_eff.
  destruct (initialize_cases (R := unit) start) as (c0 & Hinit & Hc0).
  destruct (getJobStatistics_run (bump start)) as (c1 & Hstats & Hc1).
  rewrite Hinit.
  destruct Hc0 as [[-> Hgood] | (e & -> & Hbad)]; cbn [app calls start] in *.
  - split; [intros H; contradiction|]. intros _.
    rewrite Hstats. cbn [bump calls start] in Hc1.
    destruct c1 as [a|e|statistics]; [contradiction| |]; cbn [app fst snd].
    + split; [reflexivity|]. split; [|reflexivity].
      intros statistics H. exfalso. exact (Hc1 statistics H).
    + split; [reflexivity|]. split.
      * intros other (r1 & H1 & _ & Hb1). destruct Hc1 as (r2 & H2 & _ & Hb2).
        rewrite H1 in H2. injection H2 as <-. rewrite Hb1 in Hb2. injection Hb2 as <-.
        reflexivity.
      * intros Hnone. exfalso. exact (Hnone statistics Hc1).
  - split; [intros _; split; reflexivity|]. intros H; contradiction.
Qed.

(** The synchronous call of the statistics route for a request. *)
Definition statisticsSyncRequest (req : JobStatistics.JobStatisticsRequest) : request :=
  JobStatistics.syncRequest (jobsActor W) (jobsToken W)
    (JobStatistics.actorInput
       (JobStatistics.jobSearchUrl
          (sanitizeInput (match JobStatistics.keywords req with
                          | Some k => k
                          | None => "software engineer"
                          end)))
       (match JobStatistics.count req with Some c => c | None => 50%Z end)).

(** The [n]-th call, whatever it asks of the index, throws. *)
Definition indexRefuses (n : nat) : Prop :=
  forall req,
    match elastic W n req with
    | Rejected _ => True
    | Resolved r => ok r = false \/ json_body r = None
    end.

Lemma bulkSave_refused jobs s :
  jobs <> [] -> indexRefuses (calls s) ->
  exists e s' req,
    EsLib.bulkSaveJobsToElasticsearch ELASTICSEARCH_API_KEY W jobs s
      = (Throw e, s', [Fetch req]) /\
    calls s' = S (calls s).
Proof.
  intros Hne Hrefuse.
  unfold EsLib.bulkSaveJobsToElasticsearch, EsLib.elasticsearchRequest.
  destruct jobs as [|j jobs]; [contradiction|].
  unfold tryCatch. unfold bind at 1.
  rewrite mapM_bulkPair. cbn [app].
  unfold_eff. cbn [calls reads draws].
  match goal with
  | |- context [elastic W (calls s) ?req] =>
      pose proof (Hrefuse req) as Hr; destruct (elastic W (calls s) req) as [e|r]
  end; cbn [app negb].
  - eexists _, _, _. split; reflexivity.
  - destruct (ok r) eqn:Hok; cbn [app negb].
    + destruct Hr as [Hr|Hr]; [discriminate|]. rewrite Hr. cbn [app].
      eexists _, _, _. split; reflexivity.
    + eexists _, _, _. split; reflexivity.
Qed.

(** X17.  When the scrape delivers jobs and the bulk write of them fails, the
    statistics route still answers with success: it reads the current
    statistics and says that data collection is in progress. *)
Theorem failed_store_is_reported_as_progress
    (req : JobStatistics.JobStatisticsRequest) (r : response (list JobData))
    (results : list JobData) (statistics : json) :
  ~ initFails ELASTICSEARCH_API_KEY W 0 ->
  jobsConfigured W ->
  jobItems W 1 (statisticsSyncRequest req) = Resolved r ->
  ok r = true -> json_body r = Some results -> results <> [] ->
  indexRefuses 2 ->
  aggregatedAt 3 statistics ->
  answer (JobStatistics.handleJobStatistics sanitizeInput ELASTICSEARCH_API_KEY W req)
    = Normal (SuccessResponse
                {| JobStatistics.statistics := statistics;
                   JobStatistics.message := Some progressMessage |}) /\
  length (fetches (events
            (JobStatistics.handleJobStatistics sanitizeInput ELASTICSEARCH_API_KEY W req)))
    = 4.
Proof.
  intros Hgood [Htoken Hactor] Hsync Hok Hbody Hne Hrefuse (ra & Hagg & Hoka & Hba).
  unfold statisticsSyncRequest, jobsActor, jobsToken in Hsync.
  unfold answer, events, JobStatistics.handleJobStatistics.
  rewrite Htoken, Hactor. cbn [negb orb].
  destruct (initialize_cases (R := unit) start) as (c0 & Hinit & Hc0).
  destruct Hc0 as [[-> _] | (e & _ & Hbad)]; [|contradiction].
  unfold_eff. rewrite Hinit. cbn [app bump calls reads draws start].
  rewrite Hsync. cbv beta iota zeta. rewrite Hok, Hbody. cbn [app].
  destruct results as [|raw results]; [contradiction|].
  match goal with
  | |- context [@mapM ?R _ _ (JobStatistics.elasticsearchJob W ?kw) ?rs ?s] =>
      destruct (statisticsJobs_run (R := R) kw rs s) as (docs & s2 & Hm & Hc2 & _ & Hlen);
      rewrite Hm; clear Hm
  end.
  cbn [calls] in Hc2.
  assert (Hdocs : docs <> []) by (intros ->; discriminate Hlen).
  rewrite <- Hc2 in Hrefuse.
  destruct (bulkSave_refused docs s2 Hdocs Hrefuse) as (e & s3 & breq & Hsave & Hc3).
  rewrite Hsave. cbn [app].
  destruct (getJobStatistics_run s3) as (c & Hstats & Hc).
  rewrite Hstats. rewrite Hc3, Hc2 in Hc.
  destruct c as [a|e'|found]; [contradiction| |]; cbn [app fst snd].
  - exfalso. apply (Hc statistics). exists ra. auto.
  - destruct Hc as (r2 & H2 & _ & Hb2).
    rewrite Hagg in H2. injection H2 as <-. rewrite Hba in Hb2. injection Hb2 as <-.
    split; reflexivity.
Qed.

End ScrapeOutcomes.

Section ScrapeOutcomesExamples.
Import JS Json Types Eff.

(** Nothing is configured and nothing answers. *)
Definition bareWorld : World :=
  {| gemini := fun _ _ => unavailable;
     search := fun _ _ => unavailable;
     aggregate := fun _ _ => unavailable;
     elastic := fun _ _ => unavailable;
     jobItems := fun _ _ => unavailable;
     profileItems := fun _ _ => unavailable;
     runs := fun _ _ => unavailable;
     env := fun _ => None;
     clock := fun _ => "2025-01-01T00:00:00.000Z";
     dice := fun _ => [Digit 0; Dot; Digit 5] |}.

Lemma profile_scrape_guards_witness :
  answer (ScrapeLinkedin.handleLinkedInScraping identity syncWorld "")
    = Normal (ErrorResponse "LinkedIn URL is required" 400) /\
  answer (ScrapeLinkedin.handleLinkedInScraping identity bareWorld
            "https://linkedin.com/in/ada")
    = Normal (ErrorResponse "Service configuration error" 500) /\
  events (ScrapeLinkedin.handleLinkedInScraping identity bareWorld
            "https://linkedin.com/in/ada") = [] /\
  exists rest,
    events (ScrapeLinkedin.handleLinkedInScraping identity syncWorld
              "https://linkedin.com/in/ada")
    = Fetch (ScrapeLinkedin.syncRequest (jobsToken syncWorld)
               (ScrapeLinkedin.actorInput (identity "https://linkedin.com/in/ada")))
        :: rest.
Proof.
  assert (Hbare : ~ profilesConfigured bareWorld) by (intros [H _]; discriminate H).
  assert (Hsync : profilesConfigured syncWorld) by (split; reflexivity).
  destruct (profile_scrape_guards identity syncWorld "") as (Hblank & _ & _).
  destruct (profile_scrape_guards identity bareWorld "https://linkedin.com/in/ada")
    as (_ & Hmiss & _).
  destruct (profile_scrape_guards identity syncWorld "https://linkedin.com/in/ada")
    as (_ & _ & Hcalls).
  split; [exact (proj1 (Hblank eq_refl))|].
  split; [exact (proj1 (Hmiss eq_refl Hbare))|].
  split; [exact (proj2 (Hmiss eq_refl Hbare))|].
  exact (Hcalls eq_refl Hsync).
Defined.

Definition blankJobs : ScrapeJobs.JobScrapingRequest :=
  {| ScrapeJobs.keywords := "   ";
     ScrapeJobs.req_location := None;
     ScrapeJobs.count := None |}.

Lemma job_scrape_guards_witness :
  ~ nonBlank (identity (ScrapeJobs.keywords blankJobs)) /\
  ~ jobsConfigured bareWorld /\
  events (ScrapeJobs.handleJobScraping identity "key" oneJobWorld blankJobs) = [] /\
  events (ScrapeJobs.handleJobScraping identity "key" bareWorld rustJobs)
    = [Fetch (mappingRequest "key")].
Proof.
  assert (Hblank : ~ nonBlank (identity (ScrapeJobs.keywords blankJobs)))
    by (intros [_ H]; discriminate H).
  assert (Hbare : ~ jobsConfigured bareWorld) by (intros [H _]; discriminate H).
  assert (Hq : nonBlank (identity (ScrapeJobs.keywords rustJobs))) by (split; reflexivity).
  split; [exact Hblank|]. split; [exact Hbare|].
  split.
  - exact (proj2 (proj1 (job_scrape_guards identity "key" oneJobWorld blankJobs) Hblank)).
  - exact (proj2 (proj2 (job_scrape_guards identity "key" bareWorld rustJobs) Hq Hbare)).
Defined.

Lemma sync_scrape_survives_index_failures_witness :
  initFails "key" noIndexWorld 0 /\
  indexRefuses noIndexWorld 2 /\
  exists jobs,
    answer (ScrapeJobs.handleJobScraping identity "key" noIndexWorld rustJobs)
      = Normal (SuccessResponse {| ScrapeJobs.data := jobs; ScrapeJobs.totalJobs := 1 |}) /\
    Forall2 (processed "United States") [rawJob] jobs.
Proof.
  assert (Hq : nonBlank (identity (ScrapeJobs.keywords rustJobs))) by (split; reflexivity).
  assert (Hj : jobsConfigured noIndexWorld) by (split; reflexivity).
  assert (Hne : [rawJob] <> []) by discriminate.
  split; [left; reflexivity|].
  split; [intros req; left; reflexivity|].
  destruct (sync_scrape_survives_index_failures identity "key" noIndexWorld rustJobs
              {| ok := true; status := 200; text := ""; json_body := Some [rawJob] |}
              [rawJob] Hq Hj eq_refl eq_refl eq_refl Hne)
    as (jobs & Hans & Hall & _).
  exists jobs. split; [exact Hans | exact Hall].
Defined.

(** The actor cannot be reached for a run. *)
Definition brokenRunWorld : World :=
  {| gemini := fun _ _ => unavailable;
     search := fun _ _ => unavailable;
     aggregate := fun _ _ => resolved JNull;
     elastic := fun _ _ => resolved JNull;
     jobItems := fun _ _ => unavailable;
     profileItems := fun _ _ => unavailable;
     runs := fun _ _ => Rejected (TypeError "fetch failed");
     env := configured;
     clock := fun _ => "2025-01-01T00:00:00.000Z";
     dice := fun _ => [Digit 0; Dot; Digit 5] |}.

Lemma job_scrape_throws_when_run_call_breaks_witness :
  nonBlank (identity (ScrapeJobs.keywords rustJobs)) /\
  jobsConfigured brokenRunWorld /\
  answer (ScrapeJobs.handleJobScraping identity "key" brokenRunWorld rustJobs)
    = Throw (ReferenceError "keywords is not defined").
Proof.
  assert (Hq : nonBlank (identity (ScrapeJobs.keywords rustJobs))) by (split; reflexivity).
  assert (Hj : jobsConfigured brokenRunWorld) by (split; reflexivity).
  split; [exact Hq|]. split; [exact Hj|].
  refine (proj1 (job_scrape_throws_when_run_call_breaks identity "key" brokenRunWorld
                   rustJobs Hq Hj _ I)).
  left. reflexivity.
Defined.

Lemma statistics_get_outcomes_witness :
  initFails "key" noIndexWorld 0 /\
  ~ initFails "key" oneJobWorld 0 /\
  aggregatedAt "key" oneJobWorld 1 JNull /\
  answer (JobStatistics.handleGetJobStatistics "key" noIndexWorld)
    = Normal (ErrorResponse "Elasticsearch connection failed" 500) /\
  answer (JobStatistics.handleGetJobStatistics "key" oneJobWorld)
    = Normal (SuccessResponse
                {| JobStatistics.statistics := JNull; JobStatistics.message := None |}).
Proof.
  assert (Hbad : initFails "key" noIndexWorld 0) by (left; reflexivity).
  assert (Hgood : ~ initFails "key" oneJobWorld 0) by (intros [H|H]; discriminate H).
  assert (Hagg : aggregatedAt "key" oneJobWorld 1 JNull).
  { eexists. repeat split; reflexivity. }
  split; [exact Hbad|]. split; [exact Hgood|]. split; [exact Hagg|].
  split.
  - exact (proj1 (proj1 (statistics_get_outcomes "key" noIndexWorld) Hbad)).
  - exact (proj1 (proj2 (proj2 (statistics_get_outcomes "key" oneJobWorld) Hgood))
             JNull Hagg).
Defined.

(** The index takes the mapping and then refuses every write; the search
    service aggregates. *)
Definition readOnlyWorld : World :=
  {| gemini := fun _ _ => unavailable;
     search := fun _ _ => unavailable;
     aggregate := fun _ _ => resolved (JObj [("total_jobs", JObj [("value", JInt 7)])]);
     elastic := fun n _ => if n =? 0 then resolved JNull else unavailable;
     jobItems := fun _ _ => resolved [rawJob];
     profileItems := fun _ _ => unavailable;
     runs := fun _ _ => unavailable;
     env := configured;
     clock := fun _ => "2025-01-01T00:00:00.000Z";
     dice := fun _ => [Digit 0; Dot; Digit 5] |}.

Definition defaultStatistics : JobStatistics.JobStatisticsRequest :=
  {| JobStatistics.keywords := None; JobStatistics.count := None |}.

Lemma failed_store_is_reported_as_progress_witness :
  ~ initFails "key" readOnlyWorld 0 /\
  jobsConfigured readOnlyWorld /\
  indexRefuses readOnlyWorld 2 /\
  answer (JobStatistics.handleJobStatistics identity "key" readOnlyWorld defaultStatistics)
    = Normal (SuccessResponse
                {| JobStatistics.statistics :=
                     JObj [("total_jobs", JObj [("value", JInt 7)])];
                   JobStatistics.message := Some progressMessage |}).
Proof.
  assert (Hgood : ~ initFails "key" readOnlyWorld 0) by (intros [H|H]; discriminate H).
  assert (Hj : jobsConfigured readOnlyWorld) by (split; reflexivity).
  assert (Hrefuse : indexRefuses readOnlyWorld 2) by (intros req; left; reflexivity).
  assert (Hne : [rawJob] <> []) by discriminate.
  split; [exact Hgood|]. split; [exact Hj|]. split; [exact Hrefuse|].
  refine (proj1 (failed_store_is_reported_as_progress identity "key" readOnlyWorld
                   defaultStatistics
                   {| ok := true; status := 200; text := ""; json_body := Some [rawJob] |}
                   [rawJob] _ Hgood Hj eq_refl eq_refl eq_refl Hne Hrefuse _)).
  eexists. repeat split; reflexivity.
Defined.

End ScrapeOutcomesExamples.

(** ** [POST /api/search-jobs]: what leaves the process *)

Section SearchCalls.
Import JS Json Types Eff SearchJobs.

Variable sanitizeInput : string -> string.
Variable W : World.

(** The request [vectorSearchJobs] would send. *)
Definition vectorSearchRequest (query : string) (numCandidates : Z) : request :=
  {| url := orStr (env W "ELASTICSEARCH_URL") "" ++ "/" ++ SearchJobs.indexName W
              ++ "/_search";
     method := "POST";
     headers := [("Authorization",
                  "ApiKey " ++ orStr (env W "ELASTICSEARCH_API_KEY") "");
                 ("Content-Type", "application/json")];
     body := Some (stringify (knnBody query numCandidates)) |}.

Definition asksLlm (req : request) : Prop :=
  exists prompt, req = geminiRequest W prompt.

Definition asksTextSearch (req : request) : Prop :=
  exists query, req = routeSearchRequest W query.

(** A step that makes at most one call, and that one to the LLM. *)
Definition llmOnly (t : list event) : Prop :=
  fetches t = [] \/ exists prompt, fetches t = [geminiRequest W prompt].

Definition searchOnly (t : list event) : Prop :=
  fetches t = [] \/ exists query, fetches t = [routeSearchRequest W query].

Lemma callGeminiAPI_trace prompt s :
  exists c s' t, callGeminiAPI W prompt s = (c, s', t) /\ llmOnly t.
Proof.
  destruct (callGeminiAPI_cases W prompt s) as (c & s' & sent & Hrun & Hsent & _).
  eexists _, _, _. split; [exact Hrun|].
  destruct Hsent as [-> | ->]; [left; reflexivity | right; eexists; reflexivity].
Qed.

Lemma shouldSearch_trace question profile s :
  exists c s' t,
    shouldSearchElasticsearch sanitizeInput W question profile s = (c, s', t) /\ llmOnly t.
Proof.
  unfold shouldSearchElasticsearch. unfold_eff.
  destruct (callGeminiAPI_trace (decidePrompt sanitizeInput question profile) s)
    as (c & s' & t & -> & Ht).
  destruct c; cbn [app]; eexists _, _, _; (split; [reflexivity|]);
    cbn [fetches]; rewrite ?app_nil_r; exact Ht.
Qed.

Lemma generateSearchQuery_trace question profile s :
  exists c s' t,
    generateSearchQuery sanitizeInput W question profile s = (c, s', t) /\ llmOnly t.
Proof.
  unfold generateSearchQuery. unfold_eff.
  destruct (callGeminiAPI_trace (queryPrompt sanitizeInput question profile) s)
    as (c & s' & t & -> & Ht).
  destruct c; cbn [app]; eexists _, _, _; (split; [reflexivity|]);
    cbn [fetches]; rewrite ?app_nil_r; exact Ht.
Qed.

Lemma generateFinalResponse_trace question profile found history s :
  exists c s' t,
    generateFinalResponse sanitizeInput W question profile found history s = (c, s', t) /\
    llmOnly t.
Proof.
  unfold generateFinalResponse. unfold_eff.
  destruct (callGeminiAPI_trace
              (composePrompt sanitizeInput question profile found history) s)
    as (c & s' & t & -> & Ht).
  destruct c; cbn [app]; eexists _, _, _; (split; [reflexivity|]);
    cbn [fetches]; rewrite ?app_nil_r; exact Ht.
Qed.

Lemma textSearchJobs_trace query s :
  exists c s' t, textSearchJobs W query s = (c, s', t) /\ searchOnly t.
Proof.
  unfold textSearchJobs, SearchJobs.elasticsearchRequest. unfold_eff.
  fold (routeSearchRequest W query).
  repeat (case_run; cbn [app]).
  all: eexists _, _, _; (split; [reflexivity|]).
  all: first [left; reflexivity | right; eexists; reflexivity].
Qed.

Ltac run_step :=
  match goal with
  | |- context [shouldSearchElasticsearch sanitizeInput W ?q ?p ?s] =>
      let H := fresh "Hllm" in
      destruct (shouldSearch_trace q p s) as (? & ? & ? & -> & H)
  | |- context [generateSearchQuery sanitizeInput W ?q ?p ?s] =>
      let H := fresh "Hllm" in
      destruct (generateSearchQuery_trace q p s) as (? & ? & ? & -> & H)
  | |- context [generateFinalResponse sanitizeInput W ?q ?p ?f ?h ?s] =>
      let H := fresh "Hllm" in
      destruct (generateFinalResponse_trace q p f h s) as (? & ? & ? & -> & H)
  | |- context [textSearchJobs W ?q ?s] =>
      let H := fresh "Hsearch" in
      destruct (textSearchJobs_trace q s) as (? & ? & ? & -> & H)
  end.

(** The bodies of the three kinds of request start differently. *)
Lemma knn_is_not_text_search query numCandidates other :
  vectorSearchRequest query numCandidates <> routeSearchRequest W other.
Proof.
  unfold vectorSearchRequest, routeSearchRequest. intros H.
  injection H as H. discriminate H.
Qed.

Lemma knn_is_not_llm query numCandidates prompt :
  vectorSearchRequest query numCandidates <> geminiRequest W prompt.
Proof.
  unfold vectorSearchRequest, geminiRequest. intros H.
  injection H as _ _ H. discriminate H.
Qed.

(** X18.  Whatever the request and the services, the POST handler makes at
    most four outbound calls, each to the LLM or a text search; it never
    sends the kNN request of [vectorSearchJobs], whatever
    [useVectorSearch] says. *)
Theorem job_search_outbound_calls (req : JobSearchRequest) :
  let sent := fetches (events (handleJobSearch sanitizeInput W req)) in
  length sent <= 4 /\
  Forall (fun r => asksLlm r \/ asksTextSearch r) sent /\
  forall query numCandidates, ~ In (vectorSearchRequest query numCandidates) sent.
Proof.
  cbv zeta.
  assert (Hmain :
    length (fetches (events (handleJobSearch sanitizeInput W req))) <= 4 /\
    Forall (fun r => asksLlm r \/ asksTextSearch r)
      (fetches (events (handleJobSearch sanitizeInput W req)))).
  { unfold events, handleJobSearch, pipeline. unfold_eff.
    repeat (first [run_step | case_run]; cbn [fst snd app]).
    all: rewrite ?fetches_app; cbn [fetches]; rewrite ?app_nil_r.
    all: repeat match goal with
         | H : llmOnly _ |- _ => destruct H as [H | [? H]]; try rewrite H; clear H
         | H : searchOnly _ |- _ => destruct H as [H | [? H]]; try rewrite H; clear H
         end.
    all: cbn [app length]; (split; [lia|]).
    all: repeat (first [apply Forall_nil | apply Forall_cons]).
    all: first [left; eexists; reflexivity | right; eexists; reflexivity]. }
  destruct Hmain as [Hlen Hall].
  split; [exact Hlen|]. split; [exact Hall|].
  intros query numCandidates Hin.
  rewrite Forall_forall in Hall.
  destruct (Hall _ Hin) as [[prompt E] | [other E]].
  - exact (knn_is_not_llm _ _ _ E).
  - exact (knn_is_not_text_search _ _ _ E).
Qed.

End SearchCalls.

(** ** The documents of a bulk write and the index mapping *)

Section Documents.
Import JS Json Types Eff EsLib.

Variable W : World.

Definition fieldsOf (j : json) : list (string * json) :=
  match j with
  | JObj fields => fields
  | _ => []
  end.

Definition keysOf (j : json) : list string := map fst (fieldsOf j).

(** The properties that the mapping of [initializeElasticsearchIndex]
    declares, and the dimension it gives the vector. *)
Definition declared : list string :=
  match prop "properties" indexMapping with
  | Some properties => keysOf properties
  | None => []
  end.

Definition declaredDims : option json :=
  match prop "properties" indexMapping with
  | Some properties =>
      match prop "vector" properties with
      | Some vector => prop "dims" vector
      | None => None
      end
  | None => None
  end.

Lemma object_keys props k :
  In k (map fst (object props)) -> In k (map fst props).
Proof.
  induction props as [|[k' [v|]] props IH]; simpl; [tauto| |]; intuition.
Qed.

Lemma object_keys_NoDup props :
  NoDup (map fst props) -> NoDup (map fst (object props)).
Proof.
  induction props as [|[k' [v|]] props IH]; simpl; intros H; [constructor| |].
  - inversion H as [|? ? Hnotin Hrest]; subst. constructor; [|exact (IH Hrest)].
    intros Hin. apply Hnotin. exact (object_keys _ _ Hin).
  - inversion H; subst. auto.
Qed.

Lemma lookup_object_app k ps qs :
  ~ In k (map fst ps) ->
  lookup k (object (ps ++ qs)) = lookup k (object qs).
Proof.
  induction ps as [|[k' [v|]] ps IH]; simpl; intros Hnotin; [reflexivity| |].
  - destruct (String.eqb_spec k k') as [->|Hne]; [exfalso; auto|]. apply IH. tauto.
  - apply IH. tauto.
Qed.

(** X19.  Every document of a bulk write fits the mapping: each of its
    properties is declared, none occurs twice, and its placeholder vector
    has as many components as the mapping's [dims]. *)
Theorem bulk_document_matches_mapping (j : ElasticsearchJobData) (s : state) :
  exists document s',
    bulkPair (R := unit) W j s = (Normal [actionLine; document], s', []) /\
    draws s' = 3 + draws s /\
    (forall k, In k (keysOf document) -> In k declared) /\
    NoDup (keysOf document) /\
    exists vector,
      prop "vector" document = Some (JArr (map JFloat vector)) /\
      declaredDims = Some (JInt (Z.of_nat (length vector))).
Proof.
  eexists _, _. split; [reflexivity|]. split; [reflexivity|].
  unfold documentLine, keysOf, fieldsOf.
  split; [|split].
  - intros k Hin. apply object_keys in Hin.
    rewrite map_app in Hin. cbn in Hin. cbn.
    intuition.
  - apply object_keys_NoDup. cbn.
    repeat (constructor; [cbn; intros H; intuition discriminate|]). constructor.
  - eexists. split.
    + cbn [prop]. rewrite lookup_object_app; [reflexivity|].
      cbn. intros H; intuition discriminate.
    + reflexivity.
Qed.

End Documents.

(* ===================================================================== *)
(** ** [components/ChatInterface.tsx]: the request of [handleSendMessage] *)
(* ===================================================================== *)

Module ChatInterface.
Import JS Json Types Eff.

(** [Message]; the [Date] of [timestamp] is kept as the string
    [toISOString] gives for it.  The [metadata] is not read here. *)
Record Message := {
  m_id : string;
  m_content : string;
  isUser : bool;
  m_timestamp : string }.

(** [userData] of the props. *)
Record UserData := {
  u_position : string;
  u_experienceLevel : string;
  u_linkedinUrl : string;
  u_linkedinData : option LinkedInProfileData }.

(** The callback of [.filter]: [msg.id !== '1']. *)
Definition notGreeting (msg : Message) : bool := negb (String.eqb (m_id msg) "1").

(** The callback of [.map]. *)
Definition turnOf (msg : Message) : ChatTurn :=
  {| role := if isUser msg then user else assistant;
     content := m_content msg;
     timestamp := m_timestamp msg |}.

(** [messages.filter(...).slice(-10).map(...)] *)
Definition chatHistory (messages : list Message) : list ChatTurn :=
  map turnOf (sliceLast 10 (filter notGreeting messages)).

(** What the route reads of [userProfile: userData]. *)
Definition profileOf (userData : UserData) : UserProfile :=
  {| position := u_position userData;
     experienceLevel := u_experienceLevel userData;
     linkedinData := u_linkedinData userData |}.

(** The body of the POST to [/api/search-jobs].  [messages] is the
    state the handler closed over: the new user message is not in it. *)
Definition searchRequest (userData : UserData) (messages : list Message)
    (currentInput : string) : SearchJobs.JobSearchRequest :=
  {| SearchJobs.query := currentInput;
     SearchJobs.userProfile := Some (profileOf userData);
     SearchJobs.useVectorSearch := Some true;
     SearchJobs.chatHistory := Some (chatHistory messages) |}.

End ChatInterface.

(** ** The conversation window, from the chat page to the prompt *)

Section HistoryWindow.
Import JS Json Types Eff SearchJobs.

Variable sanitizeInput : string -> string.
Variable W : World.

Lemma sliceLast_map {A B} (f : A -> B) n l :
  sliceLast n (map f l) = map f (sliceLast n l).
Proof. unfold sliceLast. rewrite length_map, skipn_map. reflexivity. Qed.

Lemma sliceLast_sliceLast {A} n m (l : list A) :
  n <= m -> sliceLast n (sliceLast m l) = sliceLast n l.
Proof.
  intros Hnm. unfold sliceLast. rewrite skipn_skipn, length_skipn.
  f_equal. lia.
Qed.

Lemma sliceLast_nil_iff {A} n (l : list A) :
  0 < n -> (length (sliceLast n l) = 0 <-> length l = 0).
Proof. intros Hn. unfold sliceLast. rewrite length_skipn. lia. Qed.

(** The same request with another history. *)
Definition withHistory (req : JobSearchRequest) (history : list ChatTurn)
  : JobSearchRequest :=
  {| query := query req;
     userProfile := userProfile req;
     useVectorSearch := useVectorSearch req;
     chatHistory := Some history |}.

(** The Compose prompt reads the history through its last six turns. *)
Lemma composePrompt_window question profile found history :
  composePrompt sanitizeInput question profile found history
  = composePrompt sanitizeInput question profile found (sliceLast 6 history).
Proof.
  unfold composePrompt, conversationContext, turnLines.
  rewrite (sliceLast_sliceLast 6 6 history) by lia.
  assert (E : (0 <? length (sliceLast 6 history)) = (0 <? length history)).
  { pose proof (sliceLast_nil_iff 6 history ltac:(lia)) as H.
    destruct (Nat.ltb_spec 0 (length (sliceLast 6 history)));
      destruct (Nat.ltb_spec 0 (length history)); try reflexivity; lia. }
  rewrite E. reflexivity.
Qed.

(** The handler reads the history through its last six turns. *)
Lemma handler_reads_last_six (req : JobSearchRequest) :
  let recent := sliceLast 6 (orArr (chatHistory req) []) in
  answer (handleJobSearch sanitizeInput W req)
    = answer (handleJobSearch sanitizeInput W (withHistory req recent)) /\
  fetches (events (handleJobSearch sanitizeInput W req))
    = fetches (events (handleJobSearch sanitizeInput W (withHistory req recent))).
Proof.
  cbv zeta. unfold answer, events, handleJobSearch, pipeline, generateFinalResponse.
  cbn [query userProfile chatHistory withHistory orArr].
  set (history := orArr (chatHistory req) []).
  unfold_eff.
  repeat (first [rewrite <- (composePrompt_window _ _ _ history) | case_run];
          cbn [fst snd app]).
  all: split; [reflexivity|].
  all: rewrite ?fetches_app; cbn [fetches]; rewrite ?fetches_app; reflexivity.
Qed.

(** X20.  The answer of the handler does not depend on the turns before the
    last six: dropping them from the request gives the same answer and
    the same outbound calls, whatever the services do. *)
Theorem old_turns_never_matter (req : JobSearchRequest) (older recent : list ChatTurn) :
  chatHistory req = Some (older ++ recent)%list ->
  length recent = 6 ->
  answer (handleJobSearch sanitizeInput W req)
    = answer (handleJobSearch sanitizeInput W (withHistory req recent)) /\
  fetches (events (handleJobSearch sanitizeInput W req))
    = fetches (events (handleJobSearch sanitizeInput W (withHistory req recent))).
Proof.
  intros Hhistory Hlen.
  pose proof (handler_reads_last_six req) as H. cbv zeta in H.
  rewrite Hhistory in H. cbn [orArr] in H.
  rewrite (sliceLast_app 6 older recent Hlen) in H.
  replace (sliceLast 6 recent) with recent in H; [exact H|].
  unfold sliceLast. rewrite Hlen. reflexivity.
Qed.

(** X21.  The chat page sends at most the last ten messages, the greeting
    never among them, and of those only the last six reach the answer:
    the handler answers as if it had been sent those six. *)
Theorem client_history_window
    (userData : ChatInterface.UserData) (messages : list ChatInterface.Message)
    (currentInput : string) :
  let req := ChatInterface.searchRequest userData messages currentInput in
  let kept := filter ChatInterface.notGreeting messages in
  length (ChatInterface.chatHistory messages) <= 10 /\
  (forall turn, In turn (ChatInterface.chatHistory messages) ->
     exists msg,
       In msg messages /\ ChatInterface.m_id msg <> "1" /\
       turn = ChatInterface.turnOf msg) /\
  answer (handleJobSearch sanitizeInput W req)
    = answer (handleJobSearch sanitizeInput W
                (withHistory req (map ChatInterface.turnOf (sliceLast 6 kept)))).
Proof.
  cbv zeta. split; [|split].
  - unfold ChatInterface.chatHistory. rewrite length_map. apply sliceLast_length.
  - unfold ChatInterface.chatHistory. intros turn Hin.
    apply in_map_iff in Hin. destruct Hin as (msg & <- & Hin).
    destruct (sliceLast_suffix 10 (filter ChatInterface.notGreeting messages))
      as (older & Holder).
    assert (Hkept : In msg (filter ChatInterface.notGreeting messages)).
    { rewrite Holder. apply in_or_app. right. exact Hin. }
    apply filter_In in Hkept. destruct Hkept as [Hmsg Hid].
    exists msg. split; [exact Hmsg|]. split; [|reflexivity].
    unfold ChatInterface.notGreeting in Hid. intros E. rewrite E in Hid. discriminate.
  - pose proof (handler_reads_last_six
                  (ChatInterface.searchRequest userData messages currentInput)) as [H _].
    cbn [chatHistory ChatInterface.searchRequest orArr] in H.
    unfold ChatInterface.chatHistory in H.
    rewrite sliceLast_map, sliceLast_sliceLast in H by lia.
    exact H.
Qed.

End HistoryWindow.

Section HistoryWindowExamples.
Import JS Json Types Eff SearchJobs.

Definition longAsk : JobSearchRequest :=
  {| query := "What should I learn next?";
     userProfile := None;
     useVectorSearch := Some true;
     chatHistory := Some longChat |}.

Lemma old_turns_never_matter_witness :
  length (skipn 2 longChat) = 6 /\
  answer (handleJobSearch identity chattyWorld longAsk)
    = answer (handleJobSearch identity chattyWorld (withHistory longAsk (skipn 2 longChat))).
Proof.
  split; [reflexivity|].
  exact (proj1 (old_turns_never_matter identity chattyWorld longAsk
                  (firstn 2 longChat) (skipn 2 longChat) eq_refl eq_refl)).
Defined.

End HistoryWindowExamples.

(* ===================================================================== *)
(** ** [lib/config.ts] *)
(* ===================================================================== *)

Module Config.
Import JS Json Types Eff.

(** [s.split(sep)] for a separator of one code unit. *)
Fixpoint split (sep : ascii) (s : string) : list string :=
  match s with
  | EmptyString => [EmptyString]
  | String c s' =>
      if Ascii.eqb c sep then EmptyString :: split sep s'
      else match split sep s' with
           | [] => [String c EmptyString]
           | first :: rest => String c first :: rest
           end
  end.

Definition required : list string :=
  ["APIFY_API_TOKEN"; "APIFY_ACTOR_ID"; "LINKEDIN_SCRAPER_ACTOR_ID";
   "ELASTICSEARCH_URL"; "ELASTICSEARCH_API_KEY"; "GEMINI_API_KEY"].

Section Lib.
Variable W : World.

(** [required.filter(key => !process.env[key])] *)
Definition missing : list string :=
  filter (fun key => negb (truthy (orStr (env W key) ""))) required.

(** [validateConfig()] *)
Definition validateConfig : M bool bool :=
  if 0 <? length missing then
    throw (Error ("Missing required environment variables: " ++ join ", " missing))
  else return_ true.

(** [config.security.allowedOrigins] *)
Definition allowedOrigins : list string :=
  match env W "ALLOWED_ORIGINS" with
  | Some list => split "," list
  | None => ["http://localhost:3000"]
  end.

(** [config.gemini.apiUrl] *)
Definition geminiApiUrl : string :=
  orStr (env W "GEMINI_API_URL")
    "https://generativelanguage.googleapis.com/v1beta/models/gemini-2.0-flash:generateContent".

(** [corsConfig.origin(origin)] *)
Definition corsOrigin (origin : option string) : bool :=
  match origin with
  | None | Some EmptyString => true
  | Some origin => existsb (String.eqb origin) allowedOrigins
  end.

End Lib.
End Config.

(** ** What a validated configuration covers *)

Section ValidatedConfig.
Import JS Json Types Eff SearchJobs.

Variable sanitizeInput : string -> string.
Variable W : World.

Definition isSet (key : string) : Prop := truthy (orStr (env W key) "") = true.

Lemma validateConfig_passes :
  answer (Config.validateConfig W) = Normal true ->
  Forall isSet Config.required.
Proof.
  unfold answer, Config.validateConfig, Config.missing, Config.required, isSet.
  cbn [filter].
  repeat match goal with
         | |- context [truthy ?s] =>
             lazymatch s with
             | orStr _ _ => destruct (truthy s) eqn:?; cbn [negb length Nat.ltb Nat.leb]
             end
         end.
  all: unfold_eff; cbn; intros H; try discriminate H.
  repeat constructor; assumption.
Qed.

(** X22.  A configuration that [validateConfig] accepts has the credentials of
    both scrapers and of the search service, and the key of the LLM; it
    need not have the LLM's address, which the search route reads from
    the environment and not from [config].  Then the route answers every
    question with its apology and calls nothing. *)
Theorem validated_config_misses_the_llm_address :
  answer (Config.validateConfig W) = Normal true ->
  jobsConfigured W /\ profilesConfigured W /\ esConfigured W /\
  truthy (orStr (env W "GEMINI_API_KEY") "") = true /\
  truthy (Config.geminiApiUrl W) = true /\
  (env W "GEMINI_API_URL" = None ->
   forall req : JobSearchRequest,
     nonBlank (sanitizeInput (query req)) ->
     answer (handleJobSearch sanitizeInput W req)
       = Normal (SuccessResponse
                   {| jobs := []; aiResponse := Some fallbackAnswer; totalHits := 0 |}) /\
     fetches (events (handleJobSearch sanitizeInput W req)) = []).
Proof.
  intros Hvalid. apply validateConfig_passes in Hvalid.
  unfold Config.required in Hvalid.
  repeat match goal with
         | H : Forall _ (_ :: _) |- _ => inversion H; clear H; subst
         end.
  unfold isSet in *.
  split; [split; assumption|]. split; [split; assumption|]. split; [split; assumption|].
  split; [assumption|].
  split.
  { unfold Config.geminiApiUrl. destruct (env W "GEMINI_API_URL") as [[|c s]|]; reflexivity. }
  intros Hurl req [Htruthy Hblank].
  assert (Hno : ~ geminiConfigured W).
  { intros [_ H]. rewrite Hurl in H. discriminate H. }
  destruct (callGeminiAPI_cases W
              (decidePrompt sanitizeInput (sanitizeInput (query req)) (userProfile req)) start)
    as (c & s1 & sent & Hrun & _ & _ & _ & Hnone).
  destruct (Hnone Hno) as [-> ->].
  unfold answer, events, handleJobSearch, pipeline, shouldSearchElasticsearch.
  rewrite Htruthy, Hblank. cbn [negb orb].
  unfold_eff. rewrite Hrun. cbn [app fst snd]. split; reflexivity.
Qed.

End ValidatedConfig.

Section ValidatedConfigExamples.
Import JS Json Types Eff SearchJobs.

(** All six required variables are set; [GEMINI_API_URL] is not. *)
Definition validatedWorld : World :=
  {| gemini := fun n _ => llmScript n;
     search := fun _ _ => resolved (Some [oneHit]);
     aggregate := fun _ _ => unavailable;
     elastic := fun _ _ => unavailable;
     jobItems := fun _ _ => unavailable;
     profileItems := fun _ _ => unavailable;
     runs := fun _ _ => unavailable;
     env := fun key => if existsb (String.eqb key) Config.required
                       then Some ("<" ++ key ++ ">") else None;
     clock := fun _ => "2025-01-01T00:00:00.000Z";
     dice := fun _ => [Digit 0; Dot; Digit 5] |}.

Lemma validated_config_misses_the_llm_address_witness :
  answer (Config.validateConfig validatedWorld) = Normal true /\
  env validatedWorld "GEMINI_API_URL" = None /\
  answer (handleJobSearch identity validatedWorld ask)
    = Normal (SuccessResponse
                {| jobs := []; aiResponse := Some fallbackAnswer; totalHits := 0 |}).
Proof.
  assert (Hvalid : answer (Config.validateConfig validatedWorld) = Normal true)
    by reflexivity.
  split; [exact Hvalid|]. split; [reflexivity|].
  destruct (validated_config_misses_the_llm_address identity validatedWorld Hvalid)
    as (_ & _ & _ & _ & _ & Hroute).
  exact (proj1 (Hroute eq_refl ask ask_nonBlank)).
Defined.

End ValidatedConfigExamples.

(** ** The origins that [corsConfig] lets in *)

Section Cors.
Import JS Json Types Eff.

Variable W : World.

Definition comma : ascii := ","%char.

Fixpoint hasChar (c : ascii) (s : string) : bool :=
  match s with
  | EmptyString => false
  | String c' s' => Ascii.eqb c' c || hasChar c s'
  end.

Lemma split_not_nil sep s : Config.split sep s <> [].
Proof.
  destruct s as [|c s]; simpl; [discriminate|].
  destruct (Ascii.eqb c sep); [discriminate|].
  destruct (Config.split sep s); discriminate.
Qed.

Lemma join_cons_char sep c x rest :
  join sep (String c x :: rest) = String c (join sep (x :: rest)).
Proof. destruct rest; reflexivity. Qed.

(** Joining the pieces of a split with the separator gives the string
    back, and no piece contains the separator. *)
Lemma split_join s : join "," (Config.split comma s) = s.
Proof.
  induction s as [|c s IH]; [reflexivity|].
  cbn [Config.split]. destruct (Ascii.eqb_spec c comma) as [->|Hne].
  - pose proof (split_not_nil comma s) as Hnil.
    destruct (Config.split comma s) as [|x rest]; [contradiction|].
    cbn [join] in *. rewrite IH. reflexivity.
  - pose proof (split_not_nil comma s) as Hnil.
    destruct (Config.split comma s) as [|x rest]; [contradiction|].
    rewrite join_cons_char, IH. reflexivity.
Qed.

Lemma split_pieces s : Forall (fun piece => hasChar comma piece = false) (Config.split comma s).
Proof.
  induction s as [|c s IH]; [repeat constructor|].
  cbn [Config.split]. destruct (Ascii.eqb c comma) eqn:E.
  - constructor; [reflexivity | exact IH].
  - destruct (Config.split comma s) as [|x rest]; [repeat constructor; simpl; now rewrite E|].
    inversion IH; subst. constructor; [simpl; rewrite E; assumption | assumption].
Qed.

(** X23.  A request without an origin passes.  One with an origin passes
    exactly when the origin is one of the allowed entries as written:
    the pieces of [ALLOWED_ORIGINS] between its commas, nothing trimmed,
    or [http://localhost:3000] alone when the variable is not set. *)
Theorem cors_origin_is_exact_match :
  Config.corsOrigin W None = true /\
  Config.corsOrigin W (Some "") = true /\
  (forall origin, origin <> "" ->
     (Config.corsOrigin W (Some origin) = true <-> In origin (Config.allowedOrigins W))) /\
  (forall list, env W "ALLOWED_ORIGINS" = Some list ->
     join "," (Config.allowedOrigins W) = list /\
     Forall (fun entry => hasChar comma entry = false) (Config.allowedOrigins W)) /\
  (env W "ALLOWED_ORIGINS" = None ->
     Config.allowedOrigins W = ["http://localhost:3000"]).
Proof.
  split; [reflexivity|]. split; [reflexivity|]. split; [|split].
  - intros origin Hne. destruct origin as [|c origin]; [contradiction|].
    cbn [Config.corsOrigin]. rewrite existsb_exists. split.
    + intros (entry & Hin & Heq). apply String.eqb_eq in Heq. subst. exact Hin.
    + intros Hin. eexists. split; [exact Hin | apply String.eqb_refl].
  - intros list Hlist. unfold Config.allowedOrigins. rewrite Hlist.
    split; [apply split_join | apply split_pieces].
  - intros Hnone. unfold Config.allowedOrigins. rewrite Hnone. reflexivity.
Qed.

End Cors.

Section CorsExamples.
Import JS Json Types Eff.

(** Two origins, written with a space after the comma. *)
Definition spacedWorld : World :=
  {| gemini := fun _ _ => unavailable;
     search := fun _ _ => unavailable;
     aggregate := fun _ _ => unavailable;
     elastic := fun _ _ => unavailable;
     jobItems := fun _ _ => unavailable;
     profileItems := fun _ _ => unavailable;
     runs := fun _ _ => unavailable;
     env := fun key => if String.eqb key "ALLOWED_ORIGINS"
                       then Some "https://a.example, https://b.example" else None;
     clock := fun _ => "2025-01-01T00:00:00.000Z";
     dice := fun _ => [Digit 0; Dot; Digit 5] |}.

Lemma cors_origin_is_exact_match_witness :
  Config.corsOrigin spacedWorld (Some "https://a.example") = true /\
  Config.corsOrigin spacedWorld (Some "https://b.example") = false /\
  Config.corsOrigin spacedWorld (Some " https://b.example") = true.
Proof.
  destruct (cors_origin_is_exact_match spacedWorld) as (_ & _ & Hiff & _).
  split; [apply (Hiff "https://a.example"); [discriminate | left; reflexivity]|].
  split; [reflexivity|].
  apply (Hiff " https://b.example"); [discriminate | right; left; reflexivity].
Defined.

End CorsExamples.

(* ===================================================================== *)
(** ** [lib/linkedin-utils.ts] *)
(* ===================================================================== *)

Module LinkedinUtils.
Import JS Json Types.
Import QArith_base.
Local Open Scope string_scope.
Local Open Scope nat_scope.

(** The entries of the detailed sections, as the interfaces of
    [lib/types.ts] declare them; only what the functions read. *)
Record SubComponent := {
  sc_title : option string }.

Record LinkedInExperience := {
  x_title : option string;
  x_breakdown : option bool;
  x_subComponents : option (list SubComponent) }.

Record LinkedInSkill := {
  sk_title : option string }.

Record LinkedInCertificate := {
  ce_title : option string }.

(** What [analyzeLinkedInProfile] reads of [LinkedInProfileData].  A
    duration may be fractional: it is a rational. *)
Record Profile := {
  about : option string;
  connections : option Z;
  companyIndustry : option string;
  currentJobDurationInYrs : option Q;
  experiences : option (list LinkedInExperience);
  skills : option (list LinkedInSkill);
  licenseAndCertificates : option (list LinkedInCertificate) }.

Record Insights := {
  experienceLevel : string;
  keySkills : list string;
  careerProgression : list string;
  strengths : list string;
  recommendations : list string;
  industryExpertise : string;
  leadershipExperience : bool;
  certifications : list string }.

(** [s.includes(sub)] *)
Fixpoint includes (sub s : string) : bool :=
  String.prefix sub s ||
  match s with
  | EmptyString => false
  | String _ s' => includes sub s'
  end.

(** A value in a template literal: [undefined] prints as its name. *)
Definition shown (x : option string) : string :=
  match x with
  | Some s => s
  | None => "undefined"
  end.

(** Truthiness of a possibly undefined number. *)
Definition truthyQ (x : option Q) : bool :=
  match x with
  | Some q => negb (Qeq_bool q (inject_Z 0))
  | None => false
  end.

Definition truthyZ (x : option Z) : bool :=
  match x with
  | Some z => negb (z =? 0)%Z
  | None => false
  end.

Definition isTrue (x : option bool) : bool :=
  match x with
  | Some b => b
  | None => false
  end.

Definition isArray {A} (x : option (list A)) : bool :=
  match x with
  | Some _ => true
  | None => false
  end.

(** [a.filter(Boolean)] on strings *)
Definition filterBoolean (l : list string) : list string := filter truthy l.

(** [estimateYearsOfExperience(experience)] *)
Definition estimateYearsOfExperience {A} (experience : list A) : Z :=
  Z.min (Z.of_nat (length experience) * 2) 15.

(** [exp.subComponents[0]?.title] *)
Definition firstTitle (exp : LinkedInExperience) : option string :=
  match orArr (x_subComponents exp) [] with
  | first :: _ => sc_title first
  | [] => None
  end.

(** The callback of [experiences.slice(0, 3).map]. *)
Definition progressionLine (exp : LinkedInExperience) : string :=
  if isTrue (x_breakdown exp) && isArray (x_subComponents exp)
     && (0 <? length (orArr (x_subComponents exp) []))
  then shown (firstTitle exp) ++ " at " ++ shown (x_title exp)
  else shown (x_title exp).

(** The callback of [experiences.some]. *)
Definition leads (exp : LinkedInExperience) : bool :=
  let title :=
    if isTrue (x_breakdown exp) && isArray (x_subComponents exp) then
      orStr (option_map toLowerCase (firstTitle exp)) ""
    else orStr (option_map toLowerCase (x_title exp)) "" in
  includes "lead" title || includes "manager" title || includes "director" title
    || includes "head" title.

(** [analyzeLinkedInProfile(profileData)] *)
Definition analyzeLinkedInProfile (profileData : Profile) : Insights :=
  let experienceLevel :=
    if truthyQ (currentJobDurationInYrs profileData) then
      let totalExperience :=
        match currentJobDurationInYrs profileData with Some q => q | None => inject_Z 0 end in
      if Qle_bool totalExperience (inject_Z 2) then "junior"
      else if Qle_bool totalExperience (inject_Z 5) then "middle"
      else "senior"
    else
      match experiences profileData with
      | Some (exp :: rest) =>
          let totalExperience := estimateYearsOfExperience (exp :: rest) in
          if (totalExperience <=? 2)%Z then "junior"
          else if (totalExperience <=? 5)%Z then "middle"
          else "senior"
      | _ => ""
      end in
  let keySkills :=
    match skills profileData with
    | Some (skill :: rest) =>
        filterBoolean (map (fun skill => orStr (sk_title skill) "")
                         (sliceTo 10 (skill :: rest)))
    | _ => []
    end in
  let careerProgression :=
    match experiences profileData with
    | Some (exp :: rest) =>
        filterBoolean (map progressionLine (sliceTo 3 (exp :: rest)))
    | _ => []
    end in
  let leadershipExperience :=
    match experiences profileData with
    | Some exps => existsb leads exps
    | None => false
    end in
  let certifications :=
    match licenseAndCertificates profileData with
    | Some (cert :: rest) =>
        filterBoolean (map (fun cert => orStr (ce_title cert) "") (cert :: rest))
    | _ => []
    end in
  let industryExpertise := orStr (companyIndustry profileData) "" in
  let strengths :=
    ((if truthy (orStr (about profileData) "")
         && (100 <? String.length (orStr (about profileData) ""))
      then ["Strong professional summary with detailed experience"] else [])
     ++ (if truthyZ (connections profileData)
            && (500 <? match connections profileData with Some z => z | None => 0 end)%Z
         then ["Strong professional network"] else [])
     ++ (if isArray (skills profileData)
            && (15 <? length (orArr (skills profileData) []))
         then ["Diverse and comprehensive skill set"] else [])
     ++ (if leadershipExperience then ["Demonstrated leadership experience"] else [])
     ++ (if 0 <? length certifications
         then ["Professional certifications and continuous learning"] else []))%list in
  let recommendations :=
    ((if isArray (skills profileData)
         && (length (orArr (skills profileData) []) <? 10)
      then ["Consider adding more skills to showcase your expertise"] else [])
     ++ (if negb (truthy (orStr (about profileData) ""))
            || (String.length (orStr (about profileData) "") <? 200)
         then ["Enhance your profile summary with more detailed professional background"]
         else [])
     ++ (if isArray (experiences profileData)
            && (length (orArr (experiences profileData) []) <? 3)
         then ["Consider adding more detailed work experience descriptions"] else [])
     ++ (if negb leadershipExperience && String.eqb experienceLevel "senior"
         then ["Highlight any leadership or mentoring experience you have"] else []))%list in
  {| experienceLevel := experienceLevel;
     keySkills := keySkills;
     careerProgression := careerProgression;
     strengths := strengths;
     recommendations := recommendations;
     industryExpertise := industryExpertise;
     leadershipExperience := leadershipExperience;
     certifications := certifications |}.

End LinkedinUtils.

(** ** What the profile analysis concludes *)

Section LinkedinInsights.
Import JS Json Types LinkedinUtils.
Import QArith_base.
Local Open Scope string_scope.
Local Open Scope nat_scope.

Definition summaryStrength : string :=
  "Strong professional summary with detailed experience".
Definition summaryAdvice : string :=
  "Enhance your profile summary with more detailed professional background".
Definition leadershipStrength : string := "Demonstrated leadership experience".
Definition leadershipAdvice : string :=
  "Highlight any leadership or mentoring experience you have".
Definition skillsStrength : string := "Diverse and comprehensive skill set".
Definition skillsAdvice : string :=
  "Consider adding more skills to showcase your expertise".

(** X24.  The level follows the duration of the current job when there is one
    and it is not zero, whatever the list of experiences says: junior up
    to 2 years, middle up to 5, senior above.  Otherwise it follows the
    number of experiences alone: one is junior, two are middle, three or
    more are senior; the cap of 15 years in the estimate never decides. *)
Theorem experience_level_thresholds (p : Profile) :
  let level := experienceLevel (analyzeLinkedInProfile p) in
  (forall years, currentJobDurationInYrs p = Some years -> ~ Qeq years (inject_Z 0) ->
     (level = "junior" <-> Qle years (inject_Z 2)) /\
     (level = "middle" <-> Qlt (inject_Z 2) years /\ Qle years (inject_Z 5)) /\
     (level = "senior" <-> Qlt (inject_Z 5) years)) /\
  (truthyQ (currentJobDurationInYrs p) = false ->
     (forall roles, experiences p = Some roles ->
        (level = "junior" <-> length roles = 1) /\
        (level = "middle" <-> length roles = 2) /\
        (level = "senior" <-> 3 <= length roles) /\
        (level = "" <-> roles = [])) /\
     (experiences p = None -> level = "")).
Proof.
  cbv zeta. unfold analyzeLinkedInProfile. cbn [experienceLevel]. split.
  - intros years Hyears Hnonzero. rewrite Hyears. cbn [truthyQ].
    assert (E : Qeq_bool years (inject_Z 0) = false).
    { destruct (Qeq_bool years (inject_Z 0)) eqn:E; [|reflexivity].
      exfalso. apply Hnonzero. apply Qeq_bool_iff. exact E. }
    rewrite E. cbn [negb].
    destruct (Qle_bool years (inject_Z 2)) eqn:E2.
    + apply Qle_bool_iff in E2.
      split; [tauto|]. split.
      * split; [discriminate|]. intros [Hlt _]. exfalso.
        exact (Qlt_not_le _ _ Hlt E2).
      * split; [discriminate|]. intros Hlt. exfalso.
        apply (Qlt_not_le _ _ Hlt). eapply Qle_trans; [exact E2|]. discriminate.
    + assert (H2 : Qlt (inject_Z 2) years).
      { apply Qnot_le_lt. intros H. apply Qle_bool_iff in H. congruence. }
      destruct (Qle_bool years (inject_Z 5)) eqn:E5.
      * apply Qle_bool_iff in E5.
        split; [split; [discriminate|]; intros H; exfalso; exact (Qlt_not_le _ _ H2 H)|].
        split; [tauto|].
        split; [discriminate|]. intros Hlt. exfalso. exact (Qlt_not_le _ _ Hlt E5).
      * assert (H5 : Qlt (inject_Z 5) years).
        { apply Qnot_le_lt. intros H. apply Qle_bool_iff in H. congruence. }
        split; [split; [discriminate|]; intros H; exfalso; exact (Qlt_not_le _ _ H2 H)|].
        split; [split; [discriminate|]; intros [_ H]; exfalso; exact (Qlt_not_le _ _ H5 H)|].
        tauto.
  - intros Hfalsy. rewrite Hfalsy. split.
    + intros roles Hroles. rewrite Hroles.
      destruct roles as [|r1 [|r2 [|r3 roles]]].
      * repeat split; try discriminate; try reflexivity; cbn; lia.
      * cbn. repeat split; try discriminate; try reflexivity; try congruence; lia.
      * cbn. repeat split; try discriminate; try reflexivity; try congruence; lia.
      * unfold estimateYearsOfExperience.
        assert (E2 : (Z.min (Z.of_nat (length (r1 :: r2 :: r3 :: roles)) * 2) 15 <=? 2)%Z
                     = false) by (apply Z.leb_gt; cbn [length]; lia).
        assert (E5 : (Z.min (Z.of_nat (length (r1 :: r2 :: r3 :: roles)) * 2) 15 <=? 5)%Z
                     = false) by (apply Z.leb_gt; cbn [length]; lia).
        rewrite E2, E5. cbn [length].
        repeat split; try discriminate; try reflexivity; try congruence; lia.
    + intros Hnone. rewrite Hnone. reflexivity.
Qed.

Lemma filterBoolean_In l s : In s (filterBoolean l) <-> In s l /\ s <> "".
Proof.
  unfold filterBoolean. rewrite filter_In. split; intros [H1 H2]; split; auto.
  - intros ->. discriminate.
  - destruct s; [contradiction | reflexivity].
Qed.

Lemma filterBoolean_length l : length (filterBoolean l) <= length l.
Proof. apply filter_length_le. Qed.

Lemma orStr_title (x : option string) s : s <> "" -> s = orStr x "" -> x = Some s.
Proof.
  intros Hne E. destruct x as [[|c t]|]; cbn in E; subst; try contradiction; reflexivity.
Qed.

(** X25.  The lists of the analysis are short and come from the profile: at
    most 10 key skills, each the non-empty title of one of the first 10
    skills; at most 3 steps of career progression; every certification
    the non-empty title of a certificate; at most 5 strengths and 4
    recommendations, none of them twice. *)
Theorem insight_lists_are_bounded (p : Profile) :
  let insights := analyzeLinkedInProfile p in
  length (keySkills insights) <= 10 /\
  (forall skill, In skill (keySkills insights) ->
     skill <> "" /\
     exists entry, In entry (firstn 10 (orArr (skills p) [])) /\ sk_title entry = Some skill) /\
  length (careerProgression insights) <= 3 /\
  (forall title, In title (certifications insights) ->
     title <> "" /\
     exists entry,
       In entry (orArr (licenseAndCertificates p) []) /\ ce_title entry = Some title) /\
  length (strengths insights) <= 5 /\
  length (recommendations insights) <= 4 /\
  NoDup (strengths insights) /\
  NoDup (recommendations insights).
Proof.
  cbv zeta. unfold analyzeLinkedInProfile.
  cbn [keySkills careerProgression certifications strengths recommendations].
  split; [|split; [|split; [|split; [|split; [|split; [|split]]]]]].
  - destruct (skills p) as [[|sk rest]|]; cbn [length]; try lia.
    etransitivity; [apply filterBoolean_length|].
    rewrite length_map. apply sliceTo_length.
  - intros skill Hin. destruct (skills p) as [[|sk rest]|]; try contradiction.
    apply filterBoolean_In in Hin. destruct Hin as [Hin Hne].
    split; [exact Hne|].
    apply in_map_iff in Hin. destruct Hin as (entry & E & Hin).
    exists entry. split; [exact Hin|]. apply orStr_title; [exact Hne | symmetry; exact E].
  - destruct (experiences p) as [[|ex rest]|]; cbn [length]; try lia.
    etransitivity; [apply filterBoolean_length|].
    rewrite length_map. apply sliceTo_length.
  - intros title Hin. destruct (licenseAndCertificates p) as [[|ce rest]|]; try contradiction.
    apply filterBoolean_In in Hin. destruct Hin as [Hin Hne].
    split; [exact Hne|].
    apply in_map_iff in Hin. destruct Hin as (entry & E & Hin).
    exists entry. split; [exact Hin|]. apply orStr_title; [exact Hne | symmetry; exact E].
  - rewrite !length_app.
    repeat match goal with
           | |- context [length (if ?c then _ else _)] => destruct c
           end; cbn [length]; lia.
  - rewrite !length_app.
    repeat match goal with
           | |- context [length (if ?c then _ else _)] => destruct c
           end; cbn [length]; lia.
  - repeat match goal with
           | |- context [if ?c then [_] else []] => destruct c
           end; cbn [app].
    all: repeat (constructor; [cbn; intros H; intuition discriminate|]); constructor.
  - repeat match goal with
           | |- context [if ?c then [_] else []] => destruct c
           end; cbn [app].
    all: repeat (constructor; [cbn; intros H; intuition discriminate|]); constructor.
Qed.

Lemma In_when (c : bool) (x y : string) :
  In x (if c then [y] else []) <-> c = true /\ String.eqb y x = true.
Proof.
  destruct c; cbn; rewrite ?String.eqb_eq; intuition discriminate.
Qed.

(** X26.  The advice on leadership and on skills never contradicts the
    strengths.  The advice on the summary does: a summary of more than
    100 and fewer than 200 characters is named a strength and, in the same
    analysis, something to enhance; and in no other case. *)
Theorem advice_contradicts_itself_only_on_the_summary (p : Profile) :
  let insights := analyzeLinkedInProfile p in
  let summary := String.length (orStr (about p) "") in
  (In leadershipStrength (strengths insights) <-> leadershipExperience insights = true) /\
  ~ (In leadershipStrength (strengths insights) /\
     In leadershipAdvice (recommendations insights)) /\
  ~ (In skillsStrength (strengths insights) /\
     In skillsAdvice (recommendations insights)) /\
  (In summaryStrength (strengths insights) /\ In summaryAdvice (recommendations insights)
   <-> 100 < summary < 200).
Proof.
  cbv zeta. unfold analyzeLinkedInProfile.
  cbn [strengths recommendations leadershipExperience].
  set (leadership := match experiences p with
                     | Some exps => existsb leads exps
                     | None => false
                     end).
  set (level := if truthyQ (currentJobDurationInYrs p) then _ else _).
  set (certs := match licenseAndCertificates p with Some (_ :: _) => _ | _ => [] end).
  unfold leadershipStrength, leadershipAdvice, skillsStrength, skillsAdvice,
    summaryStrength, summaryAdvice.
  rewrite !in_app_iff, !In_when.
  cbn [String.eqb Ascii.eqb Bool.eqb].
  clearbody certs.
  destruct leadership.
  - clearbody level.
    split; [intuition discriminate|]. split; [intuition discriminate|].
    split.
    + destruct (isArray (skills p)); cbn [andb]; [|intuition discriminate].
      destruct (Nat.ltb_spec 15 (length (orArr (skills p) [])));
        destruct (Nat.ltb_spec (length (orArr (skills p) [])) 10);
        try lia; intuition discriminate.
    + destruct (truthy (orStr (about p) "")) eqn:Ht; cbn [andb orb negb].
      * destruct (Nat.ltb_spec 100 (String.length (orStr (about p) "")));
          destruct (Nat.ltb_spec (String.length (orStr (about p) "")) 200);
          split; intros; try lia; intuition (try discriminate; try lia).
      * destruct (orStr (about p) ""); [|discriminate Ht].
        cbn. split; intros; [intuition discriminate | lia].
  - clearbody level.
    split; [intuition discriminate|]. split; [intuition discriminate|].
    split.
    + destruct (isArray (skills p)); cbn [andb]; [|intuition discriminate].
      destruct (Nat.ltb_spec 15 (length (orArr (skills p) [])));
        destruct (Nat.ltb_spec (length (orArr (skills p) [])) 10);
        try lia; intuition discriminate.
    + destruct (truthy (orStr (about p) "")) eqn:Ht; cbn [andb orb negb].
      * destruct (Nat.ltb_spec 100 (String.length (orStr (about p) "")));
          destruct (Nat.ltb_spec (String.length (orStr (about p) "")) 200);
          split; intros; try lia; intuition (try discriminate; try lia).
      * destruct (orStr (about p) ""); [|discriminate Ht].
        cbn. split; intros; [intuition discriminate | lia].
Qed.

End LinkedinInsights.

Section LinkedinInsightsExamples.
Import JS Json Types LinkedinUtils.
Import QArith_base.
Local Open Scope string_scope.
Local Open Scope nat_scope.

Definition heldRole (title : string) : LinkedInExperience :=
  {| x_title := Some title; x_breakdown := None; x_subComponents := None |}.

(** Eighteen months in the current job, after four earlier ones. *)
Definition newHire : Profile :=
  {| about := None; connections := Some 120%Z; companyIndustry := Some "Software";
     currentJobDurationInYrs := Some (Qmake 3 2);
     experiences := Some [heldRole "Engineer"; heldRole "Engineer"; heldRole "Analyst";
                          heldRole "Intern"; heldRole "Clerk"];
     skills := None; licenseAndCertificates := None |}.

(** No duration given; two roles. *)
Definition twoRoles : Profile :=
  {| about := None; connections := None; companyIndustry := None;
     currentJobDurationInYrs := None;
     experiences := Some [heldRole "Team Lead"; heldRole "Engineer"];
     skills := None; licenseAndCertificates := None |}.

Lemma experience_level_thresholds_witness :
  ~ Qeq (Qmake 3 2) (inject_Z 0) /\
  Qle (Qmake 3 2) (inject_Z 2) /\
  experienceLevel (analyzeLinkedInProfile newHire) = "junior" /\
  experienceLevel (analyzeLinkedInProfile twoRoles) = "middle".
Proof.
  assert (Hnonzero : ~ Qeq (Qmake 3 2) (inject_Z 0)) by discriminate.
  assert (Hle : Qle (Qmake 3 2) (inject_Z 2)) by discriminate.
  split; [exact Hnonzero|]. split; [exact Hle|]. split.
  - destruct (experience_level_thresholds newHire) as [Hyears _].
    destruct (Hyears (Qmake 3 2) eq_refl Hnonzero) as (Hjunior & _ & _).
    apply Hjunior. exact Hle.
  - destruct (experience_level_thresholds twoRoles) as [_ Hroles].
    destruct (Hroles eq_refl) as [Hcount _].
    destruct (Hcount _ eq_refl) as (_ & Hmiddle & _ & _).
    apply Hmiddle. reflexivity.
Defined.

End LinkedinInsightsExamples.

(** ** A scrape that the first poll completes *)

Section PolledScrape.
Import JS Json Types Eff.

Variable sanitizeInput : string -> string.
Variable ELASTICSEARCH_API_KEY : string.
Variable W : World.

Lemma jobs_pollLoop_S left actor token runId location :
  ScrapeJobs.pollLoop W (S left) actor token runId location
  = bind (ScrapeJobs.pollOnce W actor token runId location)
      (fun step =>
         match step with
         | ScrapeJobs.Break jobData => ret (Some jobData)
         | ScrapeJobs.Continue => ScrapeJobs.pollLoop W left actor token runId location
         end).
Proof. reflexivity. Qed.

(** A turn whose call for the items is answered with a non-empty
    dataset ends the loop with the processed jobs. *)
Lemma jobs_pollOnce_finds actor token runId location s r results :
  jobItems W (calls s) (ScrapeJobs.itemsRequest actor token runId) = Resolved r ->
  ok r = true -> json_body r = Some results -> results <> [] ->
  exists jobs s',
    ScrapeJobs.pollOnce W actor token runId location s
      = (Normal (ScrapeJobs.Break jobs), s',
         [Sleep 5000; Fetch (ScrapeJobs.itemsRequest actor token runId)]) /\
    calls s' = S (calls s) /\ draws s' = draws s /\
    Forall2 (processed location) results jobs.
Proof.
  intros Hitems Hok Hbody Hne.
  unfold ScrapeJobs.pollOnce. unfold_eff.
  rewrite Hitems. cbv beta iota zeta. rewrite Hok, Hbody.
  destruct results as [|raw results]; [contradiction|].
  match goal with
  | |- context [@mapM ?R _ _ (ScrapeJobs.processJob W ?l) ?rs ?s1] =>
      destruct (processJobs_run W (R := R) l rs s1) as (jobs & s2 & Hm & Hc & Hd & Hall);
      rewrite Hm
  end.
  cbn [app]. exists jobs, s2. split; [reflexivity|].
  split; [exact Hc|]. split; [exact Hd | exact Hall].
Qed.

(** X27.  When the synchronous call yields nothing, the run starts and its
    first poll finds a non-empty dataset, the handler has slept once,
    five seconds, and answers with the processed jobs; its fifth and
    last call writes their documents to the index, and the answer does
    not wait on the outcome of that write. *)
Theorem first_poll_completes_the_job_scrape
    (req : ScrapeJobs.JobScrapingRequest) (started : response RunData) (run : RunData)
    (found : response (list JobData)) (results : list JobData) :
  nonBlank (sanitizeInput (ScrapeJobs.keywords req)) ->
  jobsConfigured W ->
  match jobItems W 1 (jobsSyncRequest sanitizeInput W req) with
  | Rejected _ => True
  | Resolved r => ok r = false \/ json_body r = None \/ json_body r = Some []
  end ->
  runs W 2 (ScrapeJobs.runRequest (jobsActor W) (jobsToken W)
              (jobsInput sanitizeInput req)) = Resolved started ->
  ok started = true -> json_body started = Some run ->
  jobItems W 3 (ScrapeJobs.itemsRequest (jobsActor W) (jobsToken W) (run_id run))
    = Resolved found ->
  ok found = true -> json_body found = Some results -> results <> [] ->
  exists jobs,
    answer (ScrapeJobs.handleJobScraping sanitizeInput ELASTICSEARCH_API_KEY W req)
      = Normal (SuccessResponse
                  {| ScrapeJobs.data := jobs; ScrapeJobs.totalJobs := length results |}) /\
    Forall2 (processed (locationOf req)) results jobs /\
    naps (events (ScrapeJobs.handleJobScraping sanitizeInput ELASTICSEARCH_API_KEY W req))
      = [5000%Z] /\
    fetches (events (ScrapeJobs.handleJobScraping sanitizeInput ELASTICSEARCH_API_KEY W req))
      = [mappingRequest ELASTICSEARCH_API_KEY;
         jobsSyncRequest sanitizeInput W req;
         ScrapeJobs.runRequest (jobsActor W) (jobsToken W) (jobsInput sanitizeInput req);
         ScrapeJobs.itemsRequest (jobsActor W) (jobsToken W) (run_id run);
         bulkRequest ELASTICSEARCH_API_KEY
           (concat (bulkPairs W 0
              (map (ScrapeJobs.elasticsearchJob (ScrapeJobs.keywords req)) jobs)))].
Proof.
  intros [Ht Hl] [Htoken Hactor] Hsync Hrun Hok Hbody Hitems Hokf Hbodyf Hne.
  unfold jobsSyncRequest, jobsInput, jobsActor, jobsToken in *.
  unfold answer, events, ScrapeJobs.handleJobScraping.
  rewrite Ht, Hl, Htoken, Hactor. cbn [negb orb].
  destruct (initialize_run ELASTICSEARCH_API_KEY W (R := unit) start)
    as (c0 & Hinit & _ & _).
  unfold_eff. rewrite Hinit.
  destruct c0 as [[]|e|[]]; cbn [app bump calls reads draws start].
  all: destruct (jobItems W 1 _) as [e1|r1]; cbv beta iota zeta; cbn [app].
  all: try (destruct (ok r1) eqn:Hok1; cbn [app negb];
            [destruct Hsync as [Hs|[Hs|Hs]];
             [discriminate | rewrite Hs | rewrite Hs]; cbn [app] | ]).
  all: cbn [calls].
  all: rewrite Hrun; cbv beta iota zeta; rewrite Hok, Hbody; cbn [app negb calls reads draws].
  all: unfold ScrapeJobs.maxAttempts; rewrite (jobs_pollLoop_S 23); unfold_eff.
  all: match goal with
       | |- context [ScrapeJobs.pollOnce W ?a ?t ?r ?l ?s] =>
           destruct (jobs_pollOnce_finds a t r l s found results Hitems Hokf Hbodyf Hne)
             as (jobs & s4 & Hpoll & Hc4 & Hd4 & Hall);
           rewrite Hpoll
       end.
  all: cbn [app].
  all: assert (Hjobs : jobs <> [])
         by (intros ->; apply Forall2_length in Hall; destruct results;
             [contradiction | discriminate Hall]).
  all: destruct jobs as [|job jobs]; [contradiction|].
  all: match goal with
       | |- context [@ScrapeJobs.saveJobs ?key ?W' ?R ?kw ?js ?s] =>
           destruct (saveJobs_run key W' (R := R) kw js s)
             as (s5 & t & Hsaved & Hsave & Hsome);
           rewrite Hsaved
       end.
  all: destruct Hsave as [-> | ->]; [exfalso; exact (Hsome Hjobs eq_refl)|].
  all: cbn [calls reads draws] in Hd4; rewrite Hd4.
  all: exists (job :: jobs); cbn [app fst snd fetches naps].
  all: rewrite <- (Forall2_length Hall).
  all: repeat split; try reflexivity; exact Hall.
Qed.

End PolledScrape.

Section PolledScrapeExamples.
Import JS Json Types Eff.

(** The synchronous call is refused; the run starts and its first poll
    finds one job. *)
Definition promptWorld : World :=
  {| gemini := fun _ _ => unavailable;
     search := fun _ _ => unavailable;
     aggregate := fun _ _ => resolved JNull;
     elastic := fun _ _ => resolved JNull;
     jobItems := fun n _ => if n <? 3 then unavailable else resolved [rawJob];
     profileItems := fun _ _ => unavailable;
     runs := fun _ _ => resolved running;
     env := configured;
     clock := fun _ => "2025-01-01T00:00:00.000Z";
     dice := fun _ => [Digit 0; Dot; Digit 5] |}.

Lemma first_poll_completes_the_job_scrape_witness :
  nonBlank (identity (ScrapeJobs.keywords rustJobs)) /\
  jobsConfigured promptWorld /\
  exists jobs,
    answer (ScrapeJobs.handleJobScraping identity "key" promptWorld rustJobs)
      = Normal (SuccessResponse {| ScrapeJobs.data := jobs; ScrapeJobs.totalJobs := 1 |}) /\
    naps (events (ScrapeJobs.handleJobScraping identity "key" promptWorld rustJobs))
      = [5000%Z].
Proof.
  assert (Hq : nonBlank (identity (ScrapeJobs.keywords rustJobs))) by (split; reflexivity).
  assert (Hj : jobsConfigured promptWorld) by (split; reflexivity).
  assert (Hsync : match jobItems promptWorld 1 (jobsSyncRequest identity promptWorld rustJobs) with
                  | Rejected _ => True
                  | Resolved r => ok r = false \/ json_body r = None \/ json_body r = Some []
                  end) by (left; reflexivity).
  assert (Hne : [rawJob] <> []) by discriminate.
  split; [exact Hq|]. split; [exact Hj|].
  destruct (first_poll_completes_the_job_scrape identity "key" promptWorld rustJobs
              {| ok := true; status := 200; text := ""; json_body := Some running |}
              running
              {| ok := true; status := 200; text := ""; json_body := Some [rawJob] |}
              [rawJob] Hq Hj Hsync eq_refl eq_refl eq_refl eq_refl eq_refl eq_refl Hne)
    as (jobs & Hans & _ & Hnaps & _).
  exists jobs. split; [exact Hans | exact Hnaps].
Defined.

End PolledScrapeExamples.

(** ** The search URL handed to the actor *)

Section SearchUrl.
Import JS Json Types Eff.

(** How often a character occurs in a string. *)
Fixpoint occurrences (c : ascii) (s : string) : nat :=
  match s with
  | EmptyString => 0
  | String c' s' => (if Ascii.eqb c' c then 1 else 0) + occurrences c s'
  end.

Lemma occurrences_app c a b :
  occurrences c (a ++ b) = occurrences c a + occurrences c b.
Proof. induction a as [|x a IH]; simpl; [reflexivity|]. rewrite IH. lia. Qed.

Lemma hexDigit_cases n :
  n < 16 -> In (hexDigit n) (list_ascii_of_string "0123456789ABCDEF").
Proof.
  intros H. do 16 (destruct n as [|n]; [cbn; tauto|]). lia.
Qed.

(** Characters that are reserved in a URL and are no hexadecimal digit. *)
Definition delimiter (c : ascii) : Prop :=
  In c (list_ascii_of_string "?&=#/ ").

Lemma delimiter_not_unreserved c x :
  delimiter c -> isUnreserved x = true -> Ascii.eqb x c = false.
Proof.
  intros Hc. cbn in Hc.
  destruct x as [[] [] [] [] [] [] [] []]; vm_compute; try discriminate.
  all: intros _; intuition (subst; reflexivity).
Qed.

Lemma delimiter_not_hex c n :
  delimiter c -> n < 16 -> Ascii.eqb (hexDigit n) c = false.
Proof.
  intros Hc Hn. apply hexDigit_cases in Hn. cbn in Hc, Hn.
  repeat match goal with
         | H : _ \/ _ |- _ => destruct H
         end; try contradiction.
  all: subst c; match goal with H : _ = hexDigit _ |- _ => rewrite <- H end; reflexivity.
Qed.

Lemma percent_has_no_delimiter c byte rest :
  delimiter c -> byte < 256 ->
  occurrences c (percent byte rest) = occurrences c rest.
Proof.
  intros Hc Hb. unfold percent. cbn [occurrences].
  assert (Hhi : byte / 16 < 16) by (apply Nat.Div0.div_lt_upper_bound; lia).
  assert (Hlo : byte mod 16 < 16) by (apply Nat.mod_upper_bound; lia).
  rewrite (delimiter_not_hex c _ Hc Hhi), (delimiter_not_hex c _ Hc Hlo).
  assert (Hpct : Ascii.eqb "%" c = false) by (cbn in Hc; intuition (subst; reflexivity)).
  rewrite Hpct. reflexivity.
Qed.

Lemma encoded_has_no_delimiter c s :
  delimiter c -> occurrences c (encodeURIComponent s) = 0.
Proof.
  intros Hc. induction s as [|x s IH]; [reflexivity|].
  cbn [encodeURIComponent].
  assert (Hx : code x < 256) by (pose proof (nat_ascii_bounded x); unfold code; lia).
  destruct (isUnreserved x) eqn:E.
  - cbn [occurrences]. rewrite (delimiter_not_unreserved c x Hc E), IH. reflexivity.
  - cbv zeta. destruct (code x <? 128).
    + rewrite percent_has_no_delimiter by (assumption || lia). exact IH.
    + assert (Hq : code x / 64 < 4) by (apply Nat.Div0.div_lt_upper_bound; lia).
      pose proof (Nat.mod_upper_bound (code x) 64 ltac:(lia)) as Hm.
      rewrite !percent_has_no_delimiter by (assumption || lia). exact IH.
Qed.

(** X28.  Whatever the keywords and the location, the search URL has one
    query with two parameters: the keywords cannot close their parameter,
    add one, or start a fragment.  So for both routes that scrape jobs. *)
Theorem search_url_has_two_parameters (keywords location : string) :
  let scrape := ScrapeJobs.jobSearchUrl keywords location in
  let statistics := JobStatistics.jobSearchUrl keywords in
  (occurrences "?" scrape = 1 /\ occurrences "&" scrape = 1 /\
   occurrences "=" scrape = 2 /\ occurrences "#" scrape = 0 /\
   occurrences " " scrape = 0) /\
  (occurrences "?" statistics = 1 /\ occurrences "&" statistics = 1 /\
   occurrences "=" statistics = 2 /\ occurrences "#" statistics = 0 /\
   occurrences " " statistics = 0).
Proof.
  cbv zeta. unfold ScrapeJobs.jobSearchUrl, JobStatistics.jobSearchUrl.
  rewrite !occurrences_app.
  rewrite !encoded_has_no_delimiter by (cbn; tauto).
  repeat split; reflexivity.
Qed.

End SearchUrl.

(** ** The record of a scraped profile *)

Section ProfileRecord.
Import JS Json Types Eff.

Variable sanitizeInput : string -> string.
Variable W : World.

(** Every property of the record is present, [mobileNumber] apart,
    which is [null] when the payload has none. *)
Definition completeProfile (d : LinkedInProfileData) : bool :=
  defined (linkedinUrl d) && defined (firstName d) && defined (lastName d) &&
  defined (fullName d) && defined (headline d) && defined (connections d) &&
  defined (followers d) && defined (email d) && defined (jobTitle d) &&
  defined (p_companyName d) && defined (companyIndustry d) &&
  defined (p_companyWebsite d) && defined (companyLinkedin d) &&
  defined (companyFoundedIn d) && defined (companySize d) &&
  defined (currentJobDuration d) && defined (currentJobDurationInYrs d) &&
  defined (topSkillsByEndorsements d) && defined (addressCountryOnly d) &&
  defined (addressWithCountry d) && defined (addressWithoutCountry d) &&
  defined (profilePic d) && defined (profilePicHighQuality d) && defined (about d) &&
  defined (publicIdentifier d) && defined (experiences d) && defined (educations d) &&
  defined (skills d) && defined (licenseAndCertificates d) &&
  defined (volunteerAndAwards d) && defined (interests d) && defined (p_scrapedAt d).

(** [record] is what the route makes of [payload] for the sanitized
    [url]. *)
Definition recorded (url : string) (payload record : LinkedInProfileData) : Prop :=
  completeProfile record = true /\
  linkedinUrl record = Some url /\
  fullName record = Some (orStr (fullName payload) "") /\
  headline record = Some (orStr (headline payload) "") /\
  connections record = Some (orNum (connections payload) 0) /\
  mobileNumber record = ScrapeLinkedin.orNull (mobileNumber payload) /\
  sectionsOf payload record.

Lemma processedDataSync_recorded {R} url payload s :
  exists record s',
    ScrapeLinkedin.processedDataSync (R := R) W url payload s = (Normal record, s', []) /\
    calls s' = calls s /\
    recorded url payload record.
Proof.
  eexists _, _. split; [reflexivity|]. split; [reflexivity|].
  unfold recorded, sectionsOf. cbn. rewrite !sliceOrEmpty_firstn. repeat split.
Qed.

Lemma processedDataSync_stamp {R} url payload s record s' t :
  ScrapeLinkedin.processedDataSync (R := R) W url payload s = (Normal record, s', t) ->
  p_scrapedAt record = Some (clock W (reads s)).
Proof.
  unfold ScrapeLinkedin.processedDataSync. unfold_eff. cbn [app].
  intros H. injection H as <- _ _. reflexivity.
Qed.

(** The two object literals of the route, the one of the synchronous
    path and the one after the polling loop, build the same record. *)
Lemma processedData_agree {R} url payload s :
  ScrapeLinkedin.processedDataSync (R := R) W url payload s
  = ScrapeLinkedin.processedDataAsync (R := R) W url payload s.
Proof. reflexivity. Qed.

(** What [x || ''], [x || 0] and [x || null] keep of a property of the
    payload: the value when it is there, else the default, which is
    also what an empty text or a zero amounts to. *)
Definition keptText (x : option string) : string :=
  match x with Some s => s | None => EmptyString end.

Definition keptNumber (x : option Z) : Z :=
  match x with Some z => z | None => 0%Z end.

Definition keptOrNull (x : option string) : option string :=
  match x with Some EmptyString => None | _ => x end.

Definition keptList {A} (x : option (list A)) : list A :=
  match x with Some l => l | None => [] end.

Lemma orStr_kept x : orStr x "" = keptText x.
Proof. destruct x as [[|c s]|]; reflexivity. Qed.

Lemma orNum_kept x : orNum x 0 = keptNumber x.
Proof.
  destruct x as [z|]; [|reflexivity]. unfold orNum, keptNumber.
  destruct (z =? 0)%Z eqn:E; [|reflexivity]. apply Z.eqb_eq in E. now subst.
Qed.

Lemma orNull_kept x : ScrapeLinkedin.orNull x = keptOrNull x.
Proof. destruct x as [[|c s]|]; reflexivity. Qed.

(** The record the route makes of [payload] for the sanitized [url] at
    the time [stamp]. *)
Definition recordOf (url : string) (payload : LinkedInProfileData) (stamp : string)
  : LinkedInProfileData :=
  {| linkedinUrl := Some url;
     firstName := Some (keptText (firstName payload));
     lastName := Some (keptText (lastName payload));
     fullName := Some (keptText (fullName payload));
     headline := Some (keptText (headline payload));
     connections := Some (keptNumber (connections payload));
     followers := Some (keptNumber (followers payload));
     email := Some (keptText (email payload));
     mobileNumber := keptOrNull (mobileNumber payload);
     jobTitle := Some (keptText (jobTitle payload));
     p_companyName := Some (keptText (p_companyName payload));
     companyIndustry := Some (keptText (companyIndustry payload));
     p_companyWebsite := Some (keptText (p_companyWebsite payload));
     companyLinkedin := Some (keptText (companyLinkedin payload));
     companyFoundedIn := Some (keptNumber (companyFoundedIn payload));
     companySize := Some (keptText (companySize payload));
     currentJobDuration := Some (keptText (currentJobDuration payload));
     currentJobDurationInYrs := Some (keptNumber (currentJobDurationInYrs payload));
     topSkillsByEndorsements := Some (keptText (topSkillsByEndorsements payload));
     addressCountryOnly := Some (keptText (addressCountryOnly payload));
     addressWithCountry := Some (keptText (addressWithCountry payload));
     addressWithoutCountry := Some (keptText (addressWithoutCountry payload));
     profilePic := Some (keptText (profilePic payload));
     profilePicHighQuality := Some (keptText (profilePicHighQuality payload));
     about := Some (keptText (about payload));
     publicIdentifier := Some (keptText (publicIdentifier payload));
     experiences := Some (firstn 5 (keptList (experiences payload)));
     educations := Some (firstn 3 (keptList (educations payload)));
     skills := Some (firstn 15 (keptList (skills payload)));
     licenseAndCertificates := Some (firstn 5 (keptList (licenseAndCertificates payload)));
     volunteerAndAwards := Some (firstn 3 (keptList (volunteerAndAwards payload)));
     interests := Some (keptList (interests payload));
     p_scrapedAt := Some stamp |}.

Lemma processedDataSync_full {R} url payload s :
  exists s',
    ScrapeLinkedin.processedDataSync (R := R) W url payload s
      = (Normal (recordOf url payload (clock W (reads s))), s', []).
Proof.
  eexists. unfold ScrapeLinkedin.processedDataSync, recordOf. unfold_eff. cbn [app].
  rewrite !orStr_kept, !orNum_kept, !orNull_kept, !sliceOrEmpty_firstn.
  reflexivity.
Qed.

Lemma processedDataAsync_full {R} url payload s :
  exists s',
    ScrapeLinkedin.processedDataAsync (R := R) W url payload s
      = (Normal (recordOf url payload (clock W (reads s))), s', []).
Proof.
  eexists. unfold ScrapeLinkedin.processedDataAsync, recordOf. unfold_eff. cbn [app].
  rewrite !orStr_kept, !orNum_kept, !orNull_kept, !sliceOrEmpty_firstn.
  reflexivity.
Qed.

(** X29.  Every record that the profile scrape answers with, on either path,
    is made of a scraped payload in the same way, property by property:
    the URL is the sanitized one of the request, each text and number is
    the one of the payload or its default, a phone number that is
    missing or empty is [null], the five capped sections are cut and the
    interests are whole, and the stamp is a reading of the clock. *)
Theorem profile_record_is_complete (url : string) (record : LinkedInProfileData) :
  answer (ScrapeLinkedin.handleLinkedInScraping sanitizeInput W url)
    = Normal (SuccessResponse record) ->
  exists payload k,
    scraped W payload /\
    record
    = {| linkedinUrl := Some (sanitizeInput url);
         firstName := Some (match firstName payload with Some s => s | None => "" end);
         lastName := Some (match lastName payload with Some s => s | None => "" end);
         fullName := Some (match fullName payload with Some s => s | None => "" end);
         headline := Some (match headline payload with Some s => s | None => "" end);
         connections := Some (match connections payload with Some z => z | None => 0%Z end);
         followers := Some (match followers payload with Some z => z | None => 0%Z end);
         email := Some (match email payload with Some s => s | None => "" end);
         mobileNumber := match mobileNumber payload with
                         | Some EmptyString => None
                         | _ => mobileNumber payload
                         end;
         jobTitle := Some (match jobTitle payload with Some s => s | None => "" end);
         p_companyName :=
           Some (match p_companyName payload with Some s => s | None => "" end);
         companyIndustry :=
           Some (match companyIndustry payload with Some s => s | None => "" end);
         p_companyWebsite :=
           Some (match p_companyWebsite payload with Some s => s | None => "" end);
         companyLinkedin :=
           Some (match companyLinkedin payload with Some s => s | None => "" end);
         companyFoundedIn :=
           Some (match companyFoundedIn payload with Some z => z | None => 0%Z end);
         companySize := Some (match companySize payload with Some s => s | None => "" end);
         currentJobDuration :=
           Some (match currentJobDuration payload with Some s => s | None => "" end);
         currentJobDurationInYrs :=
           Some (match currentJobDurationInYrs payload with Some z => z | None => 0%Z end);
         topSkillsByEndorsements :=
           Some (match topSkillsByEndorsements payload with Some s => s | None => "" end);
         addressCountryOnly :=
           Some (match addressCountryOnly payload with Some s => s | None => "" end);
         addressWithCountry :=
           Some (match addressWithCountry payload with Some s => s | None => "" end);
         addressWithoutCountry :=
           Some (match addressWithoutCountry payload with Some s => s | None => "" end);
         profilePic := Some (match profilePic payload with Some s => s | None => "" end);
         profilePicHighQuality :=
           Some (match profilePicHighQuality payload with Some s => s | None => "" end);
         about := Some (match about payload with Some s => s | None => "" end);
         publicIdentifier :=
           Some (match publicIdentifier payload with Some s => s | None => "" end);
         experiences :=
           Some (firstn 5 (match experiences payload with Some l => l | None => [] end));
         educations :=
           Some (firstn 3 (match educations payload with Some l => l | None => [] end));
         skills :=
           Some (firstn 15 (match skills payload with Some l => l | None => [] end));
         licenseAndCertificates :=
           Some (firstn 5 (match licenseAndCertificates payload with
                           | Some l => l
                           | None => []
                           end));
         volunteerAndAwards :=
           Some (firstn 3 (match volunteerAndAwards payload with
                           | Some l => l
                           | None => []
                           end));
         interests := Some (match interests payload with Some l => l | None => [] end);
         p_scrapedAt := Some (clock W k) |}.
Proof.
  unfold answer, ScrapeLinkedin.handleLinkedInScraping.
  remember ScrapeLinkedin.maxAttempts as attempts eqn:Hatt.
  unfold_eff.
  repeat (first
    [ match goal with
      | |- context [@ScrapeLinkedin.processedDataSync ?W' ?R ?u ?p ?s] =>
          let Hr := fresh "Hr" in
          destruct (processedDataSync_full (R := R) u p s) as (? & Hr);
          rewrite Hr; clear Hr
      | |- context [@ScrapeLinkedin.processedDataAsync ?W' ?R ?u ?p ?s] =>
          let Hr := fresh "Hr" in
          destruct (processedDataAsync_full (R := R) u p s) as (? & Hr);
          rewrite Hr; clear Hr
      end
    | case_run ]; cbn [app negb fst snd]).
  all: intros H; try discriminate H.
  all: try match goal with
           | Hp : ScrapeLinkedin.pollLoop W ?n ?a ?t ?r ?s = _ |- _ =>
               destruct (profile_pollLoop_run W n a t r s)
                 as (? & ? & ? & Hrun & _ & _ & Hc);
               rewrite Hp in Hrun; injection Hrun as <- <- <-
           end.
  all: try contradiction.
  all: try (destruct Hc as [-> _]; discriminate H).
  all: injection H as <-.
  all: match goal with
       | |- exists payload k, _ /\ recordOf _ ?p (clock W ?r) = _ => exists p, r
       end; (split; [|reflexivity]).
  all: first [exact Hc | eexists _, _, _, _; split; eassumption].
Qed.

(** X30.  When the synchronous call answers with a dataset, the handler
    answers with the record of its first item after that one call: it
    neither sleeps nor starts a run, and the other items play no part. *)
Theorem sync_profile_uses_first_item
    (linkedinUrl : string) (r : response (list LinkedInProfileData))
    (payload : LinkedInProfileData) (others : list LinkedInProfileData) :
  truthy (sanitizeInput linkedinUrl) = true ->
  profilesConfigured W ->
  profileItems W 0 (ScrapeLinkedin.syncRequest (jobsToken W)
                      (ScrapeLinkedin.actorInput (sanitizeInput linkedinUrl)))
    = Resolved r ->
  ok r = true -> json_body r = Some (payload :: others) ->
  exists record,
    answer (ScrapeLinkedin.handleLinkedInScraping sanitizeInput W linkedinUrl)
      = Normal (SuccessResponse record) /\
    recorded (sanitizeInput linkedinUrl) payload record /\
    p_scrapedAt record = Some (clock W 0) /\
    events (ScrapeLinkedin.handleLinkedInScraping sanitizeInput W linkedinUrl)
      = [Fetch (ScrapeLinkedin.syncRequest (jobsToken W)
                  (ScrapeLinkedin.actorInput (sanitizeInput linkedinUrl)))].
Proof.
  intros Hurl [Htoken Hactor] Hsync Hok Hbody.
  unfold jobsToken in *.
  unfold answer, events, ScrapeLinkedin.handleLinkedInScraping.
  rewrite Hurl, Htoken, Hactor. cbn [negb orb].
  generalize ScrapeLinkedin.maxAttempts as attempts. intros attempts.
  unfold_eff. cbn [calls start]. rewrite Hsync. cbv beta iota zeta.
  rewrite Hok, Hbody.
  cbn [calls reads draws start].
  match goal with
  | |- context [@ScrapeLinkedin.processedDataSync ?W' ?R ?u ?p ?s] =>
      destruct (processedDataSync_recorded (R := R) u p s) as (record & s' & Hr & _ & Hrec)
  end.
  pose proof (processedDataSync_stamp _ _ _ _ _ _ Hr) as Hstamp.
  rewrite Hr. cbn [app fst snd].
  exists record. split; [reflexivity|]. split; [exact Hrec|].
  split; [exact Hstamp | reflexivity].
Qed.

End ProfileRecord.

Section ProfileRecordExamples.
Import JS Json Types Eff.

Lemma profile_record_is_complete_witness :
  exists record payload,
    answer (ScrapeLinkedin.handleLinkedInScraping identity pollingWorld
              "https://linkedin.com/in/ada")
      = Normal (SuccessResponse record) /\
    scraped pollingWorld payload /\
    Types.linkedinUrl record = Some "https://linkedin.com/in/ada" /\
    followers record = Some (match followers payload with Some z => z | None => 0%Z end) /\
    email record = Some (match email payload with Some s => s | None => "" end) /\
    interests record = Some (match interests payload with Some l => l | None => [] end).
Proof.
  eexists.
  destruct (profile_record_is_complete identity pollingWorld
              "https://linkedin.com/in/ada" _ eq_refl) as (payload & k & Hs & Hrec).
  exists payload. split; [reflexivity|]. split; [exact Hs|].
  split; [exact (f_equal Types.linkedinUrl Hrec)|].
  split; [exact (f_equal followers Hrec)|].
  split; [exact (f_equal email Hrec) | exact (f_equal interests Hrec)].
Defined.

Lemma sync_profile_uses_first_item_witness :
  profilesConfigured syncWorld /\
  exists record,
    answer (ScrapeLinkedin.handleLinkedInScraping identity syncWorld
              "https://linkedin.com/in/ada")
      = Normal (SuccessResponse record) /\
    fullName record = Some "Ada L." /\
    mobileNumber record = None.
Proof.
  assert (Hp : profilesConfigured syncWorld) by (split; reflexivity).
  split; [exact Hp|].
  destruct (sync_profile_uses_first_item identity syncWorld "https://linkedin.com/in/ada"
              {| ok := true; status := 200; text := ""; json_body := Some [busyProfile] |}
              busyProfile [] eq_refl Hp eq_refl eq_refl eq_refl)
    as (record & Hans & (_ & _ & Hname & _ & _ & Hphone & _) & _).
  exists record. split; [exact Hans|]. split; [exact Hname | exact Hphone].
Defined.

End ProfileRecordExamples.
